(** * The tenant runtime core of the EdgeDB server ([edb/server/tenant.py])

    A shallow embedding of the [Tenant] class: its state is a record, its
    methods are functions in a state-and-exception monad over that record
    and a trace of the calls made to the collaborators (backend connections,
    the connection pool, metrics).  Results of awaited operations, and the
    changes other tasks make to the tenant while a coroutine is suspended,
    are supplied by an explicit environment argument of each method.

    Logging is not modelled, and neither is the cancellation of a task
    ([asyncio.CancelledError], which no [except Exception] handles). *)

From Stdlib Require Import ZArith List Ascii Bool Lia.
From Stdlib.Strings Require Import Byte.
From stdpp Require Import base option list gmap sets strings.

Local Open Scope string_scope.
Local Open Scope Z_scope.

(** ** Python exceptions *)

(** Modelled from the spec: the SQLSTATE constants [ERROR_*] of
    [edb.server.pgcon.errors] are not part of the sources at hand.  A backend
    error code is identified by its kind, the way [BackendError.code_is]
    compares it (spec, section 4.1). *)
Inductive pg_error_code : Type :=
| ERROR_FEATURE_NOT_SUPPORTED
| ERROR_CANNOT_CONNECT_NOW
| ERROR_READ_ONLY_SQL_TRANSACTION
| ERROR_INVALID_CATALOG_NAME
| ERROR_OTHER (n : nat).

Definition pg_error_code_eqb (a b : pg_error_code) : bool :=
  match a, b with
  | ERROR_FEATURE_NOT_SUPPORTED, ERROR_FEATURE_NOT_SUPPORTED => true
  | ERROR_CANNOT_CONNECT_NOW, ERROR_CANNOT_CONNECT_NOW => true
  | ERROR_READ_ONLY_SQL_TRANSACTION, ERROR_READ_ONLY_SQL_TRANSACTION => true
  | ERROR_INVALID_CATALOG_NAME, ERROR_INVALID_CATALOG_NAME => true
  | ERROR_OTHER n, ERROR_OTHER m => Nat.eqb n m
  | _, _ => false
  end.

(** The exception classes the tenant raises or handles.  [ConnectionError]
    and [FileNotFoundError] are subclasses of [OSError] in Python 3. *)
Inductive exn : Type :=
| OSError (msg : string)
| ConnectionError (msg : string)
| FileNotFoundError (msg : string)
| BackendError (code : pg_error_code)
| ExecutionError (msg : string)
| BackendUnavailableError (msg : string)
| AuthenticationError (msg : string)
| RuntimeError (msg : string)
| TypeError (msg : string)
| ValueError (msg : string)
| StructError (msg : string)
| OtherException (name : string).

(** [isinstance(e, OSError)] *)
Definition is_OSError (e : exn) : bool :=
  match e with
  | OSError _ | ConnectionError _ | FileNotFoundError _ => true
  | _ => false
  end.

(** [isinstance(e, errors.ExecutionError)] *)
Definition is_ExecutionError (e : exn) : bool :=
  match e with ExecutionError _ => true | _ => false end.

(** [e.code_is(code)] for a [BackendError] *)
Definition code_is (e : exn) (code : pg_error_code) : bool :=
  match e with
  | BackendError c => pg_error_code_eqb c code
  | _ => false
  end.

Inductive result (A : Type) : Type :=
| Return (a : A)
| Raise (e : exn).
Arguments Return {A} a.
Arguments Raise {A} e.

(** ** Collaborators *)

(** A backend connection ([pgcon.PGConnection]) is an object held by
    reference: [pgcon_id] is its identity and [healthy] what [is_healthy()]
    answers when the tenant gets hold of it (what it answers at a later
    release is supplied by the environment); the method calls made on it
    are recorded in the trace. *)
Record PGConnection : Type := {
  pgcon_id : nat;
  healthy : bool
}.

Definition is_healthy (c : PGConnection) : bool := healthy c.

Definition ProtocolVersion : Type := Z * Z.
Definition bytes : Type := list byte.

(** [self._server]: the attributes and callbacks of the server the tenant
    reads. *)
Record BaseServer : Type := {
  stmt_cache_size : option Z;
  get_sys_query : string -> string;
  get_report_config_typedesc : gmap ProtocolVersion bytes
}.

(** [self._cluster] with its runtime parameters. *)
Record BaseCluster : Type := {
  has_create_database : bool;
  get_db_name : string -> string;
  _ha_backend : bool
}.

Record Pool : Type := {
  max_capacity : Z
}.

(** Constants of [edb.server.defines], which is not part of the sources at
    hand; they are parameters of the development. *)
Record Defines : Type := {
  EDGEDB_TEMPLATE_DB : string;
  EDGEDB_SYSTEM_DB : string;
  EDGEDB_SUPERUSER_DB : string;
  SYSTEM_DB_RECONNECT_INTERVAL : Z
}.

(** Modelled from the spec: [srvargs.ReadinessState] is not part of the
    sources at hand.  "ReadinessState -- one of {Default, ReadOnly, Offline,
    Blocked}" (spec, section 3). *)
Inductive ReadinessState : Type :=
| Default
| ReadOnly
| Offline
| Blocked.

Definition ReadinessState_eqb (a b : ReadinessState) : bool :=
  match a, b with
  | Default, Default | ReadOnly, ReadOnly
  | Offline, Offline | Blocked, Blocked => true
  | _, _ => false
  end.

(** Modelled from the spec: [dbview.DatabaseIndex] is not part of the sources
    at hand.  "DbIndex -- a mapping from database name to DatabaseEntry"
    whose entry has the fields below, nullable before full introspection,
    "plus per-entry open views" (spec, section 3); [views] counts them.  The
    version counter [dbver] is left out. *)
Record Database : Type := {
  user_schema_pickle : option bytes;
  db_config : option (gmap string string);
  reflection_cache : option (gmap string (list string));
  backend_ids : option (gmap string Z);
  extensions : gset string;
  ext_config_settings : option (list string);
  views : nat
}.

(** Modelled from the spec: [dbview.DatabaseIndex], "a mapping from database
    name to DatabaseEntry" (spec, section 3). *)
Record DatabaseIndex : Type := {
  _dbs : gmap string Database
}.

(** ** The tenant *)

Record Tenant : Type := {
  _server : BaseServer;
  _cluster : BaseCluster;
  _instance_name : string;
  _dbindex : option DatabaseIndex;
  _initing : bool;
  _running : bool;
  _accepting_connections : bool;
  _accept_new_tasks : bool;
  _Tenant__sys_pgcon : option PGConnection;
  _sys_pgcon_waiter : bool;
  _sys_pgcon_ready_evt : bool;
  _sys_pgcon_reconnect_evt : bool;
  _pg_pool : Pool;
  _pg_unavailable_msg : option string;
  _ha_master_serial : Z;
  _backend_adaptive_ha : bool;
  _readiness_state_file : option string;
  _readiness : ReadinessState;
  _readiness_reason : string;
  _block_new_connections : gset string;
  _report_config_data : gmap ProtocolVersion bytes;
  _jwt_sub_allowlist : option (gset string);
  _jwt_revocation_list : option (gset string)
}.

(** Attribute assignment [self.<field> = v]. *)
Definition assign_dbindex (v : option DatabaseIndex) (t : Tenant) : Tenant :=
  {| _server := _server t; _cluster := _cluster t;
     _instance_name := _instance_name t; _dbindex := v;
     _initing := _initing t; _running := _running t;
     _accepting_connections := _accepting_connections t;
     _accept_new_tasks := _accept_new_tasks t;
     _Tenant__sys_pgcon := _Tenant__sys_pgcon t;
     _sys_pgcon_waiter := _sys_pgcon_waiter t;
     _sys_pgcon_ready_evt := _sys_pgcon_ready_evt t;
     _sys_pgcon_reconnect_evt := _sys_pgcon_reconnect_evt t;
     _pg_pool := _pg_pool t; _pg_unavailable_msg := _pg_unavailable_msg t;
     _ha_master_serial := _ha_master_serial t;
     _backend_adaptive_ha := _backend_adaptive_ha t;
     _readiness_state_file := _readiness_state_file t;
     _readiness := _readiness t; _readiness_reason := _readiness_reason t;
     _block_new_connections := _block_new_connections t;
     _report_config_data := _report_config_data t;
     _jwt_sub_allowlist := _jwt_sub_allowlist t;
     _jwt_revocation_list := _jwt_revocation_list t |}.
Definition assign_running (v : bool) (t : Tenant) : Tenant :=
  {| _server := _server t; _cluster := _cluster t;
     _instance_name := _instance_name t; _dbindex := _dbindex t;
     _initing := _initing t; _running := v;
     _accepting_connections := _accepting_connections t;
     _accept_new_tasks := _accept_new_tasks t;
     _Tenant__sys_pgcon := _Tenant__sys_pgcon t;
     _sys_pgcon_waiter := _sys_pgcon_waiter t;
     _sys_pgcon_ready_evt := _sys_pgcon_ready_evt t;
     _sys_pgcon_reconnect_evt := _sys_pgcon_reconnect_evt t;
     _pg_pool := _pg_pool t; _pg_unavailable_msg := _pg_unavailable_msg t;
     _ha_master_serial := _ha_master_serial t;
     _backend_adaptive_ha := _backend_adaptive_ha t;
     _readiness_state_file := _readiness_state_file t;
     _readiness := _readiness t; _readiness_reason := _readiness_reason t;
     _block_new_connections := _block_new_connections t;
     _report_config_data := _report_config_data t;
     _jwt_sub_allowlist := _jwt_sub_allowlist t;
     _jwt_revocation_list := _jwt_revocation_list t |}.
Definition assign_accepting_connections (v : bool) (t : Tenant) : Tenant :=
  {| _server := _server t; _cluster := _cluster t;
     _instance_name := _instance_name t; _dbindex := _dbindex t;
     _initing := _initing t; _running := _running t;
     _accepting_connections := v; _accept_new_tasks := _accept_new_tasks t;
     _Tenant__sys_pgcon := _Tenant__sys_pgcon t;
     _sys_pgcon_waiter := _sys_pgcon_waiter t;
     _sys_pgcon_ready_evt := _sys_pgcon_ready_evt t;
     _sys_pgcon_reconnect_evt := _sys_pgcon_reconnect_evt t;
     _pg_pool := _pg_pool t; _pg_unavailable_msg := _pg_unavailable_msg t;
     _ha_master_serial := _ha_master_serial t;
     _backend_adaptive_ha := _backend_adaptive_ha t;
     _readiness_state_file := _readiness_state_file t;
     _readiness := _readiness t; _readiness_reason := _readiness_reason t;
     _block_new_connections := _block_new_connections t;
     _report_config_data := _report_config_data t;
     _jwt_sub_allowlist := _jwt_sub_allowlist t;
     _jwt_revocation_list := _jwt_revocation_list t |}.
Definition assign_sys_pgcon (v : option PGConnection) (t : Tenant) : Tenant :=
  {| _server := _server t; _cluster := _cluster t;
     _instance_name := _instance_name t; _dbindex := _dbindex t;
     _initing := _initing t; _running := _running t;
     _accepting_connections := _accepting_connections t;
     _accept_new_tasks := _accept_new_tasks t; _Tenant__sys_pgcon := v;
     _sys_pgcon_waiter := _sys_pgcon_waiter t;
     _sys_pgcon_ready_evt := _sys_pgcon_ready_evt t;
     _sys_pgcon_reconnect_evt := _sys_pgcon_reconnect_evt t;
     _pg_pool := _pg_pool t; _pg_unavailable_msg := _pg_unavailable_msg t;
     _ha_master_serial := _ha_master_serial t;
     _backend_adaptive_ha := _backend_adaptive_ha t;
     _readiness_state_file := _readiness_state_file t;
     _readiness := _readiness t; _readiness_reason := _readiness_reason t;
     _block_new_connections := _block_new_connections t;
     _report_config_data := _report_config_data t;
     _jwt_sub_allowlist := _jwt_sub_allowlist t;
     _jwt_revocation_list := _jwt_revocation_list t |}.
Definition assign_sys_pgcon_waiter (v : bool) (t : Tenant) : Tenant :=
  {| _server := _server t; _cluster := _cluster t;
     _instance_name := _instance_name t; _dbindex := _dbindex t;
     _initing := _initing t; _running := _running t;
     _accepting_connections := _accepting_connections t;
     _accept_new_tasks := _accept_new_tasks t;
     _Tenant__sys_pgcon := _Tenant__sys_pgcon t; _sys_pgcon_waiter := v;
     _sys_pgcon_ready_evt := _sys_pgcon_ready_evt t;
     _sys_pgcon_reconnect_evt := _sys_pgcon_reconnect_evt t;
     _pg_pool := _pg_pool t; _pg_unavailable_msg := _pg_unavailable_msg t;
     _ha_master_serial := _ha_master_serial t;
     _backend_adaptive_ha := _backend_adaptive_ha t;
     _readiness_state_file := _readiness_state_file t;
     _readiness := _readiness t; _readiness_reason := _readiness_reason t;
     _block_new_connections := _block_new_connections t;
     _report_config_data := _report_config_data t;
     _jwt_sub_allowlist := _jwt_sub_allowlist t;
     _jwt_revocation_list := _jwt_revocation_list t |}.
Definition assign_sys_pgcon_ready_evt (v : bool) (t : Tenant) : Tenant :=
  {| _server := _server t; _cluster := _cluster t;
     _instance_name := _instance_name t; _dbindex := _dbindex t;
     _initing := _initing t; _running := _running t;
     _accepting_connections := _accepting_connections t;
     _accept_new_tasks := _accept_new_tasks t;
     _Tenant__sys_pgcon := _Tenant__sys_pgcon t;
     _sys_pgcon_waiter := _sys_pgcon_waiter t; _sys_pgcon_ready_evt := v;
     _sys_pgcon_reconnect_evt := _sys_pgcon_reconnect_evt t;
     _pg_pool := _pg_pool t; _pg_unavailable_msg := _pg_unavailable_msg t;
     _ha_master_serial := _ha_master_serial t;
     _backend_adaptive_ha := _backend_adaptive_ha t;
     _readiness_state_file := _readiness_state_file t;
     _readiness := _readiness t; _readiness_reason := _readiness_reason t;
     _block_new_connections := _block_new_connections t;
     _report_config_data := _report_config_data t;
     _jwt_sub_allowlist := _jwt_sub_allowlist t;
     _jwt_revocation_list := _jwt_revocation_list t |}.
Definition assign_sys_pgcon_reconnect_evt (v : bool) (t : Tenant) : Tenant :=
  {| _server := _server t; _cluster := _cluster t;
     _instance_name := _instance_name t; _dbindex := _dbindex t;
     _initing := _initing t; _running := _running t;
     _accepting_connections := _accepting_connections t;
     _accept_new_tasks := _accept_new_tasks t;
     _Tenant__sys_pgcon := _Tenant__sys_pgcon t;
     _sys_pgcon_waiter := _sys_pgcon_waiter t;
     _sys_pgcon_ready_evt := _sys_pgcon_ready_evt t;
     _sys_pgcon_reconnect_evt := v; _pg_pool := _pg_pool t;
     _pg_unavailable_msg := _pg_unavailable_msg t;
     _ha_master_serial := _ha_master_serial t;
     _backend_adaptive_ha := _backend_adaptive_ha t;
     _readiness_state_file := _readiness_state_file t;
     _readiness := _readiness t; _readiness_reason := _readiness_reason t;
     _block_new_connections := _block_new_connections t;
     _report_config_data := _report_config_data t;
     _jwt_sub_allowlist := _jwt_sub_allowlist t;
     _jwt_revocation_list := _jwt_revocation_list t |}.
Definition assign_pg_unavailable_msg (v : option string) (t : Tenant) : Tenant :=
  {| _server := _server t; _cluster := _cluster t;
     _instance_name := _instance_name t; _dbindex := _dbindex t;
     _initing := _initing t; _running := _running t;
     _accepting_connections := _accepting_connections t;
     _accept_new_tasks := _accept_new_tasks t;
     _Tenant__sys_pgcon := _Tenant__sys_pgcon t;
     _sys_pgcon_waiter := _sys_pgcon_waiter t;
     _sys_pgcon_ready_evt := _sys_pgcon_ready_evt t;
     _sys_pgcon_reconnect_evt := _sys_pgcon_reconnect_evt t;
     _pg_pool := _pg_pool t; _pg_unavailable_msg := v;
     _ha_master_serial := _ha_master_serial t;
     _backend_adaptive_ha := _backend_adaptive_ha t;
     _readiness_state_file := _readiness_state_file t;
     _readiness := _readiness t; _readiness_reason := _readiness_reason t;
     _block_new_connections := _block_new_connections t;
     _report_config_data := _report_config_data t;
     _jwt_sub_allowlist := _jwt_sub_allowlist t;
     _jwt_revocation_list := _jwt_revocation_list t |}.
Definition assign_ha_master_serial (v : Z) (t : Tenant) : Tenant :=
  {| _server := _server t; _cluster := _cluster t;
     _instance_name := _instance_name t; _dbindex := _dbindex t;
     _initing := _initing t; _running := _running t;
     _accepting_connections := _accepting_connections t;
     _accept_new_tasks := _accept_new_tasks t;
     _Tenant__sys_pgcon := _Tenant__sys_pgcon t;
     _sys_pgcon_waiter := _sys_pgcon_waiter t;
     _sys_pgcon_ready_evt := _sys_pgcon_ready_evt t;
     _sys_pgcon_reconnect_evt := _sys_pgcon_reconnect_evt t;
     _pg_pool := _pg_pool t; _pg_unavailable_msg := _pg_unavailable_msg t;
     _ha_master_serial := v; _backend_adaptive_ha := _backend_adaptive_ha t;
     _readiness_state_file := _readiness_state_file t;
     _readiness := _readiness t; _readiness_reason := _readiness_reason t;
     _block_new_connections := _block_new_connections t;
     _report_config_data := _report_config_data t;
     _jwt_sub_allowlist := _jwt_sub_allowlist t;
     _jwt_revocation_list := _jwt_revocation_list t |}.
Definition assign_readiness (v : ReadinessState) (t : Tenant) : Tenant :=
  {| _server := _server t; _cluster := _cluster t;
     _instance_name := _instance_name t; _dbindex := _dbindex t;
     _initing := _initing t; _running := _running t;
     _accepting_connections := _accepting_connections t;
     _accept_new_tasks := _accept_new_tasks t;
     _Tenant__sys_pgcon := _Tenant__sys_pgcon t;
     _sys_pgcon_waiter := _sys_pgcon_waiter t;
     _sys_pgcon_ready_evt := _sys_pgcon_ready_evt t;
     _sys_pgcon_reconnect_evt := _sys_pgcon_reconnect_evt t;
     _pg_pool := _pg_pool t; _pg_unavailable_msg := _pg_unavailable_msg t;
     _ha_master_serial := _ha_master_serial t;
     _backend_adaptive_ha := _backend_adaptive_ha t;
     _readiness_state_file := _readiness_state_file t; _readiness := v;
     _readiness_reason := _readiness_reason t;
     _block_new_connections := _block_new_connections t;
     _report_config_data := _report_config_data t;
     _jwt_sub_allowlist := _jwt_sub_allowlist t;
     _jwt_revocation_list := _jwt_revocation_list t |}.
Definition assign_readiness_reason (v : string) (t : Tenant) : Tenant :=
  {| _server := _server t; _cluster := _cluster t;
     _instance_name := _instance_name t; _dbindex := _dbindex t;
     _initing := _initing t; _running := _running t;
     _accepting_connections := _accepting_connections t;
     _accept_new_tasks := _accept_new_tasks t;
     _Tenant__sys_pgcon := _Tenant__sys_pgcon t;
     _sys_pgcon_waiter := _sys_pgcon_waiter t;
     _sys_pgcon_ready_evt := _sys_pgcon_ready_evt t;
     _sys_pgcon_reconnect_evt := _sys_pgcon_reconnect_evt t;
     _pg_pool := _pg_pool t; _pg_unavailable_msg := _pg_unavailable_msg t;
     _ha_master_serial := _ha_master_serial t;
     _backend_adaptive_ha := _backend_adaptive_ha t;
     _readiness_state_file := _readiness_state_file t;
     _readiness := _readiness t; _readiness_reason := v;
     _block_new_connections := _block_new_connections t;
     _report_config_data := _report_config_data t;
     _jwt_sub_allowlist := _jwt_sub_allowlist t;
     _jwt_revocation_list := _jwt_revocation_list t |}.
Definition assign_block_new_connections (v : gset string) (t : Tenant) : Tenant :=
  {| _server := _server t; _cluster := _cluster t;
     _instance_name := _instance_name t; _dbindex := _dbindex t;
     _initing := _initing t; _running := _running t;
     _accepting_connections := _accepting_connections t;
     _accept_new_tasks := _accept_new_tasks t;
     _Tenant__sys_pgcon := _Tenant__sys_pgcon t;
     _sys_pgcon_waiter := _sys_pgcon_waiter t;
     _sys_pgcon_ready_evt := _sys_pgcon_ready_evt t;
     _sys_pgcon_reconnect_evt := _sys_pgcon_reconnect_evt t;
     _pg_pool := _pg_pool t; _pg_unavailable_msg := _pg_unavailable_msg t;
     _ha_master_serial := _ha_master_serial t;
     _backend_adaptive_ha := _backend_adaptive_ha t;
     _readiness_state_file := _readiness_state_file t;
     _readiness := _readiness t; _readiness_reason := _readiness_reason t;
     _block_new_connections := v;
     _report_config_data := _report_config_data t;
     _jwt_sub_allowlist := _jwt_sub_allowlist t;
     _jwt_revocation_list := _jwt_revocation_list t |}.
Definition assign_report_config_data (v : gmap ProtocolVersion bytes) (t : Tenant) : Tenant :=
  {| _server := _server t; _cluster := _cluster t;
     _instance_name := _instance_name t; _dbindex := _dbindex t;
     _initing := _initing t; _running := _running t;
     _accepting_connections := _accepting_connections t;
     _accept_new_tasks := _accept_new_tasks t;
     _Tenant__sys_pgcon := _Tenant__sys_pgcon t;
     _sys_pgcon_waiter := _sys_pgcon_waiter t;
     _sys_pgcon_ready_evt := _sys_pgcon_ready_evt t;
     _sys_pgcon_reconnect_evt := _sys_pgcon_reconnect_evt t;
     _pg_pool := _pg_pool t; _pg_unavailable_msg := _pg_unavailable_msg t;
     _ha_master_serial := _ha_master_serial t;
     _backend_adaptive_ha := _backend_adaptive_ha t;
     _readiness_state_file := _readiness_state_file t;
     _readiness := _readiness t; _readiness_reason := _readiness_reason t;
     _block_new_connections := _block_new_connections t;
     _report_config_data := v; _jwt_sub_allowlist := _jwt_sub_allowlist t;
     _jwt_revocation_list := _jwt_revocation_list t |}.
Definition assign_initing (v : bool) (t : Tenant) : Tenant :=
  {| _server := _server t; _cluster := _cluster t;
     _instance_name := _instance_name t; _dbindex := _dbindex t;
     _initing := v; _running := _running t;
     _accepting_connections := _accepting_connections t;
     _accept_new_tasks := _accept_new_tasks t;
     _Tenant__sys_pgcon := _Tenant__sys_pgcon t;
     _sys_pgcon_waiter := _sys_pgcon_waiter t;
     _sys_pgcon_ready_evt := _sys_pgcon_ready_evt t;
     _sys_pgcon_reconnect_evt := _sys_pgcon_reconnect_evt t;
     _pg_pool := _pg_pool t; _pg_unavailable_msg := _pg_unavailable_msg t;
     _ha_master_serial := _ha_master_serial t;
     _backend_adaptive_ha := _backend_adaptive_ha t;
     _readiness_state_file := _readiness_state_file t;
     _readiness := _readiness t; _readiness_reason := _readiness_reason t;
     _block_new_connections := _block_new_connections t;
     _report_config_data := _report_config_data t;
     _jwt_sub_allowlist := _jwt_sub_allowlist t;
     _jwt_revocation_list := _jwt_revocation_list t |}.
Definition assign_accept_new_tasks (v : bool) (t : Tenant) : Tenant :=
  {| _server := _server t; _cluster := _cluster t;
     _instance_name := _instance_name t; _dbindex := _dbindex t;
     _initing := _initing t; _running := _running t;
     _accepting_connections := _accepting_connections t;
     _accept_new_tasks := v; _Tenant__sys_pgcon := _Tenant__sys_pgcon t;
     _sys_pgcon_waiter := _sys_pgcon_waiter t;
     _sys_pgcon_ready_evt := _sys_pgcon_ready_evt t;
     _sys_pgcon_reconnect_evt := _sys_pgcon_reconnect_evt t;
     _pg_pool := _pg_pool t; _pg_unavailable_msg := _pg_unavailable_msg t;
     _ha_master_serial := _ha_master_serial t;
     _backend_adaptive_ha := _backend_adaptive_ha t;
     _readiness_state_file := _readiness_state_file t;
     _readiness := _readiness t; _readiness_reason := _readiness_reason t;
     _block_new_connections := _block_new_connections t;
     _report_config_data := _report_config_data t;
     _jwt_sub_allowlist := _jwt_sub_allowlist t;
     _jwt_revocation_list := _jwt_revocation_list t |}.
Definition assign_pg_pool (v : Pool) (t : Tenant) : Tenant :=
  {| _server := _server t; _cluster := _cluster t;
     _instance_name := _instance_name t; _dbindex := _dbindex t;
     _initing := _initing t; _running := _running t;
     _accepting_connections := _accepting_connections t;
     _accept_new_tasks := _accept_new_tasks t;
     _Tenant__sys_pgcon := _Tenant__sys_pgcon t;
     _sys_pgcon_waiter := _sys_pgcon_waiter t;
     _sys_pgcon_ready_evt := _sys_pgcon_ready_evt t;
     _sys_pgcon_reconnect_evt := _sys_pgcon_reconnect_evt t; _pg_pool := v;
     _pg_unavailable_msg := _pg_unavailable_msg t;
     _ha_master_serial := _ha_master_serial t;
     _backend_adaptive_ha := _backend_adaptive_ha t;
     _readiness_state_file := _readiness_state_file t;
     _readiness := _readiness t; _readiness_reason := _readiness_reason t;
     _block_new_connections := _block_new_connections t;
     _report_config_data := _report_config_data t;
     _jwt_sub_allowlist := _jwt_sub_allowlist t;
     _jwt_revocation_list := _jwt_revocation_list t |}.
Definition assign_backend_adaptive_ha (v : bool) (t : Tenant) : Tenant :=
  {| _server := _server t; _cluster := _cluster t;
     _instance_name := _instance_name t; _dbindex := _dbindex t;
     _initing := _initing t; _running := _running t;
     _accepting_connections := _accepting_connections t;
     _accept_new_tasks := _accept_new_tasks t;
     _Tenant__sys_pgcon := _Tenant__sys_pgcon t;
     _sys_pgcon_waiter := _sys_pgcon_waiter t;
     _sys_pgcon_ready_evt := _sys_pgcon_ready_evt t;
     _sys_pgcon_reconnect_evt := _sys_pgcon_reconnect_evt t;
     _pg_pool := _pg_pool t; _pg_unavailable_msg := _pg_unavailable_msg t;
     _ha_master_serial := _ha_master_serial t; _backend_adaptive_ha := v;
     _readiness_state_file := _readiness_state_file t;
     _readiness := _readiness t; _readiness_reason := _readiness_reason t;
     _block_new_connections := _block_new_connections t;
     _report_config_data := _report_config_data t;
     _jwt_sub_allowlist := _jwt_sub_allowlist t;
     _jwt_revocation_list := _jwt_revocation_list t |}.
Definition assign_readiness_state_file (v : option string) (t : Tenant) : Tenant :=
  {| _server := _server t; _cluster := _cluster t;
     _instance_name := _instance_name t; _dbindex := _dbindex t;
     _initing := _initing t; _running := _running t;
     _accepting_connections := _accepting_connections t;
     _accept_new_tasks := _accept_new_tasks t;
     _Tenant__sys_pgcon := _Tenant__sys_pgcon t;
     _sys_pgcon_waiter := _sys_pgcon_waiter t;
     _sys_pgcon_ready_evt := _sys_pgcon_ready_evt t;
     _sys_pgcon_reconnect_evt := _sys_pgcon_reconnect_evt t;
     _pg_pool := _pg_pool t; _pg_unavailable_msg := _pg_unavailable_msg t;
     _ha_master_serial := _ha_master_serial t;
     _backend_adaptive_ha := _backend_adaptive_ha t;
     _readiness_state_file := v; _readiness := _readiness t;
     _readiness_reason := _readiness_reason t;
     _block_new_connections := _block_new_connections t;
     _report_config_data := _report_config_data t;
     _jwt_sub_allowlist := _jwt_sub_allowlist t;
     _jwt_revocation_list := _jwt_revocation_list t |}.
Definition assign_jwt_sub_allowlist (v : option (gset string)) (t : Tenant) : Tenant :=
  {| _server := _server t; _cluster := _cluster t;
     _instance_name := _instance_name t; _dbindex := _dbindex t;
     _initing := _initing t; _running := _running t;
     _accepting_connections := _accepting_connections t;
     _accept_new_tasks := _accept_new_tasks t;
     _Tenant__sys_pgcon := _Tenant__sys_pgcon t;
     _sys_pgcon_waiter := _sys_pgcon_waiter t;
     _sys_pgcon_ready_evt := _sys_pgcon_ready_evt t;
     _sys_pgcon_reconnect_evt := _sys_pgcon_reconnect_evt t;
     _pg_pool := _pg_pool t; _pg_unavailable_msg := _pg_unavailable_msg t;
     _ha_master_serial := _ha_master_serial t;
     _backend_adaptive_ha := _backend_adaptive_ha t;
     _readiness_state_file := _readiness_state_file t;
     _readiness := _readiness t; _readiness_reason := _readiness_reason t;
     _block_new_connections := _block_new_connections t;
     _report_config_data := _report_config_data t; _jwt_sub_allowlist := v;
     _jwt_revocation_list := _jwt_revocation_list t |}.
Definition assign_jwt_revocation_list (v : option (gset string)) (t : Tenant) : Tenant :=
  {| _server := _server t; _cluster := _cluster t;
     _instance_name := _instance_name t; _dbindex := _dbindex t;
     _initing := _initing t; _running := _running t;
     _accepting_connections := _accepting_connections t;
     _accept_new_tasks := _accept_new_tasks t;
     _Tenant__sys_pgcon := _Tenant__sys_pgcon t;
     _sys_pgcon_waiter := _sys_pgcon_waiter t;
     _sys_pgcon_ready_evt := _sys_pgcon_ready_evt t;
     _sys_pgcon_reconnect_evt := _sys_pgcon_reconnect_evt t;
     _pg_pool := _pg_pool t; _pg_unavailable_msg := _pg_unavailable_msg t;
     _ha_master_serial := _ha_master_serial t;
     _backend_adaptive_ha := _backend_adaptive_ha t;
     _readiness_state_file := _readiness_state_file t;
     _readiness := _readiness t; _readiness_reason := _readiness_reason t;
     _block_new_connections := _block_new_connections t;
     _report_config_data := _report_config_data t;
     _jwt_sub_allowlist := _jwt_sub_allowlist t; _jwt_revocation_list := v |}.

(** ** Calls to the collaborators, and the monad of tenant methods *)

(** What a method does to the world outside the tenant record: the calls on
    backend connections, on the pool, on the adaptive-HA helper, on the
    metrics registry and on the event loop, in the order they are made. *)
Inductive event : Type :=
| metrics_inc (metric : string) (labels : list string)
| metrics_observe (metric : string) (labels : list string)
| pgcon_connect (pg_dbname : string)
| pgcon_set_stmt_cache_size (c : PGConnection) (size : Z)
| pgcon_set_tenant (c : PGConnection)
| pgcon_terminate (c : PGConnection)
| pgcon_abort (c : PGConnection)
| pgcon_mark_as_system_db (c : PGConnection)
| pgcon_listen_for_sysevent (c : PGConnection)
| pgcon_signal_sysevent (c : PGConnection) (name dbname : string)
| pgcon_sql_fetch_val (c : PGConnection) (query : string)
| pgcon_sql_fetch_col (c : PGConnection) (query : string) (args : list string)
| adaptive_ha_on_pgcon_made (is_system_db : bool)
| adaptive_ha_set_state_failover (call_on_switch_over : bool)
| pool_acquire (dbname : string)
| pool_release (dbname : string) (c : PGConnection) (discard : bool)
| pool_prune_inactive_connections (dbname : string)
| create_task_prune_all_connections
| asyncio_sleep (delay : Z)
| asyncio_wait_for (timeout : Z).

Record World : Type := {
  tenant : Tenant;
  trace : list event
}.

Definition M (A : Type) : Type := World -> result A * World.

Definition ret {A} (a : A) : M A := fun w => (Return a, w).

Definition raise {A} (e : exn) : M A := fun w => (Raise e, w).

Definition bind {A B} (m : M A) (k : A -> M B) : M B :=
  fun w =>
    match m w with
    | (Return a, w') => k a w'
    | (Raise e, w') => (Raise e, w')
    end.

Declare Scope tenant_scope.
Delimit Scope tenant_scope with tenant.
Notation "x ← y ; z" := (bind y (fun x => z))
  (at level 20, y at level 100, z at level 200, only parsing) : tenant_scope.
Notation "y ;; z" := (bind y (fun _ => z))
  (at level 100, z at level 200, only parsing, right associativity)
  : tenant_scope.
Local Open Scope tenant_scope.

(** Read an attribute of [self]. *)
Definition self {A} (field : Tenant -> A) : M A :=
  fun w => (Return (field (tenant w)), w).

(** Update [self]. *)
Definition update (f : Tenant -> Tenant) : M unit :=
  fun w => (Return tt, {| tenant := f (tenant w); trace := trace w |}).

(** Record a call to a collaborator. *)
Definition call (ev : event) : M unit :=
  fun w => (Return tt, {| tenant := tenant w; trace := (trace w ++ [ev])%list |}).

(** A suspension point ([await]): the tasks scheduled meanwhile change the
    tenant by [others]. *)
Definition suspend (others : Tenant -> Tenant) : M unit := update others.

(** The value, or the exception, an awaited operation ends with. *)
Definition resume {A} (r : result A) : M A :=
  match r with
  | Return a => ret a
  | Raise e => raise e
  end.

(** [try: m  except Exception as e: handler e] *)
Definition try_except {A} (m : M A) (handler : exn -> M A) : M A :=
  fun w =>
    match m w with
    | (Return a, w') => (Return a, w')
    | (Raise e, w') => handler e w'
    end.

(** [try: m  finally: final] *)
Definition try_finally {A} (m : M A) (final : M unit) : M A :=
  fun w =>
    match m w with
    | (r, w') =>
        match final w' with
        | (Return _, w'') => (r, w'')
        | (Raise e, w'') => (Raise e, w'')
        end
    end.

(** [if cond: m] *)
Definition when (cond : bool) (m : M unit) : M unit :=
  if cond then m else ret tt.

(** ** Failover and backend connections *)

(** [Tenant.on_switch_over] *)
Definition on_switch_over : M unit :=
  update (fun t => assign_ha_master_serial (_ha_master_serial t + 1) t);;
  accept ← self _accept_new_tasks;
  when accept (call create_task_prune_all_connections);;
  sys_pgcon ← self _Tenant__sys_pgcon;
  match sys_pgcon with
  | None => update (assign_sys_pgcon_reconnect_evt true)
  | Some c => call (pgcon_abort c)
  end;;
  adaptive ← self _backend_adaptive_ha;
  when adaptive (call (adaptive_ha_set_state_failover false)).

(** What the event loop and the backend supply to one [pgcon.connect]: the
    connection or the exception it ends with, and what the other tasks did
    to the tenant while the coroutine was suspended in it. *)
Record ConnectEnv : Type := {
  connect_result : result PGConnection;
  during_connect : Tenant -> Tenant
}.

(** [Tenant._pg_connect] *)
Definition _pg_connect (defines : Defines) (env : ConnectEnv) (dbname : string)
  : M PGConnection :=
  ha_serial ← self _ha_master_serial;
  cluster ← self _cluster;
  let pg_dbname :=
    if has_create_database cluster then get_db_name cluster dbname
    else get_db_name cluster (EDGEDB_SUPERUSER_DB defines) in
  instance_name ← self _instance_name;
  rv ← try_finally
         (try_except
            (call (pgcon_connect pg_dbname);;
             suspend (during_connect env);;
             rv ← resume (connect_result env);
             server ← self _server;
             match stmt_cache_size server with
             | Some size => call (pgcon_set_stmt_cache_size rv size)
             | None => ret tt
             end;;
             ret rv)
            (fun e =>
               call (metrics_inc "backend_connection_establishment_errors"
                       [instance_name]);;
               raise e))
         (call (metrics_observe "backend_connection_establishment_latency"
                  [instance_name]));
  current_serial ← self _ha_master_serial;
  if ha_serial =? current_serial then
    call (pgcon_set_tenant rv);;
    adaptive ← self _backend_adaptive_ha;
    when adaptive
      (call (adaptive_ha_on_pgcon_made
               (bool_decide (dbname = EDGEDB_SYSTEM_DB defines))));;
    call (metrics_inc "total_backend_connections" [instance_name]);;
    call (metrics_inc "current_backend_connections" [instance_name]);;
    ret rv
  else
    call (pgcon_terminate rv);;
    raise (ConnectionError "connected to outdated Postgres master").

(** ** The system connection *)

(** What the other tasks do to the tenant while [use_sys_pgcon] is suspended:
    waiting for the lock when it is held, and waiting for the ready event
    when it is not set (the reconnect task installs the new connection and
    sets the event); and how the two operations between the acquisition of
    the lock and the [try] block end when they are reached: [conn.abort()],
    and the wait for the ready event once it has suspended the coroutine.
    An exception is one that [except Exception] handles. *)
Record SysPgconEnv : Type := {
  during_waiter_acquire : Tenant -> Tenant;
  during_ready_wait : Tenant -> Tenant;
  abort_result : result unit;
  ready_wait_result : result unit
}.

Definition not_running (t : Tenant) : bool :=
  negb (_initing t) && negb (_running t).

(** [await self._sys_pgcon_waiter.acquire()]: immediate when the lock is
    free. *)
Definition sys_pgcon_waiter_acquire (env : SysPgconEnv) : M unit :=
  locked ← self _sys_pgcon_waiter;
  when locked (suspend (during_waiter_acquire env));;
  update (assign_sys_pgcon_waiter true).

Definition sys_pgcon_waiter_release : M unit :=
  update (assign_sys_pgcon_waiter false).

(** [await self._sys_pgcon_ready_evt.wait()]: immediate when the event is
    set; otherwise the coroutine is suspended, and resumes once another task
    has set the event, unless the wait ends with an exception. *)
Definition sys_pgcon_ready_evt_wait (env : SysPgconEnv) : M unit :=
  is_set ← self _sys_pgcon_ready_evt;
  when (negb is_set)
    (suspend (during_ready_wait env);;
     resume (ready_wait_result env);;
     update (assign_sys_pgcon_ready_evt true)).

(** [Tenant.use_sys_pgcon], an asynchronous context manager: [body] is the
    block under [async with self.use_sys_pgcon() as ...]. *)
Definition use_sys_pgcon {A} (env : SysPgconEnv) (body : PGConnection -> M A)
  : M A :=
  stopped ← self not_running;
  if stopped then raise (RuntimeError "EdgeDB server is not running.")
  else
    sys_pgcon_waiter_acquire env;;
    stopped ← self not_running;
    if stopped then
      sys_pgcon_waiter_release;;
      raise (RuntimeError "EdgeDB server is not running.")
    else
      let reacquire (conn : option PGConnection) : M PGConnection :=
        update (assign_sys_pgcon None);;
        match conn with
        | Some c =>
            update (assign_sys_pgcon_ready_evt false);;
            call (pgcon_abort c);;
            resume (abort_result env)
        | None => ret tt
        end;;
        sys_pgcon_ready_evt_wait env;;
        now_held ← self _Tenant__sys_pgcon;
        match now_held with
        | None =>
            sys_pgcon_waiter_release;;
            raise (RuntimeError "Cannot acquire pgcon to the system DB.")
        | Some c => ret c
        end in
      held ← self _Tenant__sys_pgcon;
      sys_pgcon ← match held with
                  | Some c => if is_healthy c then ret c else reacquire held
                  | None => reacquire held
                  end;
      try_finally (body sys_pgcon) sys_pgcon_waiter_release.

(** How the awaited [con.signal_sysevent] ends, and what the other tasks do
    meanwhile and around the system connection. *)
Record SignalEnv : Type := {
  signal_sys : SysPgconEnv;
  signal_result : result unit;
  during_signal : Tenant -> Tenant
}.

(** [Tenant.signal_sysevent] *)
Definition signal_sysevent (env : SignalEnv) (name dbname : string) : M unit :=
  instance_name ← self _instance_name;
  try_except
    (stopped ← self not_running;
     if stopped then ret tt
     else
       use_sys_pgcon (signal_sys env) (fun con =>
         call (pgcon_signal_sysevent con name dbname);;
         suspend (during_signal env);;
         resume (signal_result env)))
    (fun e =>
       call (metrics_inc "background_errors"
               [instance_name; "signal_sysevent"]);;
       raise e).

(** ** Unavailability message and the connection pool *)

(** [Tenant.set_pg_unavailable_msg] *)
Definition set_pg_unavailable_msg (msg : option string) (t : Tenant) : Tenant :=
  if bool_decide (msg = None) || bool_decide (_pg_unavailable_msg t = None)
  then assign_pg_unavailable_msg msg t
  else t.

(** A run of calls [set_pg_unavailable_msg(msg)], one per element. *)
Definition set_pg_unavailable_msgs (msgs : list (option string)) (t : Tenant)
  : Tenant :=
  fold_left (fun t msg => set_pg_unavailable_msg msg t) msgs t.

(** What the pool supplies to the [i]-th [self._pg_pool.acquire(dbname)] of
    one call: the connection or the exception it ends with, and what the
    other tasks did meanwhile. *)
Record AcquireEnv : Type := {
  acquired : nat -> result PGConnection;
  during_acquire : nat -> Tenant -> Tenant
}.

(** The body of [for _ in range(max_capacity)] in [acquire_pgcon], with its
    [else] clause: [i] iterations are done, [remaining] are left. *)
Fixpoint acquire_pgcon_loop (env : AcquireEnv) (dbname : string)
    (i remaining : nat) : M PGConnection :=
  match remaining with
  | O =>
      raise (BackendUnavailableError
        "No healthy backend connection available at the moment, please try again.")
  | S remaining' =>
      call (pool_acquire dbname);;
      suspend (during_acquire env i);;
      conn ← resume (acquired env i);
      if is_healthy conn then ret conn
      else
        call (pool_release dbname conn true);;
        acquire_pgcon_loop env dbname (S i) remaining'
  end.

(** [Tenant.acquire_pgcon] *)
Definition acquire_pgcon (env : AcquireEnv) (dbname : string) : M PGConnection :=
  unavailable ← self _pg_unavailable_msg;
  match unavailable with
  | Some msg =>
      raise (BackendUnavailableError ("Postgres is not available: " +:+ msg))
  | None =>
      pool ← self _pg_pool;
      acquire_pgcon_loop env dbname 0%nat (Z.to_nat (max_capacity pool))
  end.

(** [Tenant.release_pgcon]; [is_healthy_now] is what [conn.is_healthy()]
    answers at the release, the connection having possibly broken since it
    was acquired.  The pool's [release] is taken not to raise. *)
Definition release_pgcon (dbname : string) (conn : PGConnection)
    (is_healthy_now : bool) (discard : bool) : M unit :=
  let discard := if negb is_healthy_now then true else discard in
  instance_name ← self _instance_name;
  try_except
    (call (pool_release dbname conn discard))
    (fun e =>
       call (metrics_inc "background_errors" [instance_name; "release_pgcon"]);;
       raise e).

(** [Tenant.allow_database_connections] *)
Definition allow_database_connections (dbname : string) (t : Tenant) : Tenant :=
  assign_block_new_connections (_block_new_connections t ∖ {[dbname]}) t.

(** [Tenant.is_database_connectable] *)
Definition is_database_connectable (defines : Defines) (t : Tenant)
    (dbname : string) : bool :=
  bool_decide (dbname ≠ EDGEDB_TEMPLATE_DB defines)
  && bool_decide (dbname ∉ _block_new_connections t).

(** ** The database index *)

(** The methods of [dbview.DatabaseIndex], which is not part of the sources
    at hand, follow the spec (sections 3 and 4.4). *)

(** Modelled from the spec: [DatabaseIndex.has_db], "[has_db(name)] iff an
    entry exists". *)
Definition has_db (idx : DatabaseIndex) (dbname : string) : bool :=
  bool_decide (is_Some (_dbs idx !! dbname)).

(** Modelled from the spec: [DatabaseIndex.maybe_get_db],
    "[maybe_get_db(name)] -> entry?". *)
Definition maybe_get_db (idx : DatabaseIndex) (dbname : string)
  : option Database :=
  _dbs idx !! dbname.

(** Modelled from the spec: [DatabaseIndex.count_connections],
    "[count_connections(name)] -> int = number of live views". *)
Definition count_connections (idx : DatabaseIndex) (dbname : string) : nat :=
  match _dbs idx !! dbname with
  | Some db => views db
  | None => O
  end.

(** Modelled from the spec: [DatabaseIndex.register_db], "create or replace
    an entry.  Nullable fields permit the early introspection path that only
    learns extensions."  The sessions open on a replaced entry stay with
    it. *)
Definition register_db (idx : DatabaseIndex) (dbname : string)
    (user_schema_pickle : option bytes)
    (db_config : option (gmap string string))
    (reflection_cache : option (gmap string (list string)))
    (backend_ids : option (gmap string Z))
    (extensions : gset string)
    (ext_config_settings : option (list string)) : DatabaseIndex :=
  let db :=
    {| user_schema_pickle := user_schema_pickle;
       db_config := db_config;
       reflection_cache := reflection_cache;
       backend_ids := backend_ids;
       extensions := extensions;
       ext_config_settings := ext_config_settings;
       views := count_connections idx dbname |} in
  {| _dbs := <[dbname := db]> (_dbs idx) |}.

(** Modelled from the spec: [DatabaseIndex.unregister_db], "drop entry". *)
Definition unregister_db (idx : DatabaseIndex) (dbname : string)
  : DatabaseIndex :=
  {| _dbs := delete dbname (_dbs idx) |}.

(** ** Python strings *)

Definition hex_digit (n : N) : ascii :=
  ascii_of_N (if (n <? 10)%N then 48 + n else 87 + n).

(** One character of [repr(s)], [quote] being the quote [repr] chose: the
    characters that are not printable (the control characters, the no-break
    space and the soft hyphen) are written as [\xNN]. *)
Definition repr_char (quote c : ascii) : string :=
  let n := N_of_ascii c in
  if Ascii.eqb c "\" then "\\"
  else if Ascii.eqb c quote then String "\" (String c EmptyString)
  else if (n =? 10)%N then "\n"
  else if (n =? 13)%N then "\r"
  else if (n =? 9)%N then "\t"
  else if ((n <? 32) || ((127 <=? n) && (n <=? 160)) || (n =? 173))%N then
    String "\" (String "x" (String (hex_digit (n / 16))
                              (String (hex_digit (n mod 16)) EmptyString)))
  else String c EmptyString.

Fixpoint repr_chars (quote : ascii) (s : string) : string :=
  match s with
  | EmptyString => EmptyString
  | String c s' => repr_char quote c +:+ repr_chars quote s'
  end.

Fixpoint contains_char (c : ascii) (s : string) : bool :=
  match s with
  | EmptyString => false
  | String c' s' => Ascii.eqb c c' || contains_char c s'
  end.

(** [repr(s)] of a Python [str], as [f"{s!r}"] formats it: single quotes
    unless [s] holds a single quote and no double quote.  A character is a
    code point below 256. *)
Definition repr (s : string) : string :=
  let single := "'"%char in
  let double := ascii_of_N 34 in
  let quote :=
    if contains_char single s && negb (contains_char double s)
    then double else single in
  String quote (repr_chars quote s) +:+ String quote EmptyString.

(** [c.isspace()], for a code point below 256: the ASCII white space, the
    next-line control and the no-break space. *)
Definition is_space (c : ascii) : bool :=
  let n := N_of_ascii c in
  ((n =? 32) || ((9 <=? n) && (n <=? 13)) || ((28 <=? n) && (n <=? 31))
   || (n =? 133) || (n =? 160))%N.

Fixpoint lstrip (s : string) : string :=
  match s with
  | String c s' => if is_space c then lstrip s' else s
  | EmptyString => EmptyString
  end.

Fixpoint rstrip (s : string) : string :=
  match s with
  | String c s' =>
      match rstrip s' with
      | EmptyString => if is_space c then EmptyString else String c EmptyString
      | rest => String c rest
      end
  | EmptyString => EmptyString
  end.

(** [s.strip()] *)
Definition strip (s : string) : string := rstrip (lstrip s).

(** [s.partition(":")] *)
Fixpoint partition_colon (s : string) : string * string * string :=
  match s with
  | EmptyString => (EmptyString, EmptyString, EmptyString)
  | String c s' =>
      if Ascii.eqb c ":" then (EmptyString, ":", s')
      else
        match partition_colon s' with
        | (before, sep, after) => (String c before, sep, after)
        end
  end.

(** ** Draining a database before destructive DDL *)

(** Modelled from the spec: [edb.common.retryloop] is not part of the sources
    at hand.  "Poll the cluster (retry loop: exponential backoff, 10-second
    timeout, retrying only on ExecutionError)" (spec, section 4.7): an
    iteration that ends without exception ends the loop; one that raises an
    exception of the ignored class is retried after the backoff delay as long
    as the time elapsed since the loop started is within the timeout; any
    other exception, and an ignored one past the timeout, propagates.

    Time is counted in milliseconds.  The delay after iteration [n] (the
    first being iteration 0) is [backoff n]. *)
Record RetryLoop : Type := {
  backoff : nat -> Z;
  timeout : Z;
  ignore : exn -> bool
}.

(** Modelled from the spec: [retryloop.exp_backoff], "exponential backoff":
    the delay doubles from one retry to the next.  The first delay [base] is
    not given by the spec. *)
Definition exp_backoff (base : Z) (iteration : nat) : Z :=
  base * 2 ^ Z.of_nat iteration.

(** Modelled from the spec: the iteration protocol of [retryloop.RetryLoop],
    [async for iteration in rloop: async with iteration: body], as described
    above.  [took n] is the time iteration [n] of the body takes and
    [during_sleep n] what the other tasks do during the sleep before it;
    [fuel] bounds the number of iterations run, [None] meaning that it did
    not suffice. *)
Fixpoint retry_loop (fuel : nat) (rloop : RetryLoop) (took : nat -> N)
    (during_sleep : nat -> Tenant -> Tenant) (body : nat -> M unit)
    (iteration : nat) (elapsed : Z)
  : World -> option (result unit * World) :=
  fun w =>
    match fuel with
    | O => None
    | S fuel' =>
        match body iteration w with
        | (Return _, w') => Some (Return tt, w')
        | (Raise e, w') =>
            let elapsed := elapsed + Z.of_N (took iteration) in
            if ignore rloop e && (elapsed <=? timeout rloop) then
              let delay := backoff rloop iteration in
              match (call (asyncio_sleep delay);;
                     suspend (during_sleep (S iteration))) w' with
              | (_, w'') =>
                  retry_loop fuel' rloop took during_sleep body (S iteration)
                    (elapsed + delay) w''
              end
            else Some (Raise e, w')
        end
    end.

(** What one poll of [pg_stat_activity] meets: the system connection's
    environment, the rows (or the exception) of the query, what the other
    tasks do during the query, and the time the poll takes. *)
Record PollEnv : Type := {
  poll_sys : SysPgconEnv;
  poll_rows : result (list bytes);
  during_poll : Tenant -> Tenant;
  poll_took : N
}.

Record EnsureEnv : Type := {
  during_prune : Tenant -> Tenant;
  signal : SignalEnv;
  polls : nat -> PollEnv;
  during_sleep : nat -> Tenant -> Tenant
}.

Definition being_accessed (dbname : string) : exn :=
  ExecutionError
    ("database " +:+ repr dbname +:+ " is being accessed by other users").

(** [Tenant._pg_ensure_database_not_connected] *)
Definition _pg_ensure_database_not_connected (env : PollEnv) (dbname : string)
  : M unit :=
  conns ← use_sys_pgcon (poll_sys env) (fun pgcon =>
             call (pgcon_sql_fetch_col pgcon
                     "SELECT pid FROM pg_stat_activity WHERE datname = $1"
                     [dbname]);;
             suspend (during_poll env);;
             resume (poll_rows env));
  match conns with
  | [] => ret tt
  | _ :: _ => raise (being_accessed dbname)
  end.

(** [self._dbindex and self._dbindex.count_connections(dbname)] as a
    condition. *)
Definition has_local_connections (t : Tenant) (dbname : string) : bool :=
  match _dbindex t with
  | Some idx => negb (count_connections idx dbname =? 0)%nat
  | None => false
  end.

(** [self._block_new_connections.add(dbname)] *)
Definition block_new_connections_add (dbname : string) (t : Tenant) : Tenant :=
  assign_block_new_connections ({[dbname]} ∪ _block_new_connections t) t.

(** The part of [ensure_database_not_connected] before the retry loop. *)
Definition block_prune_and_signal (env : EnsureEnv) (dbname : string)
  : M unit :=
  update (block_new_connections_add dbname);;
  call (pool_prune_inactive_connections dbname);;
  suspend (during_prune env);;
  signal_sysevent (signal env) "ensure-database-not-used" dbname.

(** [Tenant.ensure_database_not_connected]; [backoff_base] is the first
    delay of [retryloop.exp_backoff()]. *)
Definition ensure_database_not_connected (fuel : nat) (backoff_base : Z)
    (env : EnsureEnv) (dbname : string)
  : World -> option (result unit * World) :=
  fun w =>
    if has_local_connections (tenant w) dbname then
      Some (raise (being_accessed dbname) w)
    else
      match block_prune_and_signal env dbname w with
      | (Raise e, w') => Some (Raise e, w')
      | (Return _, w') =>
          let rloop :=
            {| backoff := exp_backoff backoff_base;
               timeout := 10000;
               ignore := is_ExecutionError |} in
          retry_loop fuel rloop (fun n => poll_took (polls env n))
            (during_sleep env)
            (fun n => _pg_ensure_database_not_connected (polls env n) dbname)
            0%nat 0 w'
      end.

(** ** Reconnecting the system connection *)

Record ReconnectEnv : Type := {
  attempt : ConnectEnv;
  during_reconnect_wait : Tenant -> Tenant
}.

Inductive loop_step : Type :=
| Break (conn : PGConnection)
| Continue.

(** [await asyncio.wait_for(self._sys_pgcon_reconnect_evt.wait(), INTERVAL)]
    followed by [self._sys_pgcon_reconnect_evt.clear()], under
    [except asyncio.TimeoutError: pass]: when the event is not set the
    coroutine is suspended, and finds the event set on resuming unless the
    interval ran out. *)
Definition wait_for_reconnect_evt (defines : Defines)
    (others : Tenant -> Tenant) : M unit :=
  call (asyncio_wait_for (SYSTEM_DB_RECONNECT_INTERVAL defines));;
  is_set ← self _sys_pgcon_reconnect_evt;
  when (negb is_set) (suspend others);;
  is_set ← self _sys_pgcon_reconnect_evt;
  when is_set (update (assign_sys_pgcon_reconnect_evt false)).

Definition retryable_backend_error (e : exn) : bool :=
  code_is e ERROR_FEATURE_NOT_SUPPORTED
  || code_is e ERROR_CANNOT_CONNECT_NOW
  || code_is e ERROR_READ_ONLY_SQL_TRANSACTION.

(** One iteration of [while self._running] in [_reconnect_sys_pgcon]. *)
Definition reconnect_attempt (defines : Defines) (env : ReconnectEnv)
  : M loop_step :=
  step ← try_except
           (conn ← _pg_connect defines (attempt env) (EDGEDB_SYSTEM_DB defines);
            ret (Break conn))
           (fun e =>
              if is_OSError e then ret Continue
              else
                match e with
                | BackendError _ =>
                    if negb (retryable_backend_error e) then raise e
                    else ret Continue
                | _ => raise e
                end);
  match step with
  | Break conn => ret (Break conn)
  | Continue =>
      running ← self _running;
      when running
        (wait_for_reconnect_evt defines (during_reconnect_wait env));;
      ret Continue
  end.

(** [while self._running: ...]: the connection the loop leaves in [conn]
    ([None] when the tenant stopped first).  [fuel] bounds the number of
    attempts run, [None] meaning that it did not suffice: the loop retries
    for as long as the tenant runs and the backend refuses. *)
Fixpoint reconnect_loop (fuel : nat) (defines : Defines)
    (env : nat -> ReconnectEnv) (i : nat)
  : World -> option (result (option PGConnection) * World) :=
  fun w =>
    if _running (tenant w) then
      match fuel with
      | O => None
      | S fuel' =>
          match reconnect_attempt defines (env i) w with
          | (Return (Break conn), w') => Some (Return (Some conn), w')
          | (Return Continue, w') => reconnect_loop fuel' defines env (S i) w'
          | (Raise e, w') => Some (Raise e, w')
          end
      end
    else Some (Return None, w).

(** How the awaited [listen_for_sysevent] ends, and what other tasks did
    meanwhile. *)
Record ListenEnv : Type := {
  listen_result : result unit;
  during_listen : Tenant -> Tenant
}.

(** The statements of [_reconnect_sys_pgcon] after the loop. *)
Definition install_sys_pgcon (env : ListenEnv) (conn : option PGConnection)
  : M unit :=
  running ← self _running;
  if negb running then
    match conn with
    | Some c => call (pgcon_abort c)
    | None => ret tt
    end
  else
    match conn with
    | None => raise (OtherException "AssertionError")
    | Some c =>
        update (assign_sys_pgcon (Some c));;
        call (pgcon_mark_as_system_db c);;
        call (pgcon_listen_for_sysevent c);;
        suspend (during_listen env);;
        resume (listen_result env);;
        update (set_pg_unavailable_msg None)
    end.

(** [Tenant._reconnect_sys_pgcon] *)
Definition _reconnect_sys_pgcon (fuel : nat) (defines : Defines)
    (env : nat -> ReconnectEnv) (listen : ListenEnv)
  : World -> option (result unit * World) :=
  fun w =>
    match reconnect_loop fuel defines env 0%nat w with
    | None => None
    | Some (r, w') =>
        Some (try_finally
                (conn ← resume r; install_sys_pgcon listen conn)
                (update (assign_sys_pgcon_ready_evt true)) w')
    end.

(** ** Early introspection *)

(** [Tenant._acquire_intro_pgcon] *)
Definition _acquire_intro_pgcon (env : AcquireEnv) (dbname : string)
  : M (option PGConnection) :=
  try_except
    (conn ← acquire_pgcon env dbname; ret (Some conn))
    (fun e =>
       match e with
       | BackendError _ =>
           if code_is e ERROR_INVALID_CATALOG_NAME then
             dbindex ← self _dbindex;
             match dbindex with
             | Some idx =>
                 when (has_db idx dbname)
                   (update (assign_dbindex (Some (unregister_db idx dbname))))
             | None => ret tt
             end;;
             ret None
           else raise e
       | _ => raise e
       end).

(** What the backend answers to the extension query, decoded from JSON
    ([None] for a null or empty answer), and what other tasks did
    meanwhile. *)
Record ExtensionsEnv : Type := {
  extension_names : result (option (list string));
  during_introspect_extensions : Tenant -> Tenant
}.

(** The text of the extension query, with the double quotes around the
    table name. *)
Definition extensions_query : string :=
  "SELECT json_agg(name) FROM edgedb."
  +:+ String (ascii_of_N 34) "_SchemaExtension"
  +:+ String (ascii_of_N 34) ";".

(** [Tenant._introspect_extensions] *)
Definition _introspect_extensions (env : ExtensionsEnv) (conn : PGConnection)
  : M (gset string) :=
  call (pgcon_sql_fetch_val conn extensions_query);;
  suspend (during_introspect_extensions env);;
  names ← resume (extension_names env);
  match names with
  | Some names => ret (list_to_set names)
  | None => ret ∅
  end.

(** What [_early_introspect_db] meets: the pool, the extension query, and
    what the acquired connection answers to [is_healthy()] when it is
    released. *)
Record EarlyIntrospectEnv : Type := {
  intro_acquire : AcquireEnv;
  intro_extensions : ExtensionsEnv;
  healthy_at_release : bool
}.

(** [self._dbindex.<method>] on an attribute that may be [None]. *)
Definition the_dbindex (on_none : string) : M DatabaseIndex :=
  dbindex ← self _dbindex;
  match dbindex with
  | Some idx => ret idx
  | None => raise (OtherException on_none)
  end.

(** [Tenant._early_introspect_db] *)
Definition _early_introspect_db (env : EarlyIntrospectEnv) (dbname : string)
  : M unit :=
  conn ← _acquire_intro_pgcon (intro_acquire env) dbname;
  match conn with
  | None => ret tt
  | Some conn =>
      try_finally
        (idx ← the_dbindex "AssertionError";
         when (negb (has_db idx dbname))
           (extensions ← _introspect_extensions (intro_extensions env) conn;
            idx ← the_dbindex "AttributeError";
            when (negb (has_db idx dbname))
              (update (assign_dbindex
                 (Some (register_db idx dbname None None None None
                          extensions None))))))
        (release_pgcon dbname conn (healthy_at_release env) false)
  end.

(** ** The reported-config blobs *)

Definition byte_of_Z (z : Z) : byte :=
  match Byte.of_N (Z.to_N z) with
  | Some b => b
  | None => x00
  end.

(** [struct.pack("!L", n)]: four bytes, most significant first; an error
    when [n] does not fit an unsigned 32-bit integer. *)
Definition struct_pack_L (n : Z) : result bytes :=
  if (0 <=? n) && (n <? 2 ^ 32) then
    Return [byte_of_Z (Z.land (Z.shiftr n 24) 255);
            byte_of_Z (Z.land (Z.shiftr n 16) 255);
            byte_of_Z (Z.land (Z.shiftr n 8) 255);
            byte_of_Z (Z.land n 255)]
  else Raise (StructError "argument out of range").

(** [len(x)] *)
Definition len {A} (x : list A) : Z := Z.of_nat (length x).

(** The body of [for (protocol_ver, typedesc) in ...items()] in
    [_load_reported_config]; [data] is the value fetched, [None] for a null
    one. *)
Fixpoint store_report_config_data (items : list (ProtocolVersion * bytes))
    (data : option bytes) : M unit :=
  match items with
  | [] => ret tt
  | (protocol_ver, typedesc) :: items' =>
      typedesc_len ← resume (struct_pack_L (len typedesc));
      data ← match data with
             | Some data => ret data
             | None =>
                 raise (TypeError "object of type 'NoneType' has no len()")
             end;
      data_len ← resume (struct_pack_L (len data));
      update (fun t =>
        assign_report_config_data
          (<[protocol_ver := (typedesc_len ++ typedesc ++ data_len ++ data)%list]>
             (_report_config_data t)) t);;
      store_report_config_data items' (Some data)
  end.

Record ReportedConfigEnv : Type := {
  report_sys : SysPgconEnv;
  report_configs : result (option bytes);
  during_report_configs : Tenant -> Tenant
}.

(** [Tenant._load_reported_config] *)
Definition _load_reported_config (env : ReportedConfigEnv) : M unit :=
  instance_name ← self _instance_name;
  use_sys_pgcon (report_sys env) (fun syscon =>
    try_except
      (server ← self _server;
       call (pgcon_sql_fetch_val syscon (get_sys_query server "report_configs"));;
       suspend (during_report_configs env);;
       data ← resume (report_configs env);
       server ← self _server;
       store_report_config_data
         (map_to_list (get_report_config_typedesc server)) data)
      (fun e =>
         call (metrics_inc "background_errors"
                 [instance_name; "load_reported_config"]);;
         raise e)).

(** The blob format in the spec's words: "BE-u32(typedesc_len) || typedesc
    || BE-u32(data_len) || data", [BE_u32 n] being the four base-256 digits
    of [n], most significant first. *)
Definition BE_u32 (n : Z) : bytes :=
  [byte_of_Z (n / 256 ^ 3 mod 256);
   byte_of_Z (n / 256 ^ 2 mod 256);
   byte_of_Z (n / 256 mod 256);
   byte_of_Z (n mod 256)].

Definition reported_config_blob (typedesc data : bytes) : bytes :=
  (BE_u32 (len typedesc) ++ typedesc ++ BE_u32 (len data) ++ data)%list.

(** The unsigned integer a big-endian byte string denotes. *)
Definition from_bytes_big (bs : bytes) : Z :=
  fold_left (fun acc b => acc * 256 + Z.of_N (Byte.to_N b)) bs 0.

(** ** Signed tokens *)

(** The values [json.loads] gives to the claims of a token.  Numbers are
    integers here. *)
#[warnings="-register-all"] Inductive json : Type :=
| JNull
| JBool (b : bool)
| JInt (z : Z)
| JStr (s : string)
| JList (items : list json)
| JDict (items : list (string * json)).

(** [claims.get(key)], [None] for a missing key being [JNull]. *)
Definition claims_get (claims : gmap string json) (key : string) : json :=
  match claims !! key with
  | Some v => v
  | None => JNull
  end.

(** [bool(v)] *)
Definition truthy (v : json) : bool :=
  match v with
  | JNull => false
  | JBool b => b
  | JInt z => negb (z =? 0)
  | JStr s => negb (String.eqb s "")
  | JList items => match items with [] => false | _ => true end
  | JDict items => match items with [] => false | _ => true end
  end.

(** [v in s] for a [frozenset[str]]: lists and dicts are unhashable; a value
    that is not a string equals no member. *)
Definition in_frozenset (v : json) (s : gset string) : result bool :=
  match v with
  | JStr x => Return (bool_decide (x ∈ s))
  | JNull | JBool _ | JInt _ => Return false
  | JList _ => Raise (TypeError "unhashable type: 'list'")
  | JDict _ => Raise (TypeError "unhashable type: 'dict'")
  end.

(** [Tenant.check_jwt] *)
Definition check_jwt (claims : gmap string json) : M unit :=
  allowlist ← self _jwt_sub_allowlist;
  match allowlist with
  | Some allowlist =>
      let subject := claims_get claims "sub" in
      if negb (truthy subject) then
        raise (AuthenticationError
          "authentication failed: JWT does not contain a valid subject claim")
      else
        allowed ← resume (in_frozenset subject allowlist);
        if negb allowed then
          raise (AuthenticationError
            "authentication failed: unauthorized subject")
        else ret tt
  | None => ret tt
  end;;
  revocation_list ← self _jwt_revocation_list;
  match revocation_list with
  | Some revocation_list =>
      let key_id := claims_get claims "jti" in
      if negb (truthy key_id) then
        raise (AuthenticationError
          "authentication failed: JWT does not contain a valid key id")
      else
        revoked ← resume (in_frozenset key_id revocation_list);
        if revoked then
          raise (AuthenticationError "authentication failed: revoked key")
        else ret tt
  | None => ret tt
  end.

(** ** Readiness *)

(** [Tenant.is_online] *)
Definition is_online (t : Tenant) : bool :=
  negb (ReadinessState_eqb (_readiness t) Offline).

(** [Tenant.is_blocked] *)
Definition is_blocked (t : Tenant) : bool :=
  ReadinessState_eqb (_readiness t) Blocked.

(** [Tenant.is_ready] *)
Definition is_ready (t : Tenant) : bool :=
  ReadinessState_eqb (_readiness t) Default
  || ReadinessState_eqb (_readiness t) ReadOnly.

(** [Tenant.is_readonly] *)
Definition is_readonly (t : Tenant) : bool :=
  ReadinessState_eqb (_readiness t) ReadOnly.

(** How reading the first line of the readiness state file ends: with the
    line as [readline()] returns it, with [FileNotFoundError], or with any
    other exception. *)
Inductive file_read : Type :=
| read_line (line : string)
| file_not_found
| read_failed (e : exn).

(** [Tenant.reload_readiness_state].  [ReadinessState_of_value] is the lookup
    [srvargs.ReadinessState(state)] of a member by its value, [None] where
    Python raises [ValueError]; [open_and_readline] is the file system. *)
Definition reload_readiness_state
    (ReadinessState_of_value : string -> option ReadinessState)
    (open_and_readline : string -> file_read) (t : Tenant) : Tenant :=
  match _readiness_state_file t with
  | None => t
  | Some path =>
      let t :=
        match open_and_readline path with
        | read_line raw =>
            let line := strip raw in
            let '(state, _, reason) := partition_colon line in
            match ReadinessState_of_value state with
            | Some readiness =>
                assign_readiness_reason reason (assign_readiness readiness t)
            | None => assign_readiness Default t
            end
        | file_not_found => assign_readiness Default t
        | read_failed _ => assign_readiness Default t
        end in
      assign_accepting_connections (is_online t) t
  end.

(** The member values the spec's readiness scenario uses. *)
Definition scenario_readiness_values (value : string) : option ReadinessState :=
  if String.eqb value "default" then Some Default
  else if String.eqb value "read_only" then Some ReadOnly
  else if String.eqb value "offline" then Some Offline
  else None.

(** ** Sample values *)

Definition sample_defines : Defines :=
  {| EDGEDB_TEMPLATE_DB := "__edgedbtpl__";
     EDGEDB_SYSTEM_DB := "__edgedbsys__";
     EDGEDB_SUPERUSER_DB := "edgedb";
     SYSTEM_DB_RECONNECT_INTERVAL := 1000 |}.

Definition sample_server : BaseServer :=
  {| stmt_cache_size := Some 1000;
     get_sys_query := fun name => name;
     get_report_config_typedesc :=
       {[ (1, 0) := [x01; x02]; (2, 0) := [x03] ]} |}.

Definition sample_cluster : BaseCluster :=
  {| has_create_database := true;
     get_db_name := fun dbname => dbname;
     _ha_backend := false |}.

(** A tenant as [__init__] leaves it, with [max_backend_connections = 4]. *)
Definition new_tenant : Tenant :=
  {| _server := sample_server;
     _cluster := sample_cluster;
     _instance_name := "localtest";
     _dbindex := None;
     _initing := true;
     _running := false;
     _accepting_connections := false;
     _accept_new_tasks := false;
     _Tenant__sys_pgcon := None;
     _sys_pgcon_waiter := false;
     _sys_pgcon_ready_evt := false;
     _sys_pgcon_reconnect_evt := false;
     _pg_pool := {| max_capacity := 4 - 1 |};
     _pg_unavailable_msg := None;
     _ha_master_serial := 0;
     _backend_adaptive_ha := false;
     _readiness_state_file := None;
     _readiness := Default;
     _readiness_reason := "";
     _block_new_connections := ∅;
     _report_config_data := ∅;
     _jwt_sub_allowlist := None;
     _jwt_revocation_list := None |}.

Definition idle (t : Tenant) : Tenant := t.

Definition quiet_sys : SysPgconEnv :=
  {| during_waiter_acquire := idle;
     during_ready_wait := idle;
     abort_result := Return tt;
     ready_wait_result := Return tt |}.

Definition start (t : Tenant) : World := {| tenant := t; trace := [] |}.

(** Whether [hash(v)] succeeds. *)
Definition hashable (v : json) : bool :=
  match v with
  | JList _ | JDict _ => false
  | _ => true
  end.

(** A claim value that is one of the strings of an allowlist or of a
    revocation list. *)
Definition listed (v : json) (s : gset string) : Prop :=
  match v with
  | JStr x => x ∈ s
  | _ => False
  end.

(** The spec's JWT scenario: allowlist {alice}, revocation list {jti-5}. *)
Definition jwt_scenario_tenant : Tenant :=
  assign_jwt_revocation_list (Some {["jti-5"]})
    (assign_jwt_sub_allowlist (Some {["alice"]}) new_tenant).

Definition sample_sys_pgcon : PGConnection := {| pgcon_id := 0; healthy := true |}.

(** A tenant in [init()] once [init_sys_pgcon] has connected. *)
Definition initing_tenant : Tenant :=
  assign_sys_pgcon (Some sample_sys_pgcon) new_tenant.

Definition sample_report_env : ReportedConfigEnv :=
  {| report_sys := quiet_sys;
     report_configs := Return (Some [x0a; x0b; x0c]);
     during_report_configs := idle |}.

(** [on_switch_over] run by another task while a coroutine is suspended. *)
Definition switch_over_meanwhile (t : Tenant) : Tenant :=
  tenant (snd (on_switch_over (start t))).

(** The number of [self._pg_pool.acquire] calls among some events. *)
Fixpoint acquisitions (events : list event) : nat :=
  match events with
  | [] => O
  | pool_acquire _ :: events' => S (acquisitions events')
  | _ :: events' => acquisitions events'
  end.

(** An event of the loop of [acquire_pgcon]: an acquisition for [dbname], or
    the release with [discard=True] of an unhealthy connection. *)
Definition acquire_or_discard (dbname : string) (ev : event) : Prop :=
  match ev with
  | pool_acquire d => d = dbname
  | pool_release d c discard =>
      d = dbname /\ discard = true /\ is_healthy c = false
  | _ => False
  end.

Definition no_healthy_connection : exn :=
  BackendUnavailableError
    "No healthy backend connection available at the moment, please try again.".

(** A database the index knows, and a tenant whose index holds it under the
    name "gone". *)
Definition sample_database : Database :=
  {| user_schema_pickle := Some [x01];
     db_config := Some ∅;
     reflection_cache := Some ∅;
     backend_ids := Some ∅;
     extensions := {["graphql"]};
     ext_config_settings := None;
     views := 0 |}.



(** The entry early introspection registers: extensions only. *)
Definition early_entry (names : option (list string)) : Database :=
  {| user_schema_pickle := None;
     db_config := None;
     reflection_cache := None;
     backend_ids := None;
     extensions := match names with
                   | Some names => list_to_set names
                   | None => ∅
                   end;
     ext_config_settings := None;
     views := 0 |}.

(** A tenant after [init()], [start_accepting_new_tasks()] and
    [start_running()]. *)
Definition running_tenant : Tenant :=
  assign_accepting_connections true
    (assign_running true
       (assign_accept_new_tasks true
          (assign_sys_pgcon_ready_evt true
             (assign_initing false initing_tenant)))).

(** The tenant once the system connection is lost
    ([on_sys_pgcon_connection_lost]). *)
Definition disconnected_tenant : Tenant :=
  assign_sys_pgcon_ready_evt false
    (assign_sys_pgcon None
       (set_pg_unavailable_msg
          (Some "Connection is lost, please check server log for the reason.")
          running_tenant)).

(** The backend is starting up: every connection attempt is refused with
    "cannot connect now", and nobody sets the reconnect event. *)
Definition starting_up_env (i : nat) : ReconnectEnv :=
  {| attempt :=
       {| connect_result := Raise (BackendError ERROR_CANNOT_CONNECT_NOW);
          during_connect := idle |};
     during_reconnect_wait := idle |}.

(** The environment of a retry: the tenant state in which the wait for the
    reconnect event ends. *)
Definition after_reconnect_wait (defines : Defines) (env : ReconnectEnv)
    (w : World) : World :=
  snd (wait_for_reconnect_evt defines (during_reconnect_wait env) w).

(** [self._sys_pgcon_ready_evt.set()] in the [finally] clause. *)
Definition ready_evt_set (w : World) : World :=
  {| tenant := assign_sys_pgcon_ready_evt true (tenant w); trace := trace w |}.

(** The backend refuses the first attempt and accepts the second. *)
Definition second_attempt_env (i : nat) : ReconnectEnv :=
  match i with
  | O => starting_up_env i
  | S _ =>
      {| attempt :=
           {| connect_result := Return {| pgcon_id := 1; healthy := true |};
              during_connect := idle |};
         during_reconnect_wait := idle |}
  end.

Definition quiet_listen : ListenEnv :=
  {| listen_result := Return tt; during_listen := idle |}.

(** ** Vocabulary for the drain of a database *)

(** How poll [n] of [ensure_database_not_connected] ends. *)
Definition poll_outcome (env : EnsureEnv) (dbname : string) (n : nat)
  : result unit :=
  match poll_rows (polls env n) with
  | Return [] => Return tt
  | Return (_ :: _) => Raise (being_accessed dbname)
  | Raise e => Raise e
  end.

(** The time elapsed since the loop started when poll [n] ends. *)
Fixpoint finished (base : Z) (env : EnsureEnv) (n : nat) : Z :=
  match n with
  | O => Z.of_N (poll_took (polls env 0))
  | S m =>
      finished base env m + exp_backoff base m
      + Z.of_N (poll_took (polls env (S m)))
  end.

(** Whether poll [n] is followed by another one: it ended with
    [ExecutionError] within the ten seconds. *)
Definition retried (base : Z) (env : EnsureEnv) (dbname : string) (n : nat)
  : bool :=
  match poll_outcome env dbname n with
  | Raise e => is_ExecutionError e && (finished base env n <=? 10000)
  | Return _ => false
  end.







(** An environment in which no session is left on the database, and nothing
    else happens. *)
Definition drained_env : EnsureEnv :=
  {| during_prune := idle;
     signal := {| signal_sys := quiet_sys;
                  signal_result := Return tt;
                  during_signal := idle |};
     polls := fun _ => {| poll_sys := quiet_sys;
                          poll_rows := Return [];
                          during_poll := idle;
                          poll_took := 1 |};
     during_sleep := fun _ => idle |}.

(** The spec's scenario: [pg_stat_activity] always returns one pid; a poll
    takes 5 ms. *)
Definition busy_env : EnsureEnv :=
  {| during_prune := idle;
     signal := {| signal_sys := quiet_sys;
                  signal_result := Return tt;
                  during_signal := idle |};
     polls := fun _ => {| poll_sys := quiet_sys;
                          poll_rows := Return [[x34; x32]];
                          during_poll := idle;
                          poll_took := 5 |};
     during_sleep := fun _ => idle |}.





(** The number of sysevents signalled among some events. *)
Fixpoint sysevents (events : list event) : nat :=
  match events with
  | [] => O
  | pgcon_signal_sysevent _ _ _ :: events' => S (sysevents events')
  | _ :: events' => sysevents events'
  end.

Definition tenant_with_empty_index : Tenant :=
  assign_dbindex (Some {| _dbs := ∅ |}) running_tenant.

(** Another task ([introspect_db]) registers "app" with its full data. *)
Definition app_registered_meanwhile (t : Tenant) : Tenant :=
  match _dbindex t with
  | Some idx =>
      assign_dbindex
        (Some (register_db idx "app" (Some [x01]) (Some ∅) (Some ∅) (Some ∅)
                 {["graphql"]} None)) t
  | None => t
  end.

(** The pool gives a healthy connection and the database has the graphql
    extension; [others] is what happens during the extension query. *)
Definition graphql_env (others : Tenant -> Tenant) : EarlyIntrospectEnv :=
  {| intro_acquire :=
       {| acquired := fun _ => Return {| pgcon_id := 3; healthy := true |};
          during_acquire := fun _ => idle |};
     intro_extensions :=
       {| extension_names := Return (Some ["graphql"]);
          during_introspect_extensions := others |};
     healthy_at_release := true |}.

(** The entry of [dbname] after a run, if the index has one. *)
Definition entry_after (run : result unit * World) (dbname : string)
  : option Database :=
  match _dbindex (tenant (snd run)) with
  | Some idx => maybe_get_db idx dbname
  | None => None
  end.

(** ** Vocabulary for further properties *)

(** The errors of a connection attempt that [_reconnect_sys_pgcon] retries. *)
Definition transient (e : exn) : bool :=
  is_OSError e || retryable_backend_error e.

(** ** After a database is dropped *)

(** [Tenant.on_after_drop_db] *)
Definition on_after_drop_db (dbname : string) : M unit :=
  instance_name ← self _instance_name;
  try_except
    (idx ← the_dbindex "AssertionError";
     when (has_db idx dbname)
       (update (assign_dbindex (Some (unregister_db idx dbname))));;
     update (fun t =>
       assign_block_new_connections (_block_new_connections t ∖ {[dbname]}) t))
    (fun e =>
       call (metrics_inc "background_errors"
               [instance_name; "on_after_drop_db"]);;
       raise e).

(** ** Serving the reported-config blobs *)

(** [a >= b] on tuples of two integers: the order is lexicographic. *)
Definition version_ge (a b : ProtocolVersion) : bool :=
  (fst b <? fst a) || ((fst a =? fst b) && (snd b <=? snd a)).

(** [Tenant.get_report_config_data]; a missing key is a [KeyError]. *)
Definition get_report_config_data (protocol_version : ProtocolVersion)
    (t : Tenant) : result bytes :=
  let key : ProtocolVersion :=
    if version_ge protocol_version (2, 0) then (2, 0) else (1, 0) in
  match _report_config_data t !! key with
  | Some blob => Return blob
  | None => Raise (OtherException "KeyError")
  end.

(** ** Failover signals on the system connection *)

(** [Tenant.on_sys_pgcon_failover_signal].  [set_state_failover] is the call
    [self._backend_adaptive_ha.set_state_failover()], a method of
    [adaptive_ha.AdaptiveHASupport], which is not part of the sources at
    hand; [_ha_backend] tells whether the cluster has an HA backend. *)
Definition on_sys_pgcon_failover_signal (set_state_failover : M unit)
  : M unit :=
  running ← self _running;
  if negb running then ret tt
  else
    try_except
      (adaptive ← self _backend_adaptive_ha;
       if adaptive then set_state_failover
       else
         cluster ← self _cluster;
         if negb (_ha_backend cluster) then on_switch_over else ret tt)
      (fun e =>
         instance_name ← self _instance_name;
         call (metrics_inc "background_errors"
                 [instance_name; "on_sys_pgcon_failover_signal"]);;
         raise e).

(** [Tenant.on_sys_pgcon_parameter_status_updated] *)
Definition on_sys_pgcon_parameter_status_updated
    (set_state_failover : M unit) (name value : string) : M unit :=
  try_except
    (if String.eqb name "in_hot_standby" && String.eqb value "on"
     then on_sys_pgcon_failover_signal set_state_failover
     else ret tt)
    (fun e =>
       instance_name ← self _instance_name;
       call (metrics_inc "background_errors"
               [instance_name; "on_sys_pgcon_parameter_status_updated"]);;
       raise e).

(** ** Starting and stopping *)

(** [Tenant.start_running] *)
Definition start_running : M unit :=
  update (assign_running true);;
  update (assign_accepting_connections true).

(** [Tenant.stop_accepting_connections] *)
Definition stop_accepting_connections : M unit :=
  update (assign_accepting_connections false).

(** [Tenant.stop]; [stop_watching] is how [self._cluster.stop_watching()]
    ends, the cluster not being part of the sources at hand. *)
Definition stop (stop_watching : result unit) : M unit :=
  update (assign_running false);;
  update (assign_accept_new_tasks false);;
  resume stop_watching.

(** [Tenant.is_accepting_connections] *)
Definition is_accepting_connections (t : Tenant) : bool :=
  _accepting_connections t && _accept_new_tasks t.

(** ** Loading the token lists *)

(** Whether [str.splitlines] ends a line at [c]: line feed, vertical tab,
    form feed, carriage return, the file, group and record separators and
    the next-line control.  A character is a code point below 256. *)
Definition is_line_boundary (c : ascii) : bool :=
  let n := N_of_ascii c in
  (((10 <=? n) && (n <=? 13)) || ((28 <=? n) && (n <=? 30)) || (n =? 133))%N.

(** [s.splitlines()]: a carriage return followed by a line feed ends one
    line, and a boundary at the end of the text opens no further line. *)
Fixpoint splitlines (s : string) : list string :=
  match s with
  | EmptyString => []
  | String c s' =>
      if is_line_boundary c then
        match s' with
        | String c' s'' =>
            if ((N_of_ascii c =? 13) && (N_of_ascii c' =? 10))%N
            then EmptyString :: splitlines s''
            else EmptyString :: splitlines s'
        | EmptyString => [EmptyString]
        end
      else
        match splitlines s' with
        | [] => [String c EmptyString]
        | line :: lines => String c line :: lines
        end
  end.

(** One of the two blocks of [load_jwcrypto]: [file] is [None] when the
    path attribute is, and otherwise how [read_text()] on it ends.  The
    handler names [edbserver.StartupError], but the module [edbserver] is
    imported for type checking only: at run time the name is not defined,
    and evaluating it raises [NameError]. *)
Definition load_jwt_list (file : option (result string))
    (assign : option (gset string) -> Tenant -> Tenant) : M unit :=
  match file with
  | Some read_text =>
      try_except
        (text ← resume read_text;
         update (assign (Some (list_to_set (splitlines text)))))
        (fun e => raise (OtherException "NameError"))
  | None => ret tt
  end.

(** [Tenant.load_jwcrypto]; the two arguments stand for the attributes
    [_jwt_sub_allowlist_file] and [_jwt_revocation_list_file] and the
    files behind them. *)
Definition load_jwcrypto
    (jwt_sub_allowlist_file jwt_revocation_list_file : option (result string))
  : M unit :=
  load_jwt_list jwt_sub_allowlist_file assign_jwt_sub_allowlist;;
  load_jwt_list jwt_revocation_list_file assign_jwt_revocation_list.

(** ** Authentication methods *)

Section Auth.

Context {Transport : Type} `{EqDecision Transport}.

(** The authentication methods of the configuration ([cfg::AuthMethod]),
    which is not part of the sources at hand, with the attribute
    [method.transports] the tenant reads. *)
Variable Method : Type.
Variable transports : Method -> list Transport.

(** An entry of the [auth] setting, with the attributes the tenant
    reads. *)
Record Auth : Type := {
  priority : Z;
  user : gset string;
  method : Method
}.

Fixpoint insert_by_priority (a : Auth) (l : list Auth) : list Auth :=
  match l with
  | [] => [a]
  | b :: l' =>
      if priority a <=? priority b then a :: b :: l'
      else b :: insert_by_priority a l'
  end.

(** [sorted(auth, key=lambda a: a.priority)]: the sort is stable, entries
    of equal priority keep their order. *)
Definition sorted (auth : list Auth) : list Auth :=
  foldr insert_by_priority [] auth.

(** [Tenant.populate_sys_auth]: the value it assigns to [self._sys_auth],
    [auth] being what [config_lookup("auth", cfg) or ()] gives. *)
Definition populate_sys_auth (auth : list Auth) : M (list Auth) :=
  the_dbindex "AssertionError";;
  ret (sorted auth).

(** [match] in the loop of [get_auth_method]. *)
Definition auth_matches (name : string) (transport : Transport) (auth : Auth)
  : bool :=
  (bool_decide (name ∈ user auth) || bool_decide ("*" ∈ user auth))
  && match transports (method auth) with
     | [] => true
     | _ :: _ => bool_decide (transport ∈ transports (method auth))
     end.

(** [Tenant.get_auth_method]: [sys_auth] is [self._sys_auth], and
    [default_auth_method transport] the method built from
    [self._server.get_default_auth_method(transport)]. *)
Definition get_auth_method (default_auth_method : Transport -> Method)
    (sys_auth : list Auth) (name : string) (transport : Transport) : Method :=
  match find (auth_matches name transport) sys_auth with
  | Some auth => method auth
  | None => default_auth_method transport
  end.

(** Entries in ascending order of priority. *)
Fixpoint ascending (l : list Auth) : Prop :=
  match l with
  | [] => True
  | a :: l' => Forall (fun b => priority a <= priority b) l' /\ ascending l'
  end.

(** The first of the entries of least priority among those that satisfy
    [p]. *)
Fixpoint first_of_least_priority (p : Auth -> bool) (l : list Auth)
  : option Auth :=
  match l with
  | [] => None
  | a :: l' =>
      if p a then
        match first_of_least_priority p l' with
        | Some b => if priority a <=? priority b then Some a else Some b
        | None => Some a
        end
      else first_of_least_priority p l'
  end.

End Auth.

(** ** The REPL context ([edb/repl/context.py]) *)

(** [QueryMode], an [enum.IntEnum]. *)
Inductive QueryMode : Type :=
| Normal
| JSON
| GraphQL.

(** [int(mode)] *)
Definition int_of_QueryMode (mode : QueryMode) : Z :=
  match mode with
  | Normal => 0
  | JSON => 1
  | GraphQL => 2
  end.

(** [QueryMode(value)], the lookup of a member by its value; the message
    of the [ValueError] does not name the value. *)
Definition QueryMode_of_int (value : Z) : result QueryMode :=
  if value =? 0 then Return Normal
  else if value =? 1 then Return JSON
  else if value =? 2 then Return GraphQL
  else Raise (ValueError "not a valid QueryMode").

(** [QueryMode.cycle] *)
Definition cycle (mode : QueryMode) : result QueryMode :=
  QueryMode_of_int ((int_of_QueryMode mode + 1) mod 3).

(** [ReplContext]; [typenames] maps type ids to names. *)
Record ReplContext : Type := {
  show_implicit_fields : bool;
  introspect_types : bool;
  query_mode : QueryMode;
  typenames : option (gmap N string)
}.

(** [ReplContext.toggle_query_mode] *)
Definition toggle_query_mode (ctx : ReplContext) : result ReplContext :=
  match cycle (query_mode ctx) with
  | Return mode =>
      Return {| show_implicit_fields := show_implicit_fields ctx;
                introspect_types := introspect_types ctx;
                query_mode := mode;
                typenames := typenames ctx |}
  | Raise e => Raise e
  end.

(** [ReplContext.toggle_implicit] *)
Definition toggle_implicit (ctx : ReplContext) : ReplContext :=
  {| show_implicit_fields := negb (show_implicit_fields ctx);
     introspect_types := introspect_types ctx;
     query_mode := query_mode ctx;
     typenames := typenames ctx |}.

(** [ReplContext.toggle_introspect_types] *)
Definition toggle_introspect_types (ctx : ReplContext) : ReplContext :=
  {| show_implicit_fields := show_implicit_fields ctx;
     introspect_types := negb (introspect_types ctx);
     query_mode := query_mode ctx;
     typenames := typenames ctx |}.

(** [ReplContext.on_new_connection] *)
Definition on_new_connection (ctx : ReplContext) : ReplContext :=
  {| show_implicit_fields := show_implicit_fields ctx;
     introspect_types := false;
     query_mode := query_mode ctx;
     typenames := typenames ctx |}.

(** ** Request helpers of the auth extension
    ([edb/server/protocol/auth_ext/http.py]) *)

(** The exceptions of the helpers: [errors.InvalidData] with its message,
    and the [IndexError] of an index out of range. *)
Inductive http_exn : Type :=
| InvalidData (msg : string)
| IndexError.

Inductive http_result (A : Type) : Type :=
| Ok (a : A)
| Fail (e : http_exn).

Arguments Ok {A} a.
Arguments Fail {A} e.

(** [_maybe_get_search_param] *)
Definition _maybe_get_search_param (query_dict : gmap string (list string))
    (key : string) : option string :=
  match query_dict !! key with
  | Some (param :: _) => Some param
  | Some [] => None
  | None => None
  end.

(** [_get_search_param] *)
Definition _get_search_param (query_dict : gmap string (list string))
    (key : string) : http_result string :=
  match _maybe_get_search_param query_dict key with
  | None => Fail (InvalidData ("Missing query parameter: " +:+ key))
  | Some val => Ok val
  end.

(** [_maybe_get_form_field] *)
Definition _maybe_get_form_field (form_dict : gmap string (list string))
    (key : string) : http_result (option string) :=
  match form_dict !! key with
  | None => Ok None
  | Some [] => Fail IndexError
  | Some (val :: _) => Ok (Some val)
  end.

(** [sep.join(items)] *)
Fixpoint join (sep : string) (items : list string) : string :=
  match items with
  | [] => ""
  | [item] => item
  | item :: items' => item +:+ sep +:+ join sep items'
  end.

(** [_check_keyset]: [keyset] lists the fields of the set in the order the
    comprehension meets them.  The two adjacent string literals of the
    source are one literal, the string [join] is called on. *)
Definition _check_keyset {V} (candidate : gmap string V)
    (keyset : list string) : http_result unit :=
  let missing_fields :=
    filter (fun field => candidate !! field = None) keyset in
  match missing_fields with
  | [] => Ok tt
  | _ :: _ =>
      Fail (InvalidData (join "Missing required fields: , " missing_fields))
  end.

(** ** Before a database is dropped or used as a template *)

(** [Tenant.on_before_drop_db] *)
Definition on_before_drop_db (fuel : nat) (backoff_base : Z) (env : EnsureEnv)
    (dbname current_dbname : string)
  : World -> option (result unit * World) :=
  fun w =>
    if String.eqb current_dbname dbname then
      Some (raise (ExecutionError
                     ("cannot drop the currently open database "
                      +:+ repr dbname)) w)
    else ensure_database_not_connected fuel backoff_base env dbname w.

(** [Tenant.on_before_create_db_from_template] *)
Definition on_before_create_db_from_template (fuel : nat) (backoff_base : Z)
    (env : EnsureEnv) (dbname current_dbname : string)
  : World -> option (result unit * World) :=
  fun w =>
    if String.eqb current_dbname dbname then
      Some (raise (ExecutionError
                     ("cannot create database using currently open database "
                      +:+ repr dbname +:+ " as a template database")) w)
    else ensure_database_not_connected fuel backoff_base env dbname w.

(** The other tasks do not unblock [dbname] while they run in place of a
    suspended coroutine. *)
Definition keeps_blocked (dbname : string) (others : Tenant -> Tenant) : Prop :=
  forall t, dbname ∈ _block_new_connections t ->
            dbname ∈ _block_new_connections (others t).

Definition sys_keeps_blocked (dbname : string) (env : SysPgconEnv) : Prop :=
  keeps_blocked dbname (during_waiter_acquire env)
  /\ keeps_blocked dbname (during_ready_wait env).

Definition others_keep_blocked (dbname : string) (env : EnsureEnv) : Prop :=
  keeps_blocked dbname (during_prune env)
  /\ sys_keeps_blocked dbname (signal_sys (signal env))
  /\ keeps_blocked dbname (during_signal (signal env))
  /\ forall n,
       sys_keeps_blocked dbname (poll_sys (polls env n))
       /\ keeps_blocked dbname (during_poll (polls env n))
       /\ keeps_blocked dbname (during_sleep env n).

(** * Properties *)

(** ** Admission and the unavailability message *)

(** C10: a database is connectable exactly when it is neither the template
    database nor in [_block_new_connections]; the template database is
    never connectable, whatever [_block_new_connections] holds. *)
Theorem is_database_connectable_iff (defines : Defines) (t : Tenant)
    (dbname : string) :
  (is_database_connectable defines t dbname = true
   <-> dbname ≠ EDGEDB_TEMPLATE_DB defines
       /\ dbname ∉ _block_new_connections t)
  /\ is_database_connectable defines t (EDGEDB_TEMPLATE_DB defines) = false.
Proof.
  unfold is_database_connectable. split.
  - rewrite andb_true_iff, !bool_decide_eq_true. reflexivity.
  - apply andb_false_iff. left. apply bool_decide_eq_false.
    intros H. now apply H.
Qed.

Example template_db_not_connectable :
  is_database_connectable sample_defines new_tenant "__edgedbtpl__" = false
  /\ is_database_connectable sample_defines new_tenant "app" = true
  /\ is_database_connectable sample_defines
       (assign_block_new_connections {["app"]} new_tenant) "app" = false.
Proof. repeat split; vm_compute; reflexivity. Qed.

Lemma set_pg_unavailable_msg_kept (t : Tenant) (first : string)
    (later : list (option string)) :
  _pg_unavailable_msg t = Some first ->
  Forall (fun msg => msg ≠ None) later ->
  set_pg_unavailable_msgs later t = t.
Proof.
  intros Hset Hlater. revert t Hset.
  induction Hlater as [|msg later Hmsg _ IH]; intros t Hset; [reflexivity|].
  unfold set_pg_unavailable_msgs in *. simpl.
  assert (Hsame : set_pg_unavailable_msg msg t = t).
  { unfold set_pg_unavailable_msg.
    rewrite !bool_decide_eq_false_2 by congruence. reflexivity. }
  rewrite Hsame. now apply IH.
Qed.

(** C8: [set_pg_unavailable_msg(msg)] assigns the message when [msg] is
    [None] or no message is set, and changes nothing otherwise; so after a
    first message is set on a tenant that had none, any run of later
    non-null messages leaves that first message in place, and a call with
    [None] clears it. *)
Theorem set_pg_unavailable_msg_first_wins (t : Tenant) (msg : option string) :
  (msg = None \/ _pg_unavailable_msg t = None ->
     _pg_unavailable_msg (set_pg_unavailable_msg msg t) = msg)
  /\ (msg ≠ None /\ _pg_unavailable_msg t ≠ None ->
        set_pg_unavailable_msg msg t = t)
  /\ (forall (first : string) (later : list (option string)),
        _pg_unavailable_msg t = None ->
        Forall (fun m => m ≠ None) later ->
        let t' :=
          set_pg_unavailable_msgs later
            (set_pg_unavailable_msg (Some first) t) in
        _pg_unavailable_msg t' = Some first
        /\ _pg_unavailable_msg (set_pg_unavailable_msg None t') = None).
Proof.
  split; [|split].
  - intros [H|H]; unfold set_pg_unavailable_msg.
    + subst msg. reflexivity.
    + rewrite (bool_decide_eq_true_2 (_pg_unavailable_msg t = None)) by exact H.
      rewrite orb_true_r. reflexivity.
  - intros [Hmsg Hcur]. unfold set_pg_unavailable_msg.
    rewrite !bool_decide_eq_false_2 by assumption. reflexivity.
  - intros first later Hnone Hlater t'.
    assert (Hfirst : _pg_unavailable_msg (set_pg_unavailable_msg (Some first) t)
                     = Some first).
    { unfold set_pg_unavailable_msg.
      rewrite (bool_decide_eq_true_2 (_pg_unavailable_msg t = None)) by exact Hnone.
      reflexivity. }
    subst t'. rewrite (set_pg_unavailable_msg_kept _ first later Hfirst Hlater).
    split; [exact Hfirst | reflexivity].
Qed.

Example first_unavailable_msg_retained :
  let t := set_pg_unavailable_msgs
             [Some "Connection is lost"; Some "second"; Some "third"]
             new_tenant in
  _pg_unavailable_msg t = Some "Connection is lost"
  /\ _pg_unavailable_msg (set_pg_unavailable_msg None t) = None.
Proof. split; reflexivity. Qed.

(** ** Readiness *)

(** C5: when a readiness state file is configured, after
    [reload_readiness_state] the flag [_accepting_connections] equals
    [is_online()], which holds exactly when the readiness state is not
    [Offline] -- whatever the file lookup and the read gave: a valid state
    (which becomes the readiness), an invalid line, a missing file or a
    failed read (each resetting the readiness to [Default]). *)
Theorem reload_readiness_state_accepting
    (ReadinessState_of_value : string -> option ReadinessState)
    (open_and_readline : string -> file_read) (t : Tenant) (path : string) :
  _readiness_state_file t = Some path ->
  let t' := reload_readiness_state ReadinessState_of_value open_and_readline t in
  _accepting_connections t' = is_online t'
  /\ (_accepting_connections t' = true <-> _readiness t' ≠ Offline)
  /\ match open_and_readline path with
     | read_line raw =>
         match ReadinessState_of_value
                 (fst (fst (partition_colon (strip raw)))) with
         | Some readiness => _readiness t' = readiness
         | None => _readiness t' = Default
         end
     | file_not_found | read_failed _ => _readiness t' = Default
     end.
Proof.
  intros Hfile t'. subst t'. unfold reload_readiness_state. rewrite Hfile.
  assert (Honline : forall u, is_online u = true <-> _readiness u ≠ Offline).
  { intros u. unfold is_online. destruct (_readiness u); simpl; split;
      congruence. }
  cbv zeta. split; [reflexivity|]. split.
  - simpl. rewrite Honline. reflexivity.
  - destruct (open_and_readline path) as [raw| |e]; try reflexivity.
    destruct (partition_colon (strip raw)) as [[state sep] reason]. simpl.
    destruct (ReadinessState_of_value state); reflexivity.
Qed.

Lemma reload_readiness_state_accepting_witness :
  let t := assign_readiness_state_file (Some "/run/readiness") new_tenant in
  let t' :=
    reload_readiness_state scenario_readiness_values
      (fun _ => read_line "offline:maintenance") t in
  _accepting_connections t' = is_online t'
  /\ (_accepting_connections t' = true <-> _readiness t' ≠ Offline).
Proof.
  destruct (reload_readiness_state_accepting scenario_readiness_values
              (fun _ => read_line "offline:maintenance")
              (assign_readiness_state_file (Some "/run/readiness") new_tenant)
              "/run/readiness" eq_refl) as (Hflag & Honline & _).
  split; [exact Hflag | exact Honline].
Defined.

(** The spec's readiness scenario: "offline:maintenance", then "read_only". *)
Example readiness_transitions :
  let newline := String (ascii_of_N 10) EmptyString in
  let t0 := assign_readiness_state_file (Some "/run/readiness") new_tenant in
  let t1 :=
    reload_readiness_state scenario_readiness_values
      (fun _ => read_line ("offline:maintenance" +:+ newline)) t0 in
  let t2 :=
    reload_readiness_state scenario_readiness_values
      (fun _ => read_line "read_only") t1 in
  (_readiness t1 = Offline /\ _accepting_connections t1 = false
   /\ _readiness_reason t1 = "maintenance")
  /\ (_readiness t2 = ReadOnly /\ _accepting_connections t2 = true
      /\ is_readonly t2 = true).
Proof. repeat split; vm_compute; reflexivity. Qed.

Example readiness_of_unreadable_file :
  let t0 :=
    assign_readiness Offline
      (assign_readiness_state_file (Some "/run/readiness") new_tenant) in
  let reload read := reload_readiness_state scenario_readiness_values
                       (fun _ => read) t0 in
  Forall (fun read => _readiness (reload read) = Default
                      /\ _accepting_connections (reload read) = true)
    [read_line "no such state"; file_not_found;
     read_failed (OSError "Permission denied")].
Proof. repeat constructor. Qed.

(** ** Signed tokens *)

Ltac run_tenant :=
  unfold bind, ret, raise, self, update, call, suspend, resume, when,
    try_except, try_finally; simpl.


(** Apart from that: for claims whose "sub" and "jti" values can be hashed
    wherever a configured list is searched for them (a value that is
    missing, null, empty or zero is never searched for), [check_jwt]
    changes nothing and returns without error exactly when, for each
    configured list, the claim is present and non-empty, "sub" is in the
    allowlist and "jti" is not in the revocation list; otherwise it raises
    [AuthenticationError]. *)
Theorem check_jwt_hashable_claims (t : Tenant) (claims : gmap string json)
    (events : list event) :
  let w := {| tenant := t; trace := events |} in
  let sub := claims_get claims "sub" in
  let jti := claims_get claims "jti" in
  let sub_ok := forall allowlist, _jwt_sub_allowlist t = Some allowlist ->
                  truthy sub = true /\ listed sub allowlist in
  let jti_ok := forall revoked, _jwt_revocation_list t = Some revoked ->
                  truthy jti = true /\ ~ listed jti revoked in
  (is_Some (_jwt_sub_allowlist t) -> truthy sub = true ->
   hashable sub = true) ->
  (is_Some (_jwt_revocation_list t) -> truthy jti = true ->
   hashable jti = true) ->
  snd (check_jwt claims w) = w
  /\ (sub_ok /\ jti_ok -> fst (check_jwt claims w) = Return tt)
  /\ (~ (sub_ok /\ jti_ok) ->
        exists msg, fst (check_jwt claims w) = Raise (AuthenticationError msg)).
Proof.
  intros w sub jti sub_ok jti_ok Hsub Hjti.
  subst w sub_ok jti_ok. unfold check_jwt.
  destruct t as [? ? ? ? ? ? ? ? ? ? ? ? ? ? ? ? ? ? ? ? ? oal orl].
  run_tenant. fold sub jti. simpl in Hsub, Hjti.
  destruct oal as [al|], orl as [rl|];
    destruct sub as [|[]|z|s|[|item items]|[|item items]],
             jti as [|[]|z'|s'|[|item' items']|[|item' items']];
    try (specialize (Hsub ltac:(eexists; reflexivity) eq_refl);
         discriminate Hsub);
    try (specialize (Hjti ltac:(eexists; reflexivity) eq_refl);
         discriminate Hjti);
    clear Hsub Hjti; simpl;
    repeat match goal with
      | |- context [bool_decide ?P] => destruct (bool_decide_reflect P); simpl
      | |- context [negb (String.eqb ?a ?b)] =>
          destruct (String.eqb_spec a b); simpl
      | |- context [negb (Z.eqb ?a ?b)] =>
          destruct (Z.eqb_spec a b); simpl
      end;
    (split; [reflexivity|]);
    (split;
     [ intros [Ha Hb];
       try (specialize (Ha _ eq_refl)); try (specialize (Hb _ eq_refl));
       simpl in *; try reflexivity; try tauto; try (destruct Ha; congruence);
       try (destruct Hb; congruence)
     | intros Hno; try (eexists; reflexivity);
       exfalso; apply Hno; split; intros ? [= <-]; simpl; try tauto;
         try (split; [reflexivity | tauto]) ]).
Qed.

Lemma check_jwt_hashable_claims_witness :
  let claims : gmap string json :=
    {[ "sub" := JStr "alice"; "jti" := JStr "jti-1" ]} in
  let w := start jwt_scenario_tenant in
  (hashable (claims_get claims "sub") = true
   /\ hashable (claims_get claims "jti") = true)
  /\ snd (check_jwt claims w) = w
  /\ fst (check_jwt claims w) = Return tt.
Proof.
  pose proof (check_jwt_hashable_claims jwt_scenario_tenant
                {[ "sub" := JStr "alice"; "jti" := JStr "jti-1" ]} []
                (fun _ _ => eq_refl) (fun _ _ => eq_refl))
    as (Hsame & Hpass & _).
  cbv zeta. split; [split; reflexivity|]. split; [exact Hsame|].
  apply Hpass.
  assert (Hs : claims_get {[ "sub" := JStr "alice"; "jti" := JStr "jti-1" ]}
                 "sub" = JStr "alice") by (vm_compute; reflexivity).
  assert (Hj : claims_get {[ "sub" := JStr "alice"; "jti" := JStr "jti-1" ]}
                 "jti" = JStr "jti-1") by (vm_compute; reflexivity).
  rewrite Hs, Hj.
  split; intros ? [= <-]; (split; [reflexivity|]); simpl.
  - apply elem_of_singleton. reflexivity.
  - intros Hin. apply elem_of_singleton in Hin. discriminate Hin.
Defined.

(** The spec's JWT scenario. *)
Example jwt_revocation_scenario :
  let outcome (claims : gmap string json) :=
    fst (check_jwt claims (start jwt_scenario_tenant)) in
  outcome {[ "sub" := JStr "alice"; "jti" := JStr "jti-1" ]} = Return tt
  /\ outcome {[ "sub" := JStr "bob"; "jti" := JStr "jti-1" ]}
     = Raise (AuthenticationError
                "authentication failed: unauthorized subject")
  /\ outcome {[ "sub" := JStr "alice"; "jti" := JStr "jti-5" ]}
     = Raise (AuthenticationError "authentication failed: revoked key")
  /\ outcome {[ "sub" := JStr "alice" ]}
     = Raise (AuthenticationError
                "authentication failed: JWT does not contain a valid key id").
Proof. repeat split; vm_compute; reflexivity. Qed.

(** ** The reported-config blobs *)

Lemma to_N_byte_of_Z (z : Z) :
  0 <= z < 256 -> Z.of_N (Byte.to_N (byte_of_Z z)) = z.
Proof.
  intros Hz. unfold byte_of_Z.
  destruct (Byte.of_N (Z.to_N z)) as [b|] eqn:Hb.
  - apply Byte.to_of_N in Hb. rewrite Hb. lia.
  - apply Byte.of_N_None_iff in Hb. lia.
Qed.

Lemma struct_pack_L_BE_u32 (n : Z) :
  0 <= n < 2 ^ 32 -> struct_pack_L n = Return (BE_u32 n).
Proof.
  intros Hn. unfold struct_pack_L, BE_u32.
  destruct (Z.leb_spec 0 n); [|lia]. destruct (Z.ltb_spec n (2 ^ 32)); [|lia].
  simpl andb. cbv iota.
  change 255 with (Z.ones 8).
  rewrite !Z.land_ones, !Z.shiftr_div_pow2 by lia.
  reflexivity.
Qed.

Lemma struct_pack_L_inv (n : Z) (packed : bytes) :
  struct_pack_L n = Return packed -> 0 <= n < 2 ^ 32 /\ packed = BE_u32 n.
Proof.
  intros H. assert (Hn : 0 <= n < 2 ^ 32).
  { unfold struct_pack_L in H.
    destruct (Z.leb_spec 0 n), (Z.ltb_spec n (2 ^ 32)); simpl in H;
      try discriminate; lia. }
  split; [exact Hn|]. rewrite (struct_pack_L_BE_u32 n Hn) in H. congruence.
Qed.

(** [BE_u32 n] reads back as [n]: it is the big-endian unsigned 32-bit
    encoding. *)
Lemma from_bytes_big_BE_u32 (n : Z) :
  0 <= n < 2 ^ 32 -> from_bytes_big (BE_u32 n) = n /\ length (BE_u32 n) = 4%nat.
Proof.
  intros Hn. split; [|reflexivity].
  unfold from_bytes_big, BE_u32. simpl fold_left.
  rewrite !to_N_byte_of_Z by (apply Z.mod_pos_bound; lia).
  change (256 ^ 3) with (256 * 256 * 256). change (256 ^ 2) with (256 * 256).
  change (2 ^ 32) with (256 * 256 * 256 * 256) in Hn.
  rewrite <- !Z.div_div by lia.
  set (a := n / 256). set (b := a / 256). set (c := b / 256).
  assert (c mod 256 = c).
  { apply Z.mod_small. subst c b a. split.
    - repeat apply Z.div_pos; lia.
    - repeat (apply Z.div_lt_upper_bound; [lia|]). lia. }
  pose proof (Z.div_mod n 256). pose proof (Z.div_mod a 256).
  pose proof (Z.div_mod b 256). fold a in H0. fold b in H1. fold c in H2. lia.
Qed.

(** When [use_sys_pgcon] returns a value, its body ran on a connection and
    returned it, and the lock was released after it. *)
Lemma use_sys_pgcon_returns {A} (env : SysPgconEnv)
    (body : PGConnection -> M A) (w w' : World) (a : A) :
  use_sys_pgcon env body w = (Return a, w') ->
  exists c w1 w2,
    body c w1 = (Return a, w2)
    /\ w' = {| tenant := assign_sys_pgcon_waiter false (tenant w2);
               trace := trace w2 |}.
Proof.
  unfold use_sys_pgcon, sys_pgcon_waiter_acquire, sys_pgcon_ready_evt_wait,
    sys_pgcon_waiter_release.
  run_tenant.
  repeat match goal with
    | |- context [if ?b then _ else _] => destruct b eqn:?; simpl
    | |- context [match ?x with Some _ => _ | None => _ end] =>
        destruct x eqn:?; simpl
    | |- context [let (_, _) := ?m in _] => destruct m as [[?|?] ?] eqn:?; simpl
    | |- context [match ?m with (_, _) => _ end] =>
        destruct m as [[?|?] ?] eqn:?; simpl
    end;
    intros [= <- <-] || intros [=]; eauto.
Qed.

Lemma store_report_config_data_spec (items : list (ProtocolVersion * bytes)) :
  NoDup items.*1 ->
  forall (data : option bytes) (w w' : World),
    store_report_config_data items data w = (Return tt, w') ->
    _server (tenant w') = _server (tenant w)
    /\ (forall ver, ver ∉ items.*1 ->
          _report_config_data (tenant w') !! ver
          = _report_config_data (tenant w) !! ver)
    /\ (forall ver typedesc, (ver, typedesc) ∈ items ->
          exists d, data = Some d
            /\ (0 <= len typedesc < 2 ^ 32 /\ 0 <= len d < 2 ^ 32)
            /\ _report_config_data (tenant w') !! ver
               = Some (reported_config_blob typedesc d)).
Proof.
  induction items as [|[ver0 td0] items IH]; intros Hnodup data w w' Hrun.
  - simpl in Hrun. injection Hrun as <-. split; [reflexivity|].
    split; [reflexivity|]. intros ver td Hin. inversion Hin.
  - apply NoDup_cons in Hnodup as [Hfresh Hnodup]. simpl in Hfresh.
    simpl in Hrun. revert Hrun. run_tenant.
    destruct (struct_pack_L (len td0)) as [p0|] eqn:Hp0; simpl; [|discriminate].
    destruct data as [d|]; simpl; [|discriminate].
    destruct (struct_pack_L (len d)) as [p1|] eqn:Hp1; simpl; [|discriminate].
    intros Hrun. apply (IH Hnodup) in Hrun as (Hserver & Hother & Hitems).
    simpl in Hserver, Hother.
    apply struct_pack_L_inv in Hp0 as [Hlen0 ->].
    apply struct_pack_L_inv in Hp1 as [Hlen1 ->].
    split; [exact Hserver|]. split.
    + intros ver Hver. apply not_elem_of_cons in Hver as [Hne Hver].
      rewrite (Hother ver Hver). simpl. now rewrite lookup_insert_ne.
    + intros ver td Hin. apply elem_of_cons in Hin as [[= -> ->]|Hin].
      * exists d. split; [reflexivity|]. split; [tauto|].
        rewrite (Hother ver0 Hfresh). simpl. now rewrite lookup_insert_eq.
      * destruct (Hitems ver td Hin) as (d' & [= <-] & Hlens & Hblob). eauto.
Qed.

(** C7: when [_load_reported_config] completes, every protocol version with
    a registered type descriptor has in [_report_config_data] the blob
    BE-u32(len typedesc) || typedesc || BE-u32(len data) || data, where
    [data] is the config data fetched; both lengths fit 32 bits and read
    back from their four bytes. *)
Theorem load_reported_config_blob (env : ReportedConfigEnv) (w w' : World) :
  _load_reported_config env w = (Return tt, w') ->
  forall (ver : ProtocolVersion) (typedesc : bytes),
    get_report_config_typedesc (_server (tenant w')) !! ver = Some typedesc ->
    exists data,
      report_configs env = Return (Some data)
      /\ _report_config_data (tenant w') !! ver
         = Some (BE_u32 (len typedesc) ++ typedesc
                 ++ BE_u32 (len data) ++ data)%list
      /\ from_bytes_big (BE_u32 (len typedesc)) = len typedesc
      /\ from_bytes_big (BE_u32 (len data)) = len data.
Proof.
  intros Hrun ver typedesc Hreg.
  unfold _load_reported_config in Hrun. revert Hrun. run_tenant. intros Hrun.
  apply use_sys_pgcon_returns in Hrun as (c & w1 & w2 & Hbody & ->).
  simpl in Hreg. revert Hbody. run_tenant.
  destruct (report_configs env) as [data|] eqn:Hdata; simpl; [|discriminate].
  match goal with
  | |- context [store_report_config_data ?items ?d ?w0] =>
      destruct (store_report_config_data items d w0) as [[[]|e] w3] eqn:Hstore
  end; simpl; [|discriminate].
  intros [= <-].
  apply store_report_config_data_spec in Hstore
      as (Hserver & _ & Hitems); [|apply NoDup_fst_map_to_list].
  simpl in Hserver. rewrite Hserver in Hreg.
  apply elem_of_map_to_list in Hreg.
  destruct (Hitems ver typedesc Hreg) as (d & -> & [Hl0 Hl1] & Hblob).
  exists d. split; [reflexivity|]. split; [exact Hblob|].
  split; apply from_bytes_big_BE_u32; assumption.
Qed.

Lemma load_reported_config_blob_witness :
  let run := _load_reported_config sample_report_env (start initing_tenant) in
  fst run = Return tt
  /\ _report_config_data (tenant (snd run)) !! (2, 0)
     = Some [x00; x00; x00; x01; x03; x00; x00; x00; x03; x0a; x0b; x0c].
Proof.
  cbv zeta.
  assert (Hr : fst (_load_reported_config sample_report_env
                      (start initing_tenant)) = Return tt)
    by (vm_compute; reflexivity).
  assert (Hreg : get_report_config_typedesc
                   (_server (tenant (snd (_load_reported_config
                      sample_report_env (start initing_tenant))))) !! (2, 0)
                 = Some [x03])
    by (vm_compute; reflexivity).
  destruct (_load_reported_config sample_report_env (start initing_tenant))
    as [r w'] eqn:Hrun.
  simpl in Hr, Hreg. subst r. split; [reflexivity|]. simpl snd.
  destruct (load_reported_config_blob sample_report_env (start initing_tenant)
              w' Hrun (2, 0) [x03] Hreg) as (data & Hdata & Hblob & _).
  injection Hdata as <-. exact Hblob.
Defined.

(** ** Backend connections across a failover *)

Ltac case_step :=
  match goal with
  | |- context [if ?b then _ else _] => destruct b eqn:?; simpl
  | |- context [match ?x with Some _ => _ | None => _ end] =>
      destruct x eqn:?; simpl
  | |- context [match ?x with Return _ => _ | Raise _ => _ end] =>
      destruct x eqn:?; simpl
  end.

Ltac not_in_events :=
  let H := fresh in
  intros H; repeat (apply elem_of_cons in H as [H|H]; [discriminate H|]);
  inversion H.

Ltac in_events :=
  solve [repeat first [apply list_elem_of_here | apply list_elem_of_further]].

(** C1: [_pg_connect] reads [_ha_master_serial] before the connection
    attempt and compares it with the value after the attempt, other tasks
    having run meanwhile.  When the attempt gives a connection and the two
    values differ, the connection is terminated, last of all, without the
    tenant back-reference, and the call raises [ConnectionError("connected
    to outdated Postgres master")]; a connection is returned only when the
    two values are equal, and then it is the one connected, with the
    back-reference set and never terminated. *)
Theorem pg_connect_checks_ha_master_serial (defines : Defines)
    (env : ConnectEnv) (dbname : string) (w : World) :
  let serial_before := _ha_master_serial (tenant w) in
  let serial_after := _ha_master_serial (during_connect env (tenant w)) in
  let r := fst (_pg_connect defines env dbname w) in
  let w' := snd (_pg_connect defines env dbname w) in
  exists new : list event,
    trace w' = (trace w ++ new)%list
    /\ (forall rv, connect_result env = Return rv ->
          serial_before ≠ serial_after ->
          r = Raise (ConnectionError "connected to outdated Postgres master")
          /\ last new = Some (pgcon_terminate rv)
          /\ pgcon_set_tenant rv ∉ new)
    /\ (forall rv, connect_result env = Return rv ->
          serial_before = serial_after ->
          r = Return rv
          /\ pgcon_set_tenant rv ∈ new
          /\ pgcon_terminate rv ∉ new)
    /\ (forall e, connect_result env = Raise e -> r = Raise e)
    /\ (forall c, r = Return c ->
          serial_before = serial_after
          /\ connect_result env = Return c
          /\ pgcon_set_tenant c ∈ new).
Proof.
  intros serial_before serial_after r w'.
  subst r w'. unfold _pg_connect. run_tenant.
  fold serial_before serial_after.
  destruct (connect_result env) as [rv|e]; simpl.
  - repeat case_step; rewrite <- ?app_assoc; simpl;
      (eexists; split; [reflexivity|]);
      match goal with
      | H : (_ =? _) = true |- _ => apply Z.eqb_eq in H
      | H : (_ =? _) = false |- _ => apply Z.eqb_neq in H
      end;
      (split; [intros rv0 [= <-] Hne
              |split; [intros rv0 [= <-] He
                      |split; [intros e [=] | intros c Hc]]]);
      try contradiction; try discriminate Hc; try (injection Hc as <-);
      repeat split; try reflexivity; try assumption;
      try in_events; try not_in_events.
  - eexists. rewrite <- ?app_assoc. split; [reflexivity|].
    split; [intros rv [=]|]. split; [intros rv [=]|].
    split; [intros e' [= <-]; reflexivity|]. intros c [=].
Qed.

(** The spec's scenario "failover mid-acquire": [on_switch_over] runs while
    [_pg_connect("app")] is suspended in [pgcon.connect]. *)
Example failover_mid_connect :
  let conn := {| pgcon_id := 7; healthy := true |} in
  let env := {| connect_result := Return conn;
                during_connect := switch_over_meanwhile |} in
  let run := _pg_connect sample_defines env "app" (start new_tenant) in
  fst run = Raise (ConnectionError "connected to outdated Postgres master")
  /\ _ha_master_serial (tenant (snd run)) = 1
  /\ last (trace (snd run)) = Some (pgcon_terminate conn)
  /\ pgcon_set_tenant conn ∉ trace (snd run).
Proof.
  cbv zeta. repeat split; try (vm_compute; reflexivity).
  vm_compute trace. not_in_events.
Qed.

Example connect_without_failover :
  let conn := {| pgcon_id := 7; healthy := true |} in
  let env := {| connect_result := Return conn; during_connect := idle |} in
  let run := _pg_connect sample_defines env "app" (start new_tenant) in
  fst run = Return conn
  /\ trace (snd run)
     = [pgcon_connect "app"; pgcon_set_stmt_cache_size conn 1000;
        metrics_observe "backend_connection_establishment_latency"
          ["localtest"];
        pgcon_set_tenant conn;
        metrics_inc "total_backend_connections" ["localtest"];
        metrics_inc "current_backend_connections" ["localtest"]].
Proof. split; vm_compute; reflexivity. Qed.

(** ** Acquiring a pooled connection *)

Lemma acquisitions_app (a b : list event) :
  acquisitions (a ++ b) = (acquisitions a + acquisitions b)%nat.
Proof.
  induction a as [|ev a IH]; [reflexivity|].
  destruct ev; simpl; rewrite IH; reflexivity.
Qed.

Lemma acquire_pgcon_loop_spec (env : AcquireEnv) (dbname : string)
    (remaining : nat) :
  forall (i : nat) (w : World),
    let r := fst (acquire_pgcon_loop env dbname i remaining w) in
    let w' := snd (acquire_pgcon_loop env dbname i remaining w) in
    exists new : list event,
      trace w' = (trace w ++ new)%list
      /\ (acquisitions new <= remaining)%nat
      /\ Forall (acquire_or_discard dbname) new
      /\ (forall c, r = Return c ->
            is_healthy c = true
            /\ exists k, (k < remaining)%nat
                 /\ acquired env (i + k)%nat = Return c
                 /\ acquisitions new = S k
                 /\ forall j, (j < k)%nat ->
                      exists cj, acquired env (i + j)%nat = Return cj
                        /\ is_healthy cj = false
                        /\ pool_release dbname cj true ∈ new)
      /\ ((forall j, (j < remaining)%nat ->
             exists cj, acquired env (i + j)%nat = Return cj
                        /\ is_healthy cj = false) ->
          r = Raise no_healthy_connection
          /\ acquisitions new = remaining
          /\ forall j cj, (j < remaining)%nat ->
               acquired env (i + j)%nat = Return cj ->
               pool_release dbname cj true ∈ new).
Proof.
  induction remaining as [|remaining IH]; intros i w r w'; subst r w'.
  - exists []. simpl. rewrite app_nil_r. repeat split; try constructor.
    + discriminate.
    + discriminate.
    + lia.
  - simpl. run_tenant.
    destruct (acquired env i) as [conn|e] eqn:Hacq; simpl.
    + destruct (is_healthy conn) eqn:Hhealthy; simpl.
      * exists [pool_acquire dbname]. split; [reflexivity|].
        split; [simpl; lia|]. split; [repeat constructor|]. split.
        -- intros c [= <-]. split; [exact Hhealthy|]. exists 0%nat.
           rewrite Nat.add_0_r. repeat split; try lia; try assumption.
        -- intros Hall. destruct (Hall 0%nat ltac:(lia)) as (c0 & Hc0 & Hu).
           rewrite Nat.add_0_r in Hc0. congruence.
      * match goal with
        | |- context [acquire_pgcon_loop env dbname (S i) remaining ?w0] =>
            destruct (IH (S i) w0) as (new & Htrace & Hcount & Hall & Hret & Hnone)
        end.
        simpl in Htrace.
        exists (pool_acquire dbname :: pool_release dbname conn true :: new).
        split; [rewrite Htrace, <- !app_assoc; reflexivity|].
        split; [simpl; lia|].
        split; [repeat constructor; assumption|]. split.
        -- intros c Hc. destruct (Hret c Hc) as (Hh & k & Hk & Hck & Hn & Hbefore).
           split; [exact Hh|]. exists (S k).
           rewrite Nat.add_succ_r. simpl in Hck.
           repeat split; try lia; try assumption.
           ++ simpl. lia.
           ++ intros [|j] Hj.
              ** exists conn. rewrite Nat.add_0_r.
                 repeat split; try assumption. in_events.
              ** destruct (Hbefore j ltac:(lia)) as (cj & Hcj & Hu & Hin).
                 exists cj. rewrite Nat.add_succ_r. simpl in Hcj.
                 repeat split; try assumption.
                 do 2 apply list_elem_of_further. exact Hin.
        -- intros Hunhealthy.
           destruct Hnone as (Hr & Hn & Hrel).
           { intros j Hj. destruct (Hunhealthy (S j) ltac:(lia)) as (cj & Hcj & Hu).
             exists cj. rewrite Nat.add_succ_r in Hcj. simpl. tauto. }
           split; [exact Hr|]. split; [simpl; lia|].
           intros [|j] cj Hj Hcj.
           ++ rewrite Nat.add_0_r in Hcj. assert (cj = conn) as -> by congruence.
              in_events.
           ++ do 2 apply list_elem_of_further. apply (Hrel j cj); [lia|].
              rewrite Nat.add_succ_r in Hcj. exact Hcj.
    + exists [pool_acquire dbname]. split; [reflexivity|].
      split; [simpl; lia|]. split; [repeat constructor|]. split.
      * discriminate.
      * intros Hall. destruct (Hall 0%nat ltac:(lia)) as (c0 & Hc0 & Hu).
        rewrite Nat.add_0_r in Hc0. congruence.
Qed.

(** The loop ends at the first acquisition that gives a healthy connection
    or fails: with that connection, or with that exception. *)
Lemma acquire_pgcon_loop_outcome (env : AcquireEnv) (dbname : string)
    (remaining : nat) :
  forall (i : nat) (w : World) (k : nat),
    (k < remaining)%nat ->
    (forall j, (j < k)%nat ->
       exists cj, acquired env (i + j)%nat = Return cj
                  /\ is_healthy cj = false) ->
    let run := acquire_pgcon_loop env dbname i remaining w in
    (forall c, acquired env (i + k)%nat = Return c -> is_healthy c = true ->
       fst run = Return c
       /\ acquisitions (trace (snd run)) = (acquisitions (trace w) + S k)%nat)
    /\ (forall e, acquired env (i + k)%nat = Raise e ->
          fst run = Raise e
          /\ acquisitions (trace (snd run))
             = (acquisitions (trace w) + S k)%nat).
Proof.
  induction remaining as [|remaining IH]; intros i w k Hk Hbefore run;
    [lia|]. subst run.
  destruct k as [|k].
  - rewrite Nat.add_0_r. simpl. run_tenant. split.
    + intros c Hc Hhealthy. rewrite Hc. simpl. rewrite Hhealthy. simpl.
      split; [reflexivity|]. rewrite acquisitions_app. simpl. lia.
    + intros e He. rewrite He. simpl.
      split; [reflexivity|]. rewrite acquisitions_app. simpl. lia.
  - destruct (Hbefore 0%nat ltac:(lia)) as (c0 & Hc0 & Hsick).
    rewrite Nat.add_0_r in Hc0.
    assert (Hshift : forall j, (j < k)%nat ->
              exists cj, acquired env (S i + j)%nat = Return cj
                         /\ is_healthy cj = false).
    { intros j Hj. destruct (Hbefore (S j) ltac:(lia)) as (cj & Hcj & Hu).
      exists cj. rewrite Nat.add_succ_r in Hcj. split; assumption. }
    pose proof (IH (S i)
                  {| tenant := during_acquire env i (tenant w);
                     trace := ((trace w ++ [pool_acquire dbname])
                               ++ [pool_release dbname c0 true])%list |}
                  k ltac:(lia) Hshift) as Hrest.
    cbv zeta in Hrest. cbn [trace] in Hrest.
    rewrite !acquisitions_app in Hrest. simpl acquisitions in Hrest.
    replace (i + S k)%nat with (S i + k)%nat by lia.
    simpl acquire_pgcon_loop. run_tenant. rewrite Hc0. simpl.
    rewrite Hsick. simpl.
    destruct Hrest as [Hreturn Hraise]. split.
    + intros c Hc Hhealthy. destruct (Hreturn c Hc Hhealthy) as [-> ->].
      split; [reflexivity|lia].
    + intros e He. destruct (Hraise e He) as [-> ->].
      split; [reflexivity|lia].
Qed.

(** C2: [acquire_pgcon] raises [BackendUnavailableError] at once, touching
    nothing, when [_pg_unavailable_msg] is set.  Otherwise it calls the
    pool's [acquire] at most [max_capacity] times and does nothing else but
    release with [discard=True] the unhealthy connections it got.  It
    returns the first healthy connection the pool gives within those
    acquisitions, every one before it having been unhealthy and discarded,
    and acquires no further; a connection it returns is that one.  An
    acquisition that fails ends the call with its exception.  And when the
    pool gives [max_capacity] unhealthy connections, all are discarded and
    it raises [BackendUnavailableError]. *)
Theorem acquire_pgcon_retries_up_to_capacity (env : AcquireEnv)
    (dbname : string) (w : World) :
  let r := fst (acquire_pgcon env dbname w) in
  let w' := snd (acquire_pgcon env dbname w) in
  let capacity := Z.to_nat (max_capacity (_pg_pool (tenant w))) in
  (forall msg, _pg_unavailable_msg (tenant w) = Some msg ->
     r = Raise (BackendUnavailableError ("Postgres is not available: " +:+ msg))
     /\ w' = w)
  /\ (_pg_unavailable_msg (tenant w) = None ->
      exists new : list event,
        trace w' = (trace w ++ new)%list
        /\ (acquisitions new <= capacity)%nat
        /\ Forall (acquire_or_discard dbname) new
        /\ (forall c, r = Return c ->
              is_healthy c = true
              /\ exists k, (k < capacity)%nat
                   /\ acquired env k = Return c
                   /\ acquisitions new = S k
                   /\ forall j, (j < k)%nat ->
                        exists cj, acquired env j = Return cj
                          /\ is_healthy cj = false
                          /\ pool_release dbname cj true ∈ new)
        /\ (forall k c, (k < capacity)%nat ->
              (forall j, (j < k)%nat ->
                 exists cj, acquired env j = Return cj
                            /\ is_healthy cj = false) ->
              acquired env k = Return c ->
              is_healthy c = true ->
              r = Return c /\ acquisitions new = S k)
        /\ (forall k e, (k < capacity)%nat ->
              (forall j, (j < k)%nat ->
                 exists cj, acquired env j = Return cj
                            /\ is_healthy cj = false) ->
              acquired env k = Raise e ->
              r = Raise e /\ acquisitions new = S k)
        /\ ((forall j, (j < capacity)%nat ->
               exists cj, acquired env j = Return cj
                          /\ is_healthy cj = false) ->
            r = Raise no_healthy_connection
            /\ acquisitions new = capacity
            /\ forall j cj, (j < capacity)%nat ->
                 acquired env j = Return cj ->
                 pool_release dbname cj true ∈ new)).
Proof.
  intros r w' capacity. subst r w' capacity.
  unfold acquire_pgcon. run_tenant. split.
  - intros msg Hmsg. rewrite Hmsg. simpl. split; reflexivity.
  - intros Hnone. rewrite Hnone.
    set (capacity := Z.to_nat (max_capacity (_pg_pool (tenant w)))).
    destruct (acquire_pgcon_loop_spec env dbname capacity 0%nat w)
      as (new & Htrace & Hbound & Hevents & Hreturned & Hall).
    exists new. split; [exact Htrace|]. split; [exact Hbound|].
    split; [exact Hevents|]. split; [exact Hreturned|].
    assert (Hcount : forall k,
              acquisitions (trace (snd (acquire_pgcon_loop env dbname 0
                                          capacity w)))
              = (acquisitions (trace w) + S k)%nat ->
              acquisitions new = S k).
    { intros k Hk. rewrite Htrace, acquisitions_app in Hk. lia. }
    split; [|split; [|exact Hall]].
    + intros k c Hk Hbefore Hc Hhealthy.
      destruct (acquire_pgcon_loop_outcome env dbname capacity 0%nat w k Hk
                  Hbefore) as [Hreturn _].
      destruct (Hreturn c Hc Hhealthy) as [Hr Hn].
      split; [exact Hr|apply Hcount; exact Hn].
    + intros k e Hk Hbefore He.
      destruct (acquire_pgcon_loop_outcome env dbname capacity 0%nat w k Hk
                  Hbefore) as [_ Hraise].
      destruct (Hraise e He) as [Hr Hn].
      split; [exact Hr|apply Hcount; exact Hn].
Qed.

Example acquire_third_is_healthy :
  let sick n := {| pgcon_id := n; healthy := false |} in
  let well n := {| pgcon_id := n; healthy := true |} in
  let env := {| acquired := fun i => Return (if (i <? 2)%nat then sick i
                                             else well i);
                during_acquire := fun _ => idle |} in
  acquire_pgcon env "app" (start new_tenant)
  = (Return (well 2%nat),
     {| tenant := new_tenant;
        trace := [pool_acquire "app"; pool_release "app" (sick 0%nat) true;
                  pool_acquire "app"; pool_release "app" (sick 1%nat) true;
                  pool_acquire "app"] |}).
Proof. reflexivity. Qed.

Example acquire_all_unhealthy :
  let sick n := {| pgcon_id := n; healthy := false |} in
  let env := {| acquired := fun i => Return (sick i);
                during_acquire := fun _ => idle |} in
  let run := acquire_pgcon env "app" (start new_tenant) in
  fst run = Raise no_healthy_connection
  /\ acquisitions (trace (snd run)) = 3%nat.
Proof. split; reflexivity. Qed.

Example acquire_while_unavailable :
  let env := {| acquired := fun i => Raise (OSError "unreachable");
                during_acquire := fun _ => idle |} in
  let t := set_pg_unavailable_msg (Some "Connection is lost") new_tenant in
  acquire_pgcon env "app" (start t)
  = (Raise (BackendUnavailableError
              "Postgres is not available: Connection is lost"),
     start t).
Proof. reflexivity. Qed.

(** ** Early introspection *)






Example early_introspect_db_registers_extensions :
  let run := _early_introspect_db (graphql_env idle) "app"
               (start tenant_with_empty_index) in
  fst run = Return tt
  /\ entry_after run "app" = Some (early_entry (Some ["graphql"])).
Proof. split; vm_compute; reflexivity. Qed.

Example early_introspect_db_keeps_concurrent_entry :
  let run := _early_introspect_db (graphql_env app_registered_meanwhile) "app"
               (start tenant_with_empty_index) in
  fst run = Return tt
  /\ entry_after run "app" = Some sample_database.
Proof. split; vm_compute; reflexivity. Qed.


(** ** The reconnect loop of the system connection *)

Lemma wait_for_reconnect_evt_clears (defines : Defines)
    (others : Tenant -> Tenant) (w : World) :
  let w' := snd (wait_for_reconnect_evt defines others w) in
  fst (wait_for_reconnect_evt defines others w) = Return tt
  /\ trace w'
     = (trace w ++ [asyncio_wait_for (SYSTEM_DB_RECONNECT_INTERVAL defines)])%list
  /\ _sys_pgcon_reconnect_evt (tenant w') = false
  /\ (_sys_pgcon_reconnect_evt (tenant w) = true ->
        tenant w' = assign_sys_pgcon_reconnect_evt false (tenant w)).
Proof.
  unfold wait_for_reconnect_evt. run_tenant.
  destruct (_sys_pgcon_reconnect_evt (tenant w)) eqn:Hset; simpl.
  - rewrite Hset. simpl. repeat split; reflexivity.
  - destruct (_sys_pgcon_reconnect_evt (others (tenant w))) eqn:Hset'; simpl;
      repeat split; try reflexivity; try assumption; discriminate.
Qed.

(** C6: in the reconnect loop, with the tenant running, a connection attempt
    that fails with an [OSError], or with a [BackendError] whose code is
    feature_not_supported, cannot_connect_now or read_only_sql_transaction,
    is followed -- the tenant still running -- by one wait for the
    reconnect event under the timeout [SYSTEM_DB_RECONNECT_INTERVAL], which
    an event already set ends at once, the event being clear afterwards, and
    then by the next iteration of the loop; if the tenant stopped meanwhile
    the loop ends without waiting.  A [BackendError] with any other code is
    raised out of the loop, and out of [_reconnect_sys_pgcon] with the ready
    event set. *)
Theorem reconnect_retries_transient_errors (defines : Defines)
    (env : nat -> ReconnectEnv) (fuel i : nat) (w w1 : World) (e : exn) :
  _running (tenant w) = true ->
  _pg_connect defines (attempt (env i)) (EDGEDB_SYSTEM_DB defines) w
  = (Raise e, w1) ->
  (is_OSError e = true
   \/ e = BackendError ERROR_FEATURE_NOT_SUPPORTED
   \/ e = BackendError ERROR_CANNOT_CONNECT_NOW
   \/ e = BackendError ERROR_READ_ONLY_SQL_TRANSACTION ->
   (_running (tenant w1) = true ->
      let w2 := after_reconnect_wait defines (env i) w1 in
      reconnect_attempt defines (env i) w = (Return Continue, w2)
      /\ trace w2
         = (trace w1
            ++ [asyncio_wait_for (SYSTEM_DB_RECONNECT_INTERVAL defines)])%list
      /\ _sys_pgcon_reconnect_evt (tenant w2) = false
      /\ (_sys_pgcon_reconnect_evt (tenant w1) = true ->
            tenant w2 = assign_sys_pgcon_reconnect_evt false (tenant w1))
      /\ reconnect_loop (S fuel) defines env i w
         = reconnect_loop fuel defines env (S i) w2)
   /\ (_running (tenant w1) = false ->
         reconnect_attempt defines (env i) w = (Return Continue, w1)
         /\ reconnect_loop (S (S fuel)) defines env i w
            = Some (Return None, w1)))
  /\ (forall code, e = BackendError code ->
        code ≠ ERROR_FEATURE_NOT_SUPPORTED ->
        code ≠ ERROR_CANNOT_CONNECT_NOW ->
        code ≠ ERROR_READ_ONLY_SQL_TRANSACTION ->
        reconnect_attempt defines (env i) w = (Raise e, w1)
        /\ reconnect_loop (S fuel) defines env i w = Some (Raise e, w1)
        /\ (i = 0%nat -> forall listen,
              _reconnect_sys_pgcon (S fuel) defines env listen w
              = Some (Raise e, ready_evt_set w1))).
Proof.
  intros Hrunning Hconnect. split.
  - intros Hretry.
    assert (Hstep : reconnect_attempt defines (env i) w
                    = (running ← self _running;
                       when running
                         (wait_for_reconnect_evt defines
                            (during_reconnect_wait (env i)));;
                       ret Continue)%tenant w1).
    { unfold reconnect_attempt. unfold bind at 1. unfold try_except, bind at 1.
      rewrite Hconnect.
      destruct Hretry as [Hos | [ -> | [ -> | -> ] ] ]; [rewrite Hos|..];
        reflexivity. }
    split.
    + intros Hstill w2. subst w2. unfold after_reconnect_wait.
      destruct (wait_for_reconnect_evt_clears defines
                  (during_reconnect_wait (env i)) w1)
        as (Hret & Htrace & Hclear & Himmediate).
      assert (Hattempt : reconnect_attempt defines (env i) w
                = (Return Continue,
                   snd (wait_for_reconnect_evt defines
                          (during_reconnect_wait (env i)) w1))).
      { rewrite Hstep. run_tenant. rewrite Hstill. simpl.
        destruct (wait_for_reconnect_evt defines
                    (during_reconnect_wait (env i)) w1) as [[[]|e'] w2];
          simpl in *; [reflexivity|discriminate]. }
      repeat split; try assumption.
      simpl. rewrite Hrunning, Hattempt. reflexivity.
    + intros Hstopped.
      assert (Hattempt : reconnect_attempt defines (env i) w
                         = (Return Continue, w1)).
      { rewrite Hstep. run_tenant. rewrite Hstopped. reflexivity. }
      split; [exact Hattempt|].
      simpl. rewrite Hrunning, Hattempt, Hstopped. reflexivity.
  - intros code -> Hfns Hccn Hro.
    assert (Hattempt : reconnect_attempt defines (env i) w
                       = (Raise (BackendError code), w1)).
    { unfold reconnect_attempt. unfold bind at 1. unfold try_except, bind at 1.
      rewrite Hconnect. destruct code; try contradiction; reflexivity. }
    split; [exact Hattempt|].
    assert (Hloop : reconnect_loop (S fuel) defines env i w
                    = Some (Raise (BackendError code), w1)).
    { simpl. rewrite Hrunning, Hattempt. reflexivity. }
    split; [exact Hloop|].
    intros -> listen. unfold _reconnect_sys_pgcon. rewrite Hloop. reflexivity.
Qed.

Lemma reconnect_retries_transient_errors_witness :
  let w := start disconnected_tenant in
  let w1 := snd (_pg_connect sample_defines (attempt (starting_up_env 0))
                   "__edgedbsys__" w) in
  let w2 := after_reconnect_wait sample_defines (starting_up_env 0) w1 in
  reconnect_attempt sample_defines (starting_up_env 0) w = (Return Continue, w2)
  /\ trace w2 = (trace w1 ++ [asyncio_wait_for 1000])%list
  /\ _sys_pgcon_reconnect_evt (tenant w2) = false
  /\ reconnect_loop 3 sample_defines starting_up_env 0 w
     = reconnect_loop 2 sample_defines starting_up_env 1 w2.
Proof.
  cbv zeta.
  assert (Hconnect :
            _pg_connect sample_defines (attempt (starting_up_env 0))
              (EDGEDB_SYSTEM_DB sample_defines) (start disconnected_tenant)
            = (Raise (BackendError ERROR_CANNOT_CONNECT_NOW),
               snd (_pg_connect sample_defines (attempt (starting_up_env 0))
                      "__edgedbsys__" (start disconnected_tenant))))
    by (vm_compute; reflexivity).
  destruct (reconnect_retries_transient_errors sample_defines starting_up_env
              2 0 (start disconnected_tenant) _ _ eq_refl Hconnect)
    as [Hretry _].
  destruct (Hretry (or_intror (or_intror (or_introl eq_refl)))) as [Hgo _].
  destruct (Hgo eq_refl) as (Hattempt & Htrace & Hclear & _ & Hloop).
  repeat split; assumption.
Defined.

(** A reconnection that succeeds at the second attempt: the new connection is
    installed and marked, the unavailability message cleared and the ready
    event set. *)
Example reconnect_at_second_attempt :
  let conn := {| pgcon_id := 1; healthy := true |} in
  let run := _reconnect_sys_pgcon 2 sample_defines second_attempt_env
               quiet_listen (start disconnected_tenant) in
  fst <$> run = Some (Return tt)
  /\ _Tenant__sys_pgcon ∘ tenant ∘ snd <$> run = Some (Some conn)
  /\ _pg_unavailable_msg ∘ tenant ∘ snd <$> run = Some None
  /\ _sys_pgcon_ready_evt ∘ tenant ∘ snd <$> run = Some true
  /\ trace ∘ snd <$> run
     = Some [pgcon_connect "__edgedbsys__";
             metrics_inc "backend_connection_establishment_errors"
               ["localtest"];
             metrics_observe "backend_connection_establishment_latency"
               ["localtest"];
             asyncio_wait_for 1000;
             pgcon_connect "__edgedbsys__";
             pgcon_set_stmt_cache_size conn 1000;
             metrics_observe "backend_connection_establishment_latency"
               ["localtest"];
             pgcon_set_tenant conn;
             metrics_inc "total_backend_connections" ["localtest"];
             metrics_inc "current_backend_connections" ["localtest"];
             pgcon_mark_as_system_db conn;
             pgcon_listen_for_sysevent conn].
Proof. cbv zeta. split; [|split; [|split; [|split]]]; vm_compute; reflexivity. Qed.

(** While the backend keeps refusing and the tenant keeps running, the loop
    never ends: no number of attempts suffices. *)
Example reconnect_retries_indefinitely (fuel i : nat) (events : list event) :
  reconnect_loop fuel sample_defines starting_up_env i
    {| tenant := disconnected_tenant; trace := events |} = None.
Proof.
  revert i events. induction fuel as [|fuel IH]; intros i events.
  - reflexivity.
  - simpl. unfold reconnect_attempt, _pg_connect, wait_for_reconnect_evt.
    run_tenant. apply IH.
Qed.

(** ** Draining a database before destructive DDL *)

Example repr_of_database_names :
  let single := String "'" EmptyString in
  let double := String (ascii_of_N 34) EmptyString in
  repr "app" = single +:+ "app" +:+ single
  /\ repr ("it" +:+ single +:+ "s") = double +:+ "it's" +:+ double
  /\ repr ("a" +:+ String (ascii_of_N 10) "b") = single +:+ "a\nb" +:+ single.
Proof. repeat split. Qed.











Lemma use_sys_pgcon_keeps_blocked {A} (dbname : string) (env : SysPgconEnv)
    (body : PGConnection -> M A) (w : World) :
  sys_keeps_blocked dbname env ->
  (forall c w1, dbname ∈ _block_new_connections (tenant w1) ->
                dbname ∈ _block_new_connections (tenant (snd (body c w1)))) ->
  dbname ∈ _block_new_connections (tenant w) ->
  dbname ∈ _block_new_connections (tenant (snd (use_sys_pgcon env body w))).
Proof.
  intros [Hacquire Hready] Hbody Hblocked. unfold keeps_blocked in *.
  unfold use_sys_pgcon, sys_pgcon_waiter_acquire, sys_pgcon_ready_evt_wait,
    sys_pgcon_waiter_release.
  run_tenant.
  repeat match goal with
    | |- context [if ?b then _ else _] => destruct b eqn:?; simpl
    | |- context [match ?x with Some _ => _ | None => _ end] =>
        destruct x eqn:?; simpl
    | |- context [match ?x with Return _ => _ | Raise _ => _ end] =>
        destruct x eqn:?; simpl
    | |- context [let (_, _) := ?m in _] =>
        destruct m as [[?|?] ?] eqn:?; simpl
    | |- context [match ?m with (_, _) => _ end] =>
        destruct m as [[?|?] ?] eqn:?; simpl
    end;
    try match goal with
      | H : body ?c ?w0 = (_, ?w2) |- _ =>
          let Hb := fresh "Hb" in
          pose proof (Hbody c w0) as Hb; rewrite H in Hb; simpl in Hb;
          apply Hb
      end;
    repeat first [assumption | apply Hready; simpl | apply Hacquire; simpl].
Qed.

Lemma signal_sysevent_keeps_blocked (dbname : string) (env : SignalEnv)
    (name db : string) (w : World) :
  sys_keeps_blocked dbname (signal_sys env) ->
  keeps_blocked dbname (during_signal env) ->
  dbname ∈ _block_new_connections (tenant w) ->
  dbname ∈ _block_new_connections
             (tenant (snd (signal_sysevent env name db w))).
Proof.
  intros Hsys Hsignal Hblocked.
  remember (signal_sysevent env name db w) as run eqn:Hrun.
  unfold signal_sysevent, try_except in Hrun.
  unfold bind at 1 in Hrun. unfold self at 1 in Hrun. cbv beta iota in Hrun.
  unfold bind at 1 in Hrun. unfold self at 1 in Hrun. cbv beta iota in Hrun.
  destruct (not_running (tenant w)); [subst run; exact Hblocked|].
  pose proof (use_sys_pgcon_keeps_blocked dbname (signal_sys env)
                (fun con =>
                   call (pgcon_signal_sysevent con name db);;
                   suspend (during_signal env);;
                   resume (signal_result env)) w Hsys) as Huse.
  destruct (use_sys_pgcon (signal_sys env) _ w) as [[[]|e] w1];
    subst run; simpl in *; apply Huse; try exact Hblocked;
    intros c w0 Hw0; run_tenant;
    destruct (signal_result env); simpl; apply Hsignal; exact Hw0.
Qed.

Lemma pg_ensure_database_not_connected_keeps_blocked (dbname : string)
    (env : PollEnv) (db : string) (w : World) :
  sys_keeps_blocked dbname (poll_sys env) ->
  keeps_blocked dbname (during_poll env) ->
  dbname ∈ _block_new_connections (tenant w) ->
  dbname ∈ _block_new_connections
             (tenant (snd (_pg_ensure_database_not_connected env db w))).
Proof.
  intros Hsys Hpoll Hblocked.
  unfold _pg_ensure_database_not_connected. unfold bind at 1.
  pose proof (use_sys_pgcon_keeps_blocked dbname (poll_sys env)
                (fun pgcon =>
                   call (pgcon_sql_fetch_col pgcon
                           "SELECT pid FROM pg_stat_activity WHERE datname = $1"
                           [db]);;
                   suspend (during_poll env);;
                   resume (poll_rows env)) w Hsys) as Huse.
  destruct (use_sys_pgcon (poll_sys env) _ w) as [[conns|e] w1]; simpl in *.
  - destruct conns; simpl; apply Huse; try exact Hblocked;
      intros c w0 Hw0; run_tenant;
      destruct (poll_rows env); simpl; apply Hpoll; exact Hw0.
  - apply Huse; try exact Hblocked.
    intros c w0 Hw0. run_tenant.
    destruct (poll_rows env); simpl; apply Hpoll; exact Hw0.
Qed.

Lemma retry_loop_keeps_blocked (dbname : string) (rloop : RetryLoop)
    (took : nat -> N) (sleeps : nat -> Tenant -> Tenant)
    (body : nat -> M unit) :
  (forall n, keeps_blocked dbname (sleeps n)) ->
  (forall n w, dbname ∈ _block_new_connections (tenant w) ->
               dbname ∈ _block_new_connections (tenant (snd (body n w)))) ->
  forall fuel iteration elapsed w r w',
    dbname ∈ _block_new_connections (tenant w) ->
    retry_loop fuel rloop took sleeps body iteration elapsed w = Some (r, w') ->
    dbname ∈ _block_new_connections (tenant w').
Proof.
  intros Hsleeps Hbody.
  induction fuel as [|fuel IH]; intros iteration elapsed w r w' Hblocked Hrun;
    [discriminate Hrun|].
  simpl in Hrun. pose proof (Hbody iteration w Hblocked) as Hafter.
  destruct (body iteration w) as [[[]|e] w1]; simpl in Hafter.
  - injection Hrun as <- <-. exact Hafter.
  - destruct (ignore rloop e
              && (elapsed + Z.of_N (took iteration) <=? timeout rloop)).
    + revert Hrun. run_tenant. apply IH. simpl. apply Hsleeps. exact Hafter.
    + injection Hrun as <- <-. exact Hafter.
Qed.

Lemma ensure_database_not_connected_blocked (fuel : nat) (base : Z)
    (env : EnsureEnv) (dbname : string) (w w' : World) (r : result unit) :
  others_keep_blocked dbname env ->
  has_local_connections (tenant w) dbname = false ->
  ensure_database_not_connected fuel base env dbname w = Some (r, w') ->
  dbname ∈ _block_new_connections (tenant w').
Proof.
  intros (Hprune & Hsys & Hsignal & Hpolls) Hlocal Hrun.
  unfold ensure_database_not_connected in Hrun. rewrite Hlocal in Hrun.
  assert (Hstart : dbname ∈ _block_new_connections
                     (tenant (snd (block_prune_and_signal env dbname w)))).
  { unfold block_prune_and_signal. run_tenant.
    match goal with
    | |- context [signal_sysevent ?e ?n ?d ?w0] =>
        pose proof (signal_sysevent_keeps_blocked dbname e n d w0 Hsys Hsignal)
          as Hkept;
        destruct (signal_sysevent e n d w0) as [[[]|e0] w1]
    end; simpl in *; apply Hkept; apply Hprune; simpl;
      apply elem_of_union; left; apply elem_of_singleton; reflexivity. }
  destruct (block_prune_and_signal env dbname w) as [[[]|e] w1];
    simpl in Hstart.
  - eapply retry_loop_keeps_blocked; [| |exact Hstart|exact Hrun].
    + intros n. apply Hpolls.
    + intros n w0 Hw0.
      apply pg_ensure_database_not_connected_keeps_blocked;
        [apply Hpolls|apply Hpolls|exact Hw0].
  - injection Hrun as <- <-. exact Hstart.
Qed.








(** The spec's scenario "timeout": [pg_stat_activity] always returns one pid.
    With a first delay of 10 ms and polls of 5 ms, the call fails with
    [ExecutionError] after the eleventh poll, which ends 10.285 s after
    the first started; the database is blocked and the sysevent was emitted
    once. *)
Example ensure_database_not_connected_times_out :
  let run := ensure_database_not_connected 50 10 busy_env "app"
               (start running_tenant) in
  fst <$> run
  = Some (Raise (ExecutionError
                   "database 'app' is being accessed by other users"))
  /\ sysevents ∘ trace ∘ snd <$> run = Some 1%nat
  /\ (fun x => bool_decide
                  ("app" ∈ _block_new_connections (tenant (snd x))))
       <$> run = Some true
  /\ retried 10 busy_env "app" 9 = true
  /\ finished 10 busy_env 9 = 5160
  /\ retried 10 busy_env "app" 10 = false
  /\ finished 10 busy_env 10 = 10285.
Proof.
  cbv zeta.
  split; [vm_compute; reflexivity|]. split; [vm_compute; reflexivity|].
  split; [vm_compute; reflexivity|]. repeat split.
Qed.

(** * Further properties *)

(** ** The lock around the system connection *)


(** The lock is left held: on a running tenant whose system connection is
    broken, a call whose [abort()] fails ends with the lock taken, which
    nobody releases. *)
Example use_sys_pgcon_leaves_lock_held :
  let broken := {| pgcon_id := 0; healthy := false |} in
  let env := {| during_waiter_acquire := idle;
                during_ready_wait := idle;
                abort_result := Raise (OSError "Bad file descriptor");
                ready_wait_result := Return tt |} in
  let t := assign_sys_pgcon (Some broken) running_tenant in
  let run := use_sys_pgcon env (fun _ => ret tt) (start t) in
  _sys_pgcon_waiter t = false
  /\ fst run = Raise (OSError "Bad file descriptor")
  /\ trace (snd run) = [pgcon_abort broken]
  /\ _sys_pgcon_waiter (tenant (snd run)) = true.
Proof. repeat split. Qed.

(** ** The end of a reconnection *)

(** Whenever [_reconnect_sys_pgcon] ends, with a result or with an
    exception, the ready event is set, so that the tasks waiting in
    [use_sys_pgcon] go on.  When it returns and the tenant runs, it has
    installed a connection, marked it as the system connection and
    subscribed it to sysevents, the subscription having succeeded, and the
    unavailability message is cleared; the tenant holds that connection
    provided no other task replaced or dropped the system connection while
    [listen_for_sysevent] was awaited. *)
Theorem reconnect_sys_pgcon_sets_ready_evt (fuel : nat) (defines : Defines)
    (env : nat -> ReconnectEnv) (listen : ListenEnv) (w w' : World)
    (r : result unit) :
  _reconnect_sys_pgcon fuel defines env listen w = Some (r, w') ->
  _sys_pgcon_ready_evt (tenant w') = true
  /\ (r = Return tt ->
      _running (tenant w') = true ->
      _pg_unavailable_msg (tenant w') = None
      /\ listen_result listen = Return tt
      /\ exists c,
           pgcon_mark_as_system_db c ∈ trace w'
           /\ pgcon_listen_for_sysevent c ∈ trace w'
           /\ ((forall t, _Tenant__sys_pgcon (during_listen listen t)
                          = _Tenant__sys_pgcon t) ->
               _Tenant__sys_pgcon (tenant w') = Some c)).
Proof.
  unfold _reconnect_sys_pgcon.
  destruct (reconnect_loop fuel defines env 0 w) as [[r0 w0]|]; [|discriminate].
  unfold install_sys_pgcon. run_tenant.
  destruct r0 as [[c|]|e]; simpl.
  - destruct (_running (tenant w0)) eqn:Hrunning; simpl.
    + destruct (listen_result listen) as [[]|e] eqn:Hlisten; simpl;
        intros [= <- <-]; simpl.
      * split; [reflexivity|].
        intros _ _. split; [reflexivity|]. split; [reflexivity|].
        exists c. split.
        -- apply elem_of_app. left. apply elem_of_app. right.
           apply list_elem_of_here.
        -- split.
           ++ apply elem_of_app. right. apply list_elem_of_here.
           ++ intros Hkept. rewrite Hkept. reflexivity.
      * split; [reflexivity | discriminate].
    + intros [= <- <-]. simpl. split; [reflexivity|].
      intros _ Hnow. congruence.
  - destruct (_running (tenant w0)) eqn:Hrunning; simpl;
      intros [= <- <-]; simpl; (split; [reflexivity|]).
    + discriminate.
    + intros _ Hnow. congruence.
  - intros [= <- <-]. simpl. split; [reflexivity | discriminate].
Qed.

Lemma reconnect_sys_pgcon_sets_ready_evt_witness :
  exists w',
    _reconnect_sys_pgcon 2 sample_defines second_attempt_env quiet_listen
      (start disconnected_tenant) = Some (Return tt, w')
    /\ _sys_pgcon_ready_evt (tenant w') = true
    /\ _pg_unavailable_msg (tenant w') = None
    /\ exists c, _Tenant__sys_pgcon (tenant w') = Some c.
Proof.
  destruct (_reconnect_sys_pgcon 2 sample_defines second_attempt_env
              quiet_listen (start disconnected_tenant))
    as [[r w']|] eqn:Hrun; [|vm_compute in Hrun; discriminate Hrun].
  assert (Hr : r = Return tt).
  { vm_compute in Hrun. injection Hrun as <- _. reflexivity. }
  assert (Hrunning : _running (tenant w') = true).
  { vm_compute in Hrun. injection Hrun as _ <-. reflexivity. }
  subst r. exists w'. split; [reflexivity|].
  destruct (reconnect_sys_pgcon_sets_ready_evt 2 sample_defines
              second_attempt_env quiet_listen (start disconnected_tenant) w'
              (Return tt) Hrun) as [Hready Hinstalled].
  split; [exact Hready|].
  destruct (Hinstalled eq_refl Hrunning) as (Hmsg & _ & c & _ & _ & Hheld).
  split; [exact Hmsg|].
  exists c. apply Hheld. intros t. reflexivity.
Defined.

(** The connection is lost again while [listen_for_sysevent] is awaited
    ([on_sys_pgcon_connection_lost] runs meanwhile): the call returns on a
    running tenant that holds no system connection. *)
Example reconnect_sys_pgcon_lost_while_listening :
  let lost_again :=
    {| listen_result := Return tt;
       during_listen := fun t =>
         assign_sys_pgcon_ready_evt false (assign_sys_pgcon None t) |} in
  let run := _reconnect_sys_pgcon 2 sample_defines second_attempt_env
               lost_again (start disconnected_tenant) in
  fst <$> run = Some (Return tt)
  /\ _running ∘ tenant ∘ snd <$> run = Some true
  /\ _Tenant__sys_pgcon ∘ tenant ∘ snd <$> run = Some None
  /\ _sys_pgcon_ready_evt ∘ tenant ∘ snd <$> run = Some true.
Proof. cbv zeta. repeat split; vm_compute; reflexivity. Qed.

(** ** The reconnect loop under a lasting outage *)

Lemma pg_connect_refused (defines : Defines) (env : ConnectEnv)
    (dbname : string) (w : World) (e : exn) :
  connect_result env = Raise e ->
  fst (_pg_connect defines env dbname w) = Raise e
  /\ tenant (snd (_pg_connect defines env dbname w))
     = during_connect env (tenant w).
Proof.
  intros Hrefused. unfold _pg_connect. run_tenant. rewrite Hrefused.
  split; reflexivity.
Qed.

Lemma wait_for_reconnect_evt_running (defines : Defines)
    (others : Tenant -> Tenant) (w : World) :
  _running (tenant w) = true ->
  _running (others (tenant w)) = true ->
  _running (tenant (snd (wait_for_reconnect_evt defines others w))) = true.
Proof.
  intros Hrunning Hothers. unfold wait_for_reconnect_evt. run_tenant.
  destruct (_sys_pgcon_reconnect_evt (tenant w)) eqn:Hset; simpl.
  - rewrite Hset. simpl. exact Hrunning.
  - destruct (_sys_pgcon_reconnect_evt (others (tenant w))); simpl;
      exact Hothers.
Qed.

(** While every connection attempt fails with an error the loop retries
    and no other task stops the tenant, the reconnect loop does not end:
    no number of attempts makes it give up or raise. *)
Theorem reconnect_loop_never_gives_up (defines : Defines)
    (env : nat -> ReconnectEnv) :
  (forall i, exists e,
      connect_result (attempt (env i)) = Raise e /\ transient e = true) ->
  (forall i t, _running t = true ->
     _running (during_connect (attempt (env i)) t) = true
     /\ _running (during_reconnect_wait (env i) t) = true) ->
  forall (fuel i : nat) (w : World),
    _running (tenant w) = true ->
    reconnect_loop fuel defines env i w = None.
Proof.
  intros Hrefused Hkeeps. induction fuel as [|fuel IH]; intros i w Hrunning.
  - simpl. rewrite Hrunning. reflexivity.
  - simpl. rewrite Hrunning.
    destruct (Hrefused i) as (e & He & Htransient).
    destruct (pg_connect_refused defines (attempt (env i))
                (EDGEDB_SYSTEM_DB defines) w e He) as [Hraise Htenant].
    destruct (Hkeeps i (tenant w) Hrunning) as [Hafter _].
    unfold reconnect_attempt. unfold bind at 1. unfold try_except, bind at 1.
    destruct (_pg_connect defines (attempt (env i)) (EDGEDB_SYSTEM_DB defines) w)
      as [r1 w1]. simpl in Hraise, Htenant. subst r1.
    assert (Hw1 : _running (tenant w1) = true) by (rewrite Htenant; exact Hafter).
    assert (Hcontinue :
              (if is_OSError e then ret Continue
               else match e with
                    | BackendError _ =>
                        if negb (retryable_backend_error e) then raise e
                        else ret Continue
                    | _ => raise e
                    end) w1 = (Return Continue, w1)).
    { unfold transient in Htransient.
      destruct (is_OSError e); [reflexivity|]. simpl in Htransient.
      destruct e; try discriminate Htransient.
      rewrite Htransient. reflexivity. }
    rewrite Hcontinue. run_tenant. rewrite Hw1. simpl.
    destruct (Hkeeps i (tenant w1) Hw1) as [_ Hwait].
    pose proof (wait_for_reconnect_evt_running defines
                  (during_reconnect_wait (env i)) w1 Hw1 Hwait) as Hstill.
    destruct (wait_for_reconnect_evt_clears defines
                (during_reconnect_wait (env i)) w1) as (Hret & _).
    destruct (wait_for_reconnect_evt defines (during_reconnect_wait (env i)) w1)
      as [[[]|e'] w2]; simpl in *; [|discriminate Hret].
    apply IH. exact Hstill.
Qed.

Lemma reconnect_loop_never_gives_up_witness :
  reconnect_loop 7 sample_defines starting_up_env 0 (start disconnected_tenant)
  = None.
Proof.
  apply (reconnect_loop_never_gives_up sample_defines starting_up_env).
  - intros i. exists (BackendError ERROR_CANNOT_CONNECT_NOW).
    split; reflexivity.
  - intros i t Hrunning. split; exact Hrunning.
  - reflexivity.
Defined.

(** ** Switch-overs while a connection is being made *)

Lemma on_switch_over_serial (w : World) :
  fst (on_switch_over w) = Return tt
  /\ _ha_master_serial (tenant (snd (on_switch_over w)))
     = _ha_master_serial (tenant w) + 1.
Proof.
  unfold on_switch_over. run_tenant.
  destruct (_accept_new_tasks (tenant w)); simpl;
    destruct (_Tenant__sys_pgcon (tenant w)); simpl;
    destruct (_backend_adaptive_ha (tenant w)); simpl;
    split; reflexivity.
Qed.

Lemma switch_overs_meanwhile_serial (n : nat) (t : Tenant) :
  _ha_master_serial (Nat.iter n switch_over_meanwhile t)
  = _ha_master_serial t + Z.of_nat n.
Proof.
  induction n as [|n IH].
  - simpl. lia.
  - rewrite Nat.iter_succ. unfold switch_over_meanwhile at 1.
    destruct (on_switch_over_serial (start (Nat.iter n switch_over_meanwhile t)))
      as [_ ->].
    simpl. rewrite IH. lia.
Qed.

(** Every [on_switch_over] adds one to [_ha_master_serial], so a
    connection that is established while one or more switch-overs happen
    is never handed out: [_pg_connect] terminates it, last of all, and
    raises [ConnectionError], the serial having advanced by the number of
    switch-overs. *)
Theorem pg_connect_refuses_after_switch_overs (defines : Defines)
    (rv : PGConnection) (n : nat) (dbname : string) (w : World) :
  (0 < n)%nat ->
  let env := {| connect_result := Return rv;
                during_connect := Nat.iter n switch_over_meanwhile |} in
  let run := _pg_connect defines env dbname w in
  fst run = Raise (ConnectionError "connected to outdated Postgres master")
  /\ _ha_master_serial (tenant (snd run))
     = _ha_master_serial (tenant w) + Z.of_nat n
  /\ last (trace (snd run)) = Some (pgcon_terminate rv).
Proof.
  intros Hn env run. subst run env. unfold _pg_connect. run_tenant.
  pose proof (switch_overs_meanwhile_serial n (tenant w)) as Hserial.
  destruct (stmt_cache_size (_server (Nat.iter n switch_over_meanwhile (tenant w))));
    simpl; rewrite Hserial;
    (destruct (Z.eqb_spec (_ha_master_serial (tenant w))
                          (_ha_master_serial (tenant w) + Z.of_nat n));
     [lia|]); simpl;
    (split; [reflexivity|]); (split; [exact Hserial|]);
    apply last_snoc.
Qed.

Lemma pg_connect_refuses_after_switch_overs_witness :
  let conn := {| pgcon_id := 7; healthy := true |} in
  let env := {| connect_result := Return conn;
                during_connect := Nat.iter 3 switch_over_meanwhile |} in
  let run := _pg_connect sample_defines env "app" (start new_tenant) in
  fst run = Raise (ConnectionError "connected to outdated Postgres master")
  /\ _ha_master_serial (tenant (snd run))
     = _ha_master_serial (tenant (start new_tenant)) + Z.of_nat 3
  /\ last (trace (snd run))
     = Some (pgcon_terminate {| pgcon_id := 7; healthy := true |}).
Proof.
  apply (pg_connect_refuses_after_switch_overs sample_defines
           {| pgcon_id := 7; healthy := true |} 3 "app" (start new_tenant)).
  lia.
Defined.

(** ** A switch-over and the reconnect loop *)

(** A switch-over on a tenant without system connection sets the
    reconnect event, so the wait of the reconnect loop that follows ends at
    once, whatever the other tasks would have done during it, and clears
    the event; on a tenant with a system connection the switch-over aborts
    that connection instead and leaves the event as it is. *)
Theorem switch_over_wakes_reconnect_loop (defines : Defines)
    (others : Tenant -> Tenant) (w : World) :
  let w1 := snd (on_switch_over w) in
  let w2 := snd (wait_for_reconnect_evt defines others w1) in
  match _Tenant__sys_pgcon (tenant w) with
  | None =>
      _sys_pgcon_reconnect_evt (tenant w1) = true
      /\ tenant w2 = assign_sys_pgcon_reconnect_evt false (tenant w1)
      /\ (forall c, pgcon_abort c ∉ trace w -> pgcon_abort c ∉ trace w1)
  | Some c =>
      _sys_pgcon_reconnect_evt (tenant w1)
      = _sys_pgcon_reconnect_evt (tenant w)
      /\ pgcon_abort c ∈ trace w1
  end.
Proof.
  intros w1 w2. subst w2 w1.
  unfold wait_for_reconnect_evt, on_switch_over. run_tenant.
  destruct (_Tenant__sys_pgcon (tenant w)) as [c|] eqn:Hheld; simpl.
  - destruct (_accept_new_tasks (tenant w)); simpl; rewrite ?Hheld; simpl;
      destruct (_backend_adaptive_ha (tenant w)); simpl;
      (split; [reflexivity|]);
      repeat (apply elem_of_app; first [right; apply list_elem_of_here | left]).
  - destruct (_accept_new_tasks (tenant w)); simpl; rewrite ?Hheld; simpl;
      destruct (_backend_adaptive_ha (tenant w)); simpl;
      (split; [reflexivity|]); (split; [reflexivity|]);
      intros c Hnot Hin;
      repeat (apply elem_of_app in Hin as [Hin|Hin];
              [|apply list_elem_of_singleton in Hin; discriminate Hin]);
      exact (Hnot Hin).
Qed.

(** ** Errors of a system event *)

(** [signal_sysevent] does nothing on a tenant that is neither initing
    nor running.  Any exception it ends with has been counted in
    [background_errors] under "signal_sysevent", last of all, and is the
    one raised; when it returns on a live tenant, the awaited signal
    succeeded and was the last call made, on a connection. *)
Theorem signal_sysevent_counts_errors (env : SignalEnv) (name dbname : string)
    (w : World) :
  let r := fst (signal_sysevent env name dbname w) in
  let w' := snd (signal_sysevent env name dbname w) in
  (not_running (tenant w) = true -> r = Return tt /\ w' = w)
  /\ (forall e, r = Raise e ->
        last (trace w')
        = Some (metrics_inc "background_errors"
                  [_instance_name (tenant w); "signal_sysevent"]))
  /\ (not_running (tenant w) = false -> r = Return tt ->
        signal_result env = Return tt
        /\ exists c, last (trace w')
                     = Some (pgcon_signal_sysevent c name dbname)).
Proof.
  intros r w'. subst r w'.
  remember (signal_sysevent env name dbname w) as run eqn:Hrun.
  unfold signal_sysevent, try_except in Hrun.
  unfold bind at 1 in Hrun. unfold self at 1 in Hrun. cbv beta iota in Hrun.
  unfold bind at 1 in Hrun. unfold self at 1 in Hrun. cbv beta iota in Hrun.
  destruct (not_running (tenant w)) eqn:Hstopped.
  - subst run. simpl. split; [intros _; split; reflexivity|].
    split; [intros e [=]|discriminate].
  - split; [discriminate|].
    destruct (use_sys_pgcon (signal_sys env)
                (fun con =>
                   call (pgcon_signal_sysevent con name dbname);;
                   suspend (during_signal env);;
                   resume (signal_result env)) w) as [[[]|e] w1] eqn:Huse;
      subst run.
    + split; [intros e [=]|]. intros _ _.
      apply use_sys_pgcon_returns in Huse as (c & w3 & w2 & Hbody & ->).
      revert Hbody. run_tenant.
      destruct (signal_result env) as [[]|e]; simpl; [|intros [=]].
      intros [= <-]. split; [reflexivity|]. exists c. simpl. apply last_snoc.
    + split; [|intros _ [=]]. intros e' _. run_tenant. apply last_snoc.
Qed.

(** ** The connection of an early introspection *)

Lemma acquire_intro_pgcon_healthy (env : AcquireEnv) (dbname : string)
    (w w1 : World) (conn : PGConnection) :
  _acquire_intro_pgcon env dbname w = (Return (Some conn), w1) ->
  is_healthy conn = true.
Proof.
  unfold _acquire_intro_pgcon, acquire_pgcon, try_except.
  unfold bind at 1. unfold bind at 1, self at 1.
  destruct (_pg_unavailable_msg (tenant w)) as [msg|].
  - simpl. unfold bind, call, raise. simpl. intros [=].
  - unfold bind at 1, self at 1.
    destruct (acquire_pgcon_loop_spec env dbname
                (Z.to_nat (max_capacity (_pg_pool (tenant w)))) 0%nat w)
      as (new & _ & _ & _ & Hreturned & _).
    destruct (acquire_pgcon_loop env dbname 0
                (Z.to_nat (max_capacity (_pg_pool (tenant w)))) w)
      as [[c|e] w2]; simpl in *.
    + intros [= <- _]. destruct (Hreturned c eq_refl) as [Hhealthy _].
      exact Hhealthy.
    + intros Hrun. destruct e; try discriminate Hrun.
      unfold code_is in Hrun.
      destruct (pg_error_code_eqb code ERROR_INVALID_CATALOG_NAME);
        [|discriminate Hrun].
      revert Hrun. run_tenant.
      destruct (_dbindex (tenant w2)) as [idx|]; simpl;
        [destruct (has_db idx dbname); simpl|]; intros [=].
Qed.

(** Once [_early_introspect_db] has acquired a connection, which is
    healthy then, it gives that connection back to the pool exactly once,
    last of all, whatever the index holds and however the extension query
    ends; the connection is discarded exactly when it is no longer healthy
    at the release.  Between the acquisition and the release it makes at
    most the one extension query, on that connection. *)
Theorem early_introspect_db_releases_connection (env : EarlyIntrospectEnv)
    (dbname : string) (w w1 : World) (conn : PGConnection) :
  _acquire_intro_pgcon (intro_acquire env) dbname w
  = (Return (Some conn), w1) ->
  let w' := snd (_early_introspect_db env dbname w) in
  is_healthy conn = true
  /\ exists queries : list event,
       trace w'
       = (trace w1 ++ queries
          ++ [pool_release dbname conn (negb (healthy_at_release env))])%list
       /\ (queries = []
           \/ queries = [pgcon_sql_fetch_val conn extensions_query]).
Proof.
  intros Hacquired w'. subst w'.
  split; [exact (acquire_intro_pgcon_healthy _ _ _ _ _ Hacquired)|].
  unfold _early_introspect_db. unfold bind at 1. rewrite Hacquired.
  unfold release_pgcon, _introspect_extensions, the_dbindex.
  run_tenant.
  destruct (healthy_at_release env); simpl;
    repeat case_step;
    first [ exists []; split; [reflexivity|left; reflexivity]
          | eexists [_]; split;
            [rewrite <- ?app_assoc; reflexivity|right; reflexivity] ].
Qed.

Lemma early_introspect_db_releases_connection_witness :
  let conn := {| pgcon_id := 3; healthy := true |} in
  let env := {| intro_acquire := intro_acquire (graphql_env idle);
                intro_extensions := intro_extensions (graphql_env idle);
                healthy_at_release := false |} in
  exists w1 queries,
    _acquire_intro_pgcon (intro_acquire env) "app"
      (start tenant_with_empty_index) = (Return (Some conn), w1)
    /\ trace (snd (_early_introspect_db env "app"
                     (start tenant_with_empty_index)))
       = (trace w1 ++ queries ++ [pool_release "app" conn true])%list.
Proof.
  intros conn env.
  destruct (_acquire_intro_pgcon (intro_acquire env) "app"
              (start tenant_with_empty_index)) as [r w1] eqn:Hrun.
  assert (Hr : r = Return (Some conn)).
  { apply (f_equal fst) in Hrun. vm_compute in Hrun. symmetry. exact Hrun. }
  subst r.
  destruct (early_introspect_db_releases_connection env "app"
              (start tenant_with_empty_index) w1 conn Hrun)
    as (_ & queries & Htrace & _).
  exists w1, queries. split; [reflexivity|exact Htrace].
Defined.

(** ** A database that is gone *)

(** [_acquire_intro_pgcon] gives no connection exactly when the
    acquisition failed with the backend error "invalid catalog name"; the
    index then has no entry for the database, the other entries being
    those it had, and nothing else was called.  Every other failure of the
    acquisition is passed on as it is, the tenant untouched. *)
Theorem acquire_intro_pgcon_forgets_dropped (env : AcquireEnv)
    (dbname : string) (w : World) :
  let acq := acquire_pgcon env dbname w in
  let run := _acquire_intro_pgcon env dbname w in
  (fst run = Return None
   <-> fst acq = Raise (BackendError ERROR_INVALID_CATALOG_NAME))
  /\ (fst run = Return None ->
        trace (snd run) = trace (snd acq)
        /\ match _dbindex (tenant (snd acq)), _dbindex (tenant (snd run)) with
           | Some idx, Some idx' => _dbs idx' = delete dbname (_dbs idx)
           | None, None => True
           | _, _ => False
           end)
  /\ (forall e, fst run = Raise e -> fst acq = Raise e /\ snd run = snd acq)
  /\ (forall conn, fst run = Return (Some conn) ->
        fst acq = Return conn /\ snd run = snd acq).
Proof.
  intros acq run. subst acq run.
  remember (_acquire_intro_pgcon env dbname w) as run eqn:Hrun.
  unfold _acquire_intro_pgcon, try_except in Hrun. unfold bind at 1 in Hrun.
  destruct (acquire_pgcon env dbname w) as [[conn|e] w1];
    simpl in Hrun; subst run; simpl.
  - split; [split; discriminate|]. split; [discriminate|].
    split; [discriminate|]. intros conn' [= <-]. split; reflexivity.
  - destruct e as [| | |code| | | | | | | |];
      try (split; [split; [discriminate|intros [=]]|];
           split; [discriminate|];
           split; [intros e' [= <-]; split; reflexivity|discriminate]).
    unfold code_is.
    destruct code; simpl;
      try (split; [split; [discriminate|intros [=]]|];
           split; [discriminate|];
           split; [intros e' [= <-]; split; reflexivity|discriminate]).
    run_tenant.
    destruct (_dbindex (tenant w1)) as [idx|] eqn:Hidx; simpl.
    + destruct (has_db idx dbname) eqn:Hhas; simpl.
      * split; [split; reflexivity|]. split; [|split; discriminate].
        intros _. split; reflexivity.
      * rewrite Hidx.
        split; [split; reflexivity|]. split; [|split; discriminate].
        intros _. split; [reflexivity|].
        unfold has_db in Hhas. apply bool_decide_eq_false in Hhas.
        symmetry. apply delete_id.
        destruct (_dbs idx !! dbname) eqn:Hlookup; [|reflexivity].
        exfalso. apply Hhas. eexists. reflexivity.
    + rewrite Hidx.
      split; [split; reflexivity|]. split; [|split; discriminate].
      intros _. split; reflexivity.
Qed.

(** ** After a database is dropped *)

(** On a tenant with an index, [on_after_drop_db] returns and calls
    nothing: the database has no entry and is no longer blocked, so it is
    connectable again unless it is the template database, and every other
    database is registered and blocked exactly as it was.  On a tenant
    without index it raises [AssertionError], counted in
    [background_errors], and the database stays blocked if it was. *)
Theorem on_after_drop_db_forgets (defines : Defines) (dbname : string)
    (w : World) :
  let r := fst (on_after_drop_db dbname w) in
  let w' := snd (on_after_drop_db dbname w) in
  match _dbindex (tenant w) with
  | Some idx =>
      r = Return tt /\ trace w' = trace w
      /\ (exists idx', _dbindex (tenant w') = Some idx'
            /\ has_db idx' dbname = false
            /\ forall other, other <> dbname ->
                 maybe_get_db idx' other = maybe_get_db idx other)
      /\ is_database_connectable defines (tenant w') dbname
         = bool_decide (dbname ≠ EDGEDB_TEMPLATE_DB defines)
      /\ forall other, other <> dbname ->
           is_database_connectable defines (tenant w') other
           = is_database_connectable defines (tenant w) other
  | None =>
      r = Raise (OtherException "AssertionError")
      /\ tenant w' = tenant w
      /\ trace w'
         = (trace w ++ [metrics_inc "background_errors"
                          [_instance_name (tenant w); "on_after_drop_db"]])%list
  end.
Proof.
  intros r w'. subst r w'. unfold on_after_drop_db, the_dbindex. run_tenant.
  destruct (_dbindex (tenant w)) as [idx|] eqn:Hidx; simpl.
  - assert (Hconn : forall blocked : gset string,
              bool_decide (dbname ∉ blocked ∖ {[dbname]}) = true).
    { intros blocked. apply bool_decide_eq_true.
      rewrite elem_of_difference, elem_of_singleton. tauto. }
    assert (Hother : forall (blocked : gset string) other, other <> dbname ->
              bool_decide (other ∉ blocked ∖ {[dbname]})
              = bool_decide (other ∉ blocked)).
    { intros blocked other Hne. apply bool_decide_ext.
      rewrite elem_of_difference, elem_of_singleton. tauto. }
    unfold is_database_connectable.
    destruct (has_db idx dbname) eqn:Hhas; simpl.
    + split; [reflexivity|]. split; [reflexivity|].
      split.
      { eexists. split; [reflexivity|]. split.
        - unfold has_db, unregister_db. simpl. apply bool_decide_eq_false.
          rewrite lookup_delete_eq. intros [x Hx]. discriminate Hx.
        - intros other Hne. unfold maybe_get_db, unregister_db. simpl.
          apply lookup_delete_ne. congruence. }
      split.
      { rewrite Hconn. apply andb_true_r. }
      intros other Hne. rewrite Hother by exact Hne. reflexivity.
    + rewrite Hidx. split; [reflexivity|]. split; [reflexivity|].
      split.
      { exists idx. split; [reflexivity|]. split; [exact Hhas|].
        intros other _. reflexivity. }
      split.
      { rewrite Hconn. apply andb_true_r. }
      intros other Hne. rewrite Hother by exact Hne. reflexivity.
  - split; [reflexivity|]. split; reflexivity.
Qed.

(** ** Serving the reported-config blobs *)

(** After [_load_reported_config] has returned, the server having type
    descriptors for the protocol versions (1, 0) and (2, 0),
    [get_report_config_data] answers every protocol version without
    [KeyError]: a version from (2, 0) on, in the lexicographic order of
    the pairs, gets the blob of the (2, 0) descriptor and every earlier
    one the blob of the (1, 0) descriptor, both around the data that was
    fetched. *)
Theorem get_report_config_data_after_load (env : ReportedConfigEnv)
    (w w' : World) (typedesc1 typedesc2 : bytes) :
  _load_reported_config env w = (Return tt, w') ->
  get_report_config_typedesc (_server (tenant w')) !! (1, 0) = Some typedesc1 ->
  get_report_config_typedesc (_server (tenant w')) !! (2, 0) = Some typedesc2 ->
  exists data,
    report_configs env = Return (Some data)
    /\ forall major minor : Z,
         (2 < major \/ (major = 2 /\ 0 <= minor) ->
          get_report_config_data (major, minor) (tenant w')
          = Return (reported_config_blob typedesc2 data))
         /\ (major < 2 \/ (major = 2 /\ minor < 0) ->
             get_report_config_data (major, minor) (tenant w')
             = Return (reported_config_blob typedesc1 data)).
Proof.
  intros Hrun Hreg1 Hreg2.
  unfold _load_reported_config in Hrun. revert Hrun. run_tenant. intros Hrun.
  apply use_sys_pgcon_returns in Hrun as (c & w1 & w2 & Hbody & ->).
  simpl in Hreg1, Hreg2. revert Hbody. run_tenant.
  destruct (report_configs env) as [data|] eqn:Hdata; simpl; [|discriminate].
  match goal with
  | |- context [store_report_config_data ?items ?d ?w0] =>
      destruct (store_report_config_data items d w0) as [[[]|e] w3] eqn:Hstore
  end; simpl; [|discriminate].
  intros [= <-].
  apply store_report_config_data_spec in Hstore
      as (Hserver & _ & Hitems); [|apply NoDup_fst_map_to_list].
  simpl in Hserver. rewrite Hserver in Hreg1, Hreg2.
  apply elem_of_map_to_list in Hreg1, Hreg2.
  destruct (Hitems _ _ Hreg1) as (d & -> & _ & Hblob1).
  destruct (Hitems _ _ Hreg2) as (d' & [= <-] & _ & Hblob2).
  exists d. split; [reflexivity|]. intros major minor.
  unfold get_report_config_data, version_ge. cbn [fst snd tenant].
  change (_report_config_data (assign_sys_pgcon_waiter false (tenant w3)))
    with (_report_config_data (tenant w3)).
  split.
  - intros Hge.
    assert (Hslot : (2 <? major) || (major =? 2) && (0 <=? minor) = true).
    { destruct (Z.ltb_spec 2 major); [reflexivity|].
      destruct (Z.eqb_spec major 2); [|lia].
      destruct (Z.leb_spec 0 minor); [reflexivity|lia]. }
    rewrite Hslot, Hblob2. reflexivity.
  - intros Hlt.
    assert (Hslot : (2 <? major) || (major =? 2) && (0 <=? minor) = false).
    { destruct (Z.ltb_spec 2 major); [lia|].
      destruct (Z.eqb_spec major 2); [|reflexivity].
      destruct (Z.leb_spec 0 minor); [lia|reflexivity]. }
    rewrite Hslot, Hblob1. reflexivity.
Qed.

Lemma get_report_config_data_after_load_witness :
  let w' := snd (_load_reported_config sample_report_env
                   (start initing_tenant)) in
  get_report_config_data (3, 1) (tenant w')
  = Return (reported_config_blob [x03] [x0a; x0b; x0c])
  /\ get_report_config_data (0, 13) (tenant w')
     = Return (reported_config_blob [x01; x02] [x0a; x0b; x0c]).
Proof.
  cbv zeta.
  assert (Hr : fst (_load_reported_config sample_report_env
                      (start initing_tenant)) = Return tt)
    by (vm_compute; reflexivity).
  assert (Hreg1 : get_report_config_typedesc
                    (_server (tenant (snd (_load_reported_config
                       sample_report_env (start initing_tenant))))) !! (1, 0)
                  = Some [x01; x02])
    by (vm_compute; reflexivity).
  assert (Hreg2 : get_report_config_typedesc
                    (_server (tenant (snd (_load_reported_config
                       sample_report_env (start initing_tenant))))) !! (2, 0)
                  = Some [x03])
    by (vm_compute; reflexivity).
  destruct (_load_reported_config sample_report_env (start initing_tenant))
    as [r w'] eqn:Hrun.
  simpl in Hr, Hreg1, Hreg2. subst r. simpl snd.
  destruct (get_report_config_data_after_load sample_report_env
              (start initing_tenant) w' [x01; x02] [x03] Hrun Hreg1 Hreg2)
    as (data & Hdata & Hget).
  injection Hdata as <-.
  split.
  - apply (Hget 3 1). left. lia.
  - apply (Hget 0 13). left. lia.
Defined.

(** Two blobs framed as [_load_reported_config] frames them are equal
    only if they hold the same type descriptor and the same data: the
    length prefixes written by [struct.pack] tell where each part ends. *)
Theorem reported_config_framing_injective
    (typedesc data typedesc' data' h g h' g' : bytes) :
  struct_pack_L (len typedesc) = Return h ->
  struct_pack_L (len data) = Return g ->
  struct_pack_L (len typedesc') = Return h' ->
  struct_pack_L (len data') = Return g' ->
  (h ++ typedesc ++ g ++ data = h' ++ typedesc' ++ g' ++ data')%list ->
  typedesc = typedesc' /\ data = data'.
Proof.
  intros Hh Hg Hh' Hg' Heq.
  apply struct_pack_L_inv in Hh as [Hrange ->], Hg as [Hgrange ->],
    Hh' as [Hrange' ->], Hg' as [Hgrange' ->].
  apply app_inj_1 in Heq as [Hlen Heq]; [|reflexivity].
  apply (f_equal from_bytes_big) in Hlen.
  destruct (from_bytes_big_BE_u32 _ Hrange) as [Hread _].
  destruct (from_bytes_big_BE_u32 _ Hrange') as [Hread' _].
  rewrite Hread, Hread' in Hlen. unfold len in Hlen.
  apply app_inj_1 in Heq as [Htypedesc Heq]; [|lia].
  apply app_inj_1 in Heq as [_ Hdata]; [|reflexivity].
  split; assumption.
Qed.

Lemma reported_config_framing_injective_witness :
  [x01; x02] = [x01; x02] /\ [x0a; x0b; x0c] = [x0a; x0b; x0c].
Proof.
  apply (reported_config_framing_injective
           [x01; x02] [x0a; x0b; x0c] [x01; x02] [x0a; x0b; x0c]
           [x00; x00; x00; x02] [x00; x00; x00; x03]
           [x00; x00; x00; x02] [x00; x00; x00; x03]);
    reflexivity.
Defined.

(** ** Failover signals on the system connection *)



(** With adaptive HA, an error of [set_state_failover] that reaches
    [on_sys_pgcon_parameter_status_updated] is counted twice in
    [background_errors], once by each of the two nested handlers, before
    it is raised again. *)
Theorem failover_signal_error_counted_twice (set_state_failover : M unit)
    (w w1 : World) (e : exn) :
  _running (tenant w) = true ->
  _backend_adaptive_ha (tenant w) = true ->
  set_state_failover w = (Raise e, w1) ->
  on_sys_pgcon_parameter_status_updated set_state_failover
    "in_hot_standby" "on" w
  = (Raise e,
     {| tenant := tenant w1;
        trace :=
          (trace w1
           ++ [metrics_inc "background_errors"
                 [_instance_name (tenant w1); "on_sys_pgcon_failover_signal"];
               metrics_inc "background_errors"
                 [_instance_name (tenant w1);
                  "on_sys_pgcon_parameter_status_updated"]])%list |}).
Proof.
  intros Hrunning Hadaptive Hfails.
  unfold on_sys_pgcon_parameter_status_updated, on_sys_pgcon_failover_signal,
    try_except.
  run_tenant. rewrite Hrunning. simpl. rewrite Hadaptive, Hfails. simpl.
  rewrite <- app_assoc. reflexivity.
Qed.

Lemma failover_signal_error_counted_twice_witness :
  let w := start (assign_backend_adaptive_ha true running_tenant) in
  trace (snd (on_sys_pgcon_parameter_status_updated
                (raise (OtherException "AttributeError"))
                "in_hot_standby" "on" w))
  = [metrics_inc "background_errors"
       ["localtest"; "on_sys_pgcon_failover_signal"];
     metrics_inc "background_errors"
       ["localtest"; "on_sys_pgcon_parameter_status_updated"]].
Proof.
  intros w.
  rewrite (failover_signal_error_counted_twice
             (raise (OtherException "AttributeError")) w w
             (OtherException "AttributeError") eq_refl eq_refl eq_refl).
  reflexivity.
Defined.

(** ** A stopped tenant *)

(** Once [stop] has run on a tenant that is no longer initing, however
    the cluster's [stop_watching] ended, the tenant accepts no connection
    and every path to the system connection is closed without a call to
    the backend: [use_sys_pgcon] raises [RuntimeError] and touches
    nothing, [signal_sysevent] and a failover signal do nothing, and
    [_reconnect_sys_pgcon] returns at once, only setting the ready
    event. *)
Theorem stop_quiesces (stop_watching : result unit) (w : World) :
  _initing (tenant w) = false ->
  let w' := snd (stop stop_watching w) in
  trace w' = trace w
  /\ is_accepting_connections (tenant w') = false
  /\ (forall A (env : SysPgconEnv) (body : PGConnection -> M A),
        use_sys_pgcon env body w'
        = (Raise (RuntimeError "EdgeDB server is not running."), w'))
  /\ (forall env name dbname,
        signal_sysevent env name dbname w' = (Return tt, w'))
  /\ (forall set_state_failover,
        on_sys_pgcon_failover_signal set_state_failover w' = (Return tt, w'))
  /\ (forall fuel defines env listen,
        _reconnect_sys_pgcon fuel defines env listen w'
        = Some (Return tt, ready_evt_set w')).
Proof.
  intros Hinited w'.
  assert (Hw' : w' = {| tenant := assign_accept_new_tasks false
                                     (assign_running false (tenant w));
                        trace := trace w |}).
  { subst w'. unfold stop. run_tenant. destruct stop_watching; reflexivity. }
  rewrite Hw'. clear w' Hw'.
  split; [reflexivity|].
  split; [apply andb_false_r|].
  split.
  { intros A env body. unfold use_sys_pgcon. run_tenant.
    unfold not_running. simpl. rewrite Hinited. reflexivity. }
  split.
  { intros env name dbname. unfold signal_sysevent. run_tenant.
    unfold not_running. simpl. rewrite Hinited. reflexivity. }
  split.
  { intros f. unfold on_sys_pgcon_failover_signal. run_tenant. reflexivity. }
  intros fuel defines env listen. unfold _reconnect_sys_pgcon.
  destruct fuel; reflexivity.
Qed.

Lemma stop_quiesces_witness :
  let w' := snd (stop (Return tt) (start running_tenant)) in
  is_accepting_connections (tenant w') = false
  /\ _reconnect_sys_pgcon 0 sample_defines starting_up_env quiet_listen w'
     = Some (Return tt, ready_evt_set w').
Proof.
  intros w'.
  destruct (stop_quiesces (Return tt) (start running_tenant) eq_refl)
    as (_ & Haccepting & _ & _ & _ & Hreconnect).
  split; [exact Haccepting|].
  apply (Hreconnect 0%nat sample_defines starting_up_env quiet_listen).
Defined.

(** ** Loading the token lists *)

Lemma splitlines_no_boundary (n : nat) :
  forall text, (String.length text <= n)%nat ->
  forall line, line ∈ splitlines text ->
  forall c, is_line_boundary c = true -> contains_char c line = false.
Proof.
  induction n as [|n IH]; intros text Hlen line Hin c Hc.
  - destruct text; [inversion Hin|simpl in Hlen; lia].
  - destruct text as [|c0 text]; [inversion Hin|].
    simpl in Hlen. simpl in Hin.
    destruct (is_line_boundary c0) eqn:Hc0.
    + destruct text as [|c1 text].
      * apply list_elem_of_singleton in Hin as ->. reflexivity.
      * simpl in Hlen.
        destruct ((N_of_ascii c0 =? 13) && (N_of_ascii c1 =? 10))%N;
          apply elem_of_cons in Hin as [->|Hin]; try reflexivity.
        -- apply (IH text); [lia|exact Hin|exact Hc].
        -- apply (IH (String c1 text)); [simpl; lia|exact Hin|exact Hc].
    + destruct (splitlines text) as [|line0 lines] eqn:Hlines.
      * apply list_elem_of_singleton in Hin as ->. simpl.
        destruct (Ascii.eqb_spec c c0) as [->|_]; [congruence|reflexivity].
      * apply elem_of_cons in Hin as [->|Hin].
        -- simpl. destruct (Ascii.eqb_spec c c0) as [->|_]; [congruence|].
           simpl. apply (IH text); [lia| |exact Hc].
           rewrite Hlines. apply list_elem_of_here.
        -- apply (IH text); [lia| |exact Hc].
           rewrite Hlines. apply list_elem_of_further. exact Hin.
Qed.

(** After [load_jwcrypto] has read an allowlist file, no revocation list
    being configured, [check_jwt] accepts a token with a string subject
    exactly when the subject is not empty and is one of the lines of the
    file as [splitlines] cuts them.  So an allowlist file without lines
    rejects every token, and a subject that contains a line break is
    never accepted. *)
Theorem load_jwcrypto_allowlist_lines (text : string) (w : World) :
  _jwt_revocation_list (tenant w) = None ->
  let run := load_jwcrypto (Some (Return text)) None w in
  fst run = Return tt
  /\ (forall subject : string,
        fst (check_jwt {[ "sub" := JStr subject ]} (snd run)) = Return tt
        <-> subject <> "" /\ subject ∈ splitlines text)
  /\ (forall (subject : string) (c : ascii),
        is_line_boundary c = true -> contains_char c subject = true ->
        fst (check_jwt {[ "sub" := JStr subject ]} (snd run)) <> Return tt).
Proof.
  intros Hrevocation run.
  assert (Haccepts : forall subject : string,
            fst (check_jwt {[ "sub" := JStr subject ]} (snd run)) = Return tt
            <-> subject <> "" /\ subject ∈ splitlines text).
  { intros subject. subst run.
    unfold load_jwcrypto, load_jwt_list, check_jwt, claims_get. run_tenant.
    rewrite lookup_singleton_eq. simpl.
    destruct (String.eqb_spec subject "") as [->|Hne]; simpl.
    - split; [discriminate|]. intros [Hne _]. congruence.
    - destruct (bool_decide (subject ∈ (list_to_set (splitlines text) : gset string)))
        eqn:Hin; simpl.
      + rewrite Hrevocation. simpl.
        apply bool_decide_eq_true in Hin. apply elem_of_list_to_set in Hin.
        split; [intros _; split; assumption|reflexivity].
      + apply bool_decide_eq_false in Hin.
        split; [discriminate|]. intros [_ Hline]. exfalso. apply Hin.
        apply elem_of_list_to_set. exact Hline. }
  split; [reflexivity|]. split; [exact Haccepts|].
  intros subject c Hc Hcontains Haccepted.
  apply Haccepts in Haccepted as [_ Hline].
  pose proof (splitlines_no_boundary (String.length text) text (le_n _)
                subject Hline c Hc) as Hnone.
  congruence.
Qed.

Lemma load_jwcrypto_allowlist_lines_witness :
  let text := String "a" (String (ascii_of_N 13) (String (ascii_of_N 10) "b")) in
  let run := load_jwcrypto (Some (Return text)) None (start new_tenant) in
  splitlines text = ["a"; "b"]
  /\ fst (check_jwt {[ "sub" := JStr "b" ]} (snd run)) = Return tt.
Proof.
  intros text run. split; [reflexivity|].
  destruct (load_jwcrypto_allowlist_lines text (start new_tenant) eq_refl)
    as (_ & Haccepts & _).
  apply Haccepts. split; [discriminate|].
  apply list_elem_of_further, list_elem_of_here.
Defined.

(** ** Authentication methods *)

Section AuthProperties.

Context {Transport : Type} `{EqDecision Transport}.
Variable Method : Type.
Variable transports : Method -> list Transport.

Lemma insert_by_priority_ascending (a : Auth Method) (l : list (Auth Method)) :
  ascending Method l -> ascending Method (insert_by_priority Method a l).
Proof.
  induction l as [|b l IH]; intros Hl.
  - simpl. split; [constructor|exact I].
  - simpl. destruct (Z.leb_spec (priority Method a) (priority Method b)).
    + simpl. split; [|exact Hl]. destruct Hl as [Hb _].
      constructor; [assumption|].
      eapply Forall_impl; [exact Hb|]. simpl. intros x Hx. lia.
    + destruct Hl as [Hb Hl]. simpl. split; [|apply IH; exact Hl].
      assert (Hins : forall x, x ∈ insert_by_priority Method a l ->
                               x = a \/ x ∈ l).
      { clear. induction l as [|c l IH]; simpl; intros x Hx.
        - apply list_elem_of_singleton in Hx. left. exact Hx.
        - destruct (priority Method a <=? priority Method c).
          + apply elem_of_cons in Hx as [Hx|Hx]; [left|right]; assumption.
          + apply elem_of_cons in Hx as [Hx|Hx].
            * right. subst x. apply list_elem_of_here.
            * destruct (IH x Hx) as [Heq|Hin]; [left; exact Heq|].
              right. apply list_elem_of_further. exact Hin. }
      apply Forall_forall. intros x Hx.
      destruct (Hins x Hx) as [->|Hin]; [lia|].
      rewrite Forall_forall in Hb. apply Hb. exact Hin.
Qed.

Lemma sorted_ascending (auth : list (Auth Method)) :
  ascending Method (sorted Method auth).
Proof.
  induction auth as [|a auth IH]; simpl; [exact I|].
  apply insert_by_priority_ascending. exact IH.
Qed.

Lemma find_elem_of (p : Auth Method -> bool) (l : list (Auth Method))
    (b : Auth Method) :
  find p l = Some b -> b ∈ l.
Proof.
  induction l as [|c l IH]; simpl; [discriminate|].
  destruct (p c).
  - intros [= ->]. apply list_elem_of_here.
  - intros Hb. apply list_elem_of_further, IH, Hb.
Qed.

Lemma find_insert_by_priority (p : Auth Method -> bool) (a : Auth Method)
    (l : list (Auth Method)) :
  ascending Method l ->
  find p (insert_by_priority Method a l)
  = if p a then
      match find p l with
      | Some b =>
          if priority Method a <=? priority Method b then Some a else Some b
      | None => Some a
      end
    else find p l.
Proof.
  induction l as [|b l IH]; intros Hl.
  - simpl. destruct (p a); reflexivity.
  - destruct Hl as [Hb Hl]. simpl insert_by_priority.
    destruct (Z.leb_spec (priority Method a) (priority Method b)) as [Hle|Hgt].
    + change (find p (a :: b :: l))
        with (if p a then Some a else find p (b :: l)).
      destruct (p a); [|reflexivity].
      destruct (find p (b :: l)) as [b'|] eqn:Hfind; [|reflexivity].
      apply find_elem_of in Hfind.
      assert (priority Method b <= priority Method b').
      { apply elem_of_cons in Hfind as [->|Hin]; [lia|].
        rewrite Forall_forall in Hb. apply Hb. exact Hin. }
      destruct (Z.leb_spec (priority Method a) (priority Method b'));
        [reflexivity|lia].
    + simpl. destruct (p b) eqn:Hpb.
      * destruct (p a); [|reflexivity].
        destruct (Z.leb_spec (priority Method a) (priority Method b));
          [lia|reflexivity].
      * apply IH. exact Hl.
Qed.

Lemma find_sorted (p : Auth Method -> bool) (auth : list (Auth Method)) :
  find p (sorted Method auth) = first_of_least_priority Method p auth.
Proof.
  induction auth as [|a auth IH]; [reflexivity|].
  simpl. rewrite find_insert_by_priority by apply sorted_ascending.
  rewrite IH. reflexivity.
Qed.

Lemma first_of_least_priority_none (p : Auth Method -> bool)
    (l : list (Auth Method)) :
  first_of_least_priority Method p l = None ->
  forall b, b ∈ l -> p b = false.
Proof.
  induction l as [|a l IH]; intros Hnone b Hin; [inversion Hin|].
  simpl in Hnone. destruct (p a) eqn:Hpa.
  - destruct (first_of_least_priority Method p l) as [c|];
      [destruct (priority Method a <=? priority Method c)|]; discriminate.
  - apply elem_of_cons in Hin as [->|Hin]; [exact Hpa|].
    apply IH; assumption.
Qed.

Lemma first_of_least_priority_some (p : Auth Method -> bool)
    (l : list (Auth Method)) :
  forall a, first_of_least_priority Method p l = Some a ->
  exists l1 l2,
    l = (l1 ++ a :: l2)%list
    /\ p a = true
    /\ (forall b, b ∈ l1 -> p b = true ->
          priority Method a < priority Method b)
    /\ (forall b, b ∈ l2 -> p b = true ->
          priority Method a <= priority Method b).
Proof.
  induction l as [|a0 l IH]; intros a Hsome; [discriminate|].
  simpl in Hsome. destruct (p a0) eqn:Hpa0.
  - destruct (first_of_least_priority Method p l) as [c|] eqn:Hrest.
    + destruct (IH c eq_refl) as (l1 & l2 & -> & Hpc & Hbefore & Hafter).
      destruct (Z.leb_spec (priority Method a0) (priority Method c))
        as [Hle|Hgt]; injection Hsome as <-.
      * exists [], (l1 ++ c :: l2)%list. split; [reflexivity|].
        split; [exact Hpa0|]. split; [intros b Hb; inversion Hb|].
        intros b Hb Hpb. apply elem_of_app in Hb as [Hb|Hb].
        -- specialize (Hbefore b Hb Hpb). lia.
        -- apply elem_of_cons in Hb as [->|Hb]; [lia|].
           specialize (Hafter b Hb Hpb). lia.
      * exists (a0 :: l1), l2. split; [reflexivity|].
        split; [exact Hpc|]. split; [|exact Hafter].
        intros b Hb Hpb. apply elem_of_cons in Hb as [->|Hb]; [lia|].
        apply Hbefore; assumption.
    + injection Hsome as <-.
      exists [], l. split; [reflexivity|]. split; [exact Hpa0|].
      split; [intros b Hb; inversion Hb|].
      intros b Hb Hpb.
      rewrite (first_of_least_priority_none p l Hrest b Hb) in Hpb.
      discriminate Hpb.
  - destruct (IH a Hsome) as (l1 & l2 & -> & Hpa & Hbefore & Hafter).
    exists (a0 :: l1), l2. split; [reflexivity|].
    split; [exact Hpa|]. split; [|exact Hafter].
    intros b Hb Hpb. apply elem_of_cons in Hb as [->|Hb]; [congruence|].
    apply Hbefore; assumption.
Qed.

(** With [_sys_auth] as [populate_sys_auth] builds it from the [auth]
    setting, [get_auth_method] answers with the default method when no
    entry matches the user and the transport, and otherwise with the
    method of the matching entry of least priority, the first such entry
    in the order of the setting when several share that priority. *)
Theorem get_auth_method_least_priority
    (default_auth_method : Transport -> Method) (auth : list (Auth Method))
    (name : string) (transport : Transport) (w : World) :
  let matches := auth_matches Method transports name transport in
  forall sys_auth w',
    populate_sys_auth Method auth w = (Return sys_auth, w') ->
    let answer :=
      get_auth_method Method transports default_auth_method sys_auth
        name transport in
    w' = w
    /\ ((forall a, a ∈ auth -> matches a = false) ->
        answer = default_auth_method transport)
    /\ ((exists a, a ∈ auth /\ matches a = true) ->
        exists l1 a l2,
          auth = (l1 ++ a :: l2)%list
          /\ answer = method Method a
          /\ matches a = true
          /\ (forall b, b ∈ l1 -> matches b = true ->
                priority Method a < priority Method b)
          /\ (forall b, b ∈ l2 -> matches b = true ->
                priority Method a <= priority Method b)).
Proof.
  intros matches sys_auth w' Hpopulated answer.
  assert (Hsys : sys_auth = sorted Method auth /\ w' = w).
  { revert Hpopulated. unfold populate_sys_auth, the_dbindex. run_tenant.
    destruct (_dbindex (tenant w)); simpl; [|discriminate].
    intros [= <- <-]. split; reflexivity. }
  destruct Hsys as [-> ->]. split; [reflexivity|].
  subst answer. unfold get_auth_method. rewrite find_sorted. fold matches.
  destruct (first_of_least_priority Method matches auth) as [a|] eqn:Hfirst.
  - apply first_of_least_priority_some in Hfirst
      as (l1 & l2 & -> & Hmatch & Hbefore & Hafter).
    split.
    + intros Hnone. rewrite Hnone in Hmatch; [discriminate|].
      apply elem_of_app. right. apply list_elem_of_here.
    + intros _. exists l1, a, l2. repeat split; assumption.
  - split; [reflexivity|].
    intros (a & Hin & Hmatch).
    rewrite (first_of_least_priority_none matches auth Hfirst a Hin) in Hmatch.
    discriminate Hmatch.
Qed.

End AuthProperties.

Lemma get_auth_method_least_priority_witness :
  let auth :=
    [ {| priority := 10; user := {["*"]}; method := "Trust" |};
      {| priority := 0; user := {["admin"]}; method := "SCRAM" |};
      {| priority := 0; user := {["*"]}; method := "JWT" |} ] in
  let answer :=
    get_auth_method string (fun _ => []) (fun _ : unit => "default")
      (sorted string auth) "admin" tt in
  exists l1 a l2,
    auth = (l1 ++ a :: l2)%list /\ answer = method string a
    /\ forall b, b ∈ l1 ->
         auth_matches string (fun _ => []) "admin" tt b = true ->
         priority string a < priority string b.
Proof.
  intros auth answer.
  destruct (get_auth_method_least_priority string (fun _ => [])
              (fun _ : unit => "default") auth "admin" tt
              (start tenant_with_empty_index) (sorted string auth)
              (start tenant_with_empty_index) eq_refl)
    as (_ & _ & Hmatching).
  destruct Hmatching as (l1 & a & l2 & Hsplit & Hanswer & _ & Hbefore & _).
  - exists {| priority := 10; user := {["*"]}; method := "Trust" |}.
    split; [apply list_elem_of_here|reflexivity].
  - exists l1, a, l2. split; [exact Hsplit|]. split; [exact Hanswer|].
    exact Hbefore.
Defined.

(** ** The REPL context *)

(** [toggle_query_mode] never raises [ValueError] and changes the query
    mode only; each toggle gives a mode other than the current one, and
    three toggles in a row give back the context they started from, the
    two contexts in between being different. *)
Theorem toggle_query_mode_cycles (ctx : ReplContext) :
  exists ctx1 ctx2,
    toggle_query_mode ctx = Return ctx1
    /\ toggle_query_mode ctx1 = Return ctx2
    /\ toggle_query_mode ctx2 = Return ctx
    /\ query_mode ctx1 <> query_mode ctx
    /\ query_mode ctx2 <> query_mode ctx
    /\ query_mode ctx2 <> query_mode ctx1
    /\ show_implicit_fields ctx1 = show_implicit_fields ctx
    /\ introspect_types ctx1 = introspect_types ctx
    /\ typenames ctx1 = typenames ctx.
Proof.
  destruct ctx as [implicit introspect mode names].
  destruct mode; unfold toggle_query_mode; simpl;
    do 2 eexists; repeat split; discriminate.
Qed.

(** ** Request helpers of the auth extension *)

(** [_get_search_param] returns the first value of a key that has values,
    and reports a key without values like a missing key, with
    [InvalidData]; [_maybe_get_form_field] differs from
    [_maybe_get_search_param] exactly on a key whose list of values is
    empty, where it raises [IndexError]. *)
Theorem search_param_and_form_field (dict : gmap string (list string))
    (key : string) :
  (forall val, _get_search_param dict key = Ok val
     <-> exists rest, dict !! key = Some (val :: rest))
  /\ ((dict !! key = None \/ dict !! key = Some []) ->
      _get_search_param dict key
      = Fail (InvalidData ("Missing query parameter: " +:+ key)))
  /\ (_maybe_get_form_field dict key = Fail IndexError
      <-> dict !! key = Some [])
  /\ (dict !! key <> Some [] ->
      _maybe_get_form_field dict key
      = Ok (_maybe_get_search_param dict key)).
Proof.
  unfold _get_search_param, _maybe_get_form_field, _maybe_get_search_param.
  destruct (dict !! key) as [[|param rest]|]; simpl.
  - split; [intros val; split; [discriminate|intros [r [=]]]|].
    split; [reflexivity|]. split; [split; reflexivity|]. congruence.
  - split.
    { intros val. split.
      - intros [= ->]. exists rest. reflexivity.
      - intros [r [= -> _]]. reflexivity. }
    split; [intros [[=]|[=]]|].
    split; [split; discriminate|]. reflexivity.
  - split; [intros val; split; [discriminate|intros [r [=]]]|].
    split; [reflexivity|]. split; [split; discriminate|]. reflexivity.
Qed.

(** [_check_keyset] returns exactly when every field of the key set is a
    key of the candidate.  Otherwise it raises [InvalidData], and the
    text "Missing required fields: " of the message is part of the
    separator that [join] puts between the missing fields: with one field
    missing the message is the name of that field and nothing else, and
    with two it is the two names around the separator. *)
Theorem check_keyset_missing_fields {V} (candidate : gmap string V)
    (keyset : list string) :
  let missing := filter (fun field => candidate !! field = None) keyset in
  (_check_keyset candidate keyset = Ok tt
   <-> forall field, field ∈ keyset -> is_Some (candidate !! field))
  /\ (forall field, missing = [field] ->
        _check_keyset candidate keyset = Fail (InvalidData field))
  /\ (forall field1 field2, missing = [field1; field2] ->
        _check_keyset candidate keyset
        = Fail (InvalidData
                  (field1 +:+ "Missing required fields: , " +:+ field2))).
Proof.
  intros missing. unfold _check_keyset. fold missing.
  split.
  - destruct missing as [|field0 rest] eqn:Hmissing.
    + split; [|reflexivity]. intros _ field Hin.
      destruct (candidate !! field) eqn:Hfield; [eexists; reflexivity|].
      assert (Hfiltered : field ∈ missing).
      { subst missing. apply list_elem_of_filter. split; assumption. }
      rewrite Hmissing in Hfiltered. inversion Hfiltered.
    + split; [discriminate|]. intros Hall. exfalso.
      assert (Hfiltered : field0 ∈ missing)
        by (rewrite Hmissing; apply list_elem_of_here).
      subst missing. apply list_elem_of_filter in Hfiltered as [Hnone Hin].
      destruct (Hall field0 Hin) as [v Hv]. congruence.
  - split.
    + intros field ->. reflexivity.
    + intros field1 field2 ->. reflexivity.
Qed.

(** ** A database stays blocked until it is dropped *)

(** Past its first check, [ensure_database_not_connected] never unblocks
    the database itself: as long as the other tasks do not unblock it
    either, the database is blocked when the call ends, whether it returns
    or raises, so it is not connectable.  When the first check fails, on
    live views of the database, the call has changed nothing and blocked
    nothing. *)
Theorem ensure_database_not_connected_leaves_blocked (fuel : nat) (base : Z)
    (defines : Defines) (env : EnsureEnv) (dbname : string) (w w' : World)
    (r : result unit) :
  others_keep_blocked dbname env ->
  ensure_database_not_connected fuel base env dbname w = Some (r, w') ->
  if has_local_connections (tenant w) dbname
  then r = Raise (being_accessed dbname) /\ w' = w
  else dbname ∈ _block_new_connections (tenant w')
       /\ is_database_connectable defines (tenant w') dbname = false.
Proof.
  intros Hothers Hrun.
  destruct (has_local_connections (tenant w) dbname) eqn:Hlocal.
  - unfold ensure_database_not_connected in Hrun. rewrite Hlocal in Hrun.
    injection Hrun as <- <-. split; reflexivity.
  - pose proof (ensure_database_not_connected_blocked fuel base env dbname
                  w w' r Hothers Hlocal Hrun) as Hblocked.
    split; [exact Hblocked|].
    unfold is_database_connectable.
    rewrite (bool_decide_eq_false_2 (dbname ∉ _block_new_connections (tenant w')))
      by (intros Hnot; exact (Hnot Hblocked)).
    apply andb_false_r.
Qed.

Lemma ensure_database_not_connected_leaves_blocked_witness :
  exists r w',
    ensure_database_not_connected 50 10 busy_env "app" (start running_tenant)
    = Some (r, w')
    /\ "app" ∈ _block_new_connections (tenant w')
    /\ is_database_connectable sample_defines (tenant w') "app" = false.
Proof.
  destruct (ensure_database_not_connected 50 10 busy_env "app"
              (start running_tenant)) as [[r w']|] eqn:Hrun.
  - exists r, w'. split; [reflexivity|].
    apply (ensure_database_not_connected_leaves_blocked 50 10 sample_defines
             busy_env "app" (start running_tenant) w' r); [|exact Hrun].
    repeat split; intros t Ht; exact Ht.
  - apply (f_equal (fmap fst)) in Hrun. vm_compute in Hrun.
    discriminate Hrun.
Defined.

(** [on_before_drop_db] and [on_before_create_db_from_template] refuse
    the database the session has open with [ExecutionError], before
    anything is blocked or signalled.  When either returns, the database
    is not the open one, it had no live view on this tenant, and, the
    other tasks not unblocking it, it is blocked. *)
Theorem on_before_drop_db_guards (fuel : nat) (base : Z) (env : EnsureEnv)
    (dbname current_dbname : string) (w : World) :
  others_keep_blocked dbname env ->
  let drop := on_before_drop_db fuel base env dbname current_dbname w in
  let template :=
    on_before_create_db_from_template fuel base env dbname current_dbname w in
  (current_dbname = dbname ->
     (exists msg, drop = Some (Raise (ExecutionError msg), w))
     /\ (exists msg, template = Some (Raise (ExecutionError msg), w)))
  /\ (forall w1, drop = Some (Return tt, w1) \/ template = Some (Return tt, w1) ->
        current_dbname <> dbname
        /\ has_local_connections (tenant w) dbname = false
        /\ dbname ∈ _block_new_connections (tenant w1)).
Proof.
  intros Hothers drop template. subst drop template.
  unfold on_before_drop_db, on_before_create_db_from_template.
  destruct (String.eqb_spec current_dbname dbname) as [Heq|Hne].
  - split.
    + intros _. split; eexists; reflexivity.
    + intros w1 [Hrun|Hrun]; discriminate Hrun.
  - split; [intros Heq; congruence|].
    intros w1 Hrun.
    assert (Hensure : ensure_database_not_connected fuel base env dbname w
                      = Some (Return tt, w1)) by (destruct Hrun; assumption).
    split; [exact Hne|].
    destruct (has_local_connections (tenant w) dbname) eqn:Hlocal.
    + unfold ensure_database_not_connected in Hensure.
      rewrite Hlocal in Hensure. discriminate Hensure.
    + split; [reflexivity|].
      exact (ensure_database_not_connected_blocked fuel base env dbname
               w w1 (Return tt) Hothers Hlocal Hensure).
Qed.

Lemma on_before_drop_db_guards_witness :
  (exists msg,
     on_before_drop_db 5 10 drained_env "app" "app" (start running_tenant)
     = Some (Raise (ExecutionError msg), start running_tenant))
  /\ forall w1,
       on_before_drop_db 5 10 drained_env "app" "main" (start running_tenant)
       = Some (Return tt, w1) ->
       "app" ∈ _block_new_connections (tenant w1).
Proof.
  assert (Hothers : others_keep_blocked "app" drained_env)
    by (repeat split; intros t Ht; exact Ht).
  split.
  - destruct (on_before_drop_db_guards 5 10 drained_env "app" "app"
                (start running_tenant) Hothers) as [Hopen _].
    destruct (Hopen eq_refl) as [Hdrop _]. exact Hdrop.
  - intros w1 Hrun.
    destruct (on_before_drop_db_guards 5 10 drained_env "app" "main"
                (start running_tenant) Hothers) as [_ Hreturned].
    destruct (Hreturned w1 (or_introl Hrun)) as (_ & _ & Hblocked).
    exact Hblocked.
Defined.
